(** * RBAC authorization core of the REST template

    A shallow embedding of the TypeScript sources that decide who may call a
    protected route:

    - [Result] ([lib/result/result.ts]);
    - the error classes ([lib/errors], [modules/common/errors]) and the part
      of [ErrorMapper] that picks the HTTP status;
    - [UserRepositoryImpl.findById], [GetActiveUserByIdUseCase],
      [CheckPermissionUseCase];
    - [AuthenticationMiddleware.handle] and
      [AuthorizationMiddleware.requirePermission];
    - the route stack built by [PermissionsRoutes.setupRoutes].

    JavaScript strings are embedded as [string]; the only separators the
    code splits on are ASCII (a colon and a space), so working on bytes
    instead of UTF-16 code units does not change any split.  [await] is
    sequencing: every collaborator call is a read that resolves to one
    value, and the data behind the collaborators does not change while one
    request is served.  Timestamps taken with [new Date()] inside error
    objects are left out. *)

From Stdlib Require Import List String Ascii Bool ZArith Lia.
Import ListNotations.
Local Open Scope string_scope.
Local Open Scope list_scope.

(** * Part I: the program *)

(** ** JavaScript values used by the code *)

(** How an expression completes: with a value, or by [throw]. *)
Inductive Completion (A : Type) : Type :=
| Returns (a : A)
| Throws (message : string).
Arguments Returns {A} a.
Arguments Throws {A} message.

Module Js.

(** [!s] for [s : string | undefined]: true on [undefined] and on [""]. *)
Definition falsy (s : option string) : bool :=
  match s with
  | None => true
  | Some EmptyString => true
  | Some (String _ _) => false
  end.

(** [s !== lit] for [s : string | undefined]. *)
Definition strictNe (s : option string) (lit : string) : bool :=
  match s with
  | None => true
  | Some s' => negb (String.eqb s' lit)
  end.

(** [s.split(sep)] for a one-character separator.  The result is never
    empty: a string without the separator comes back whole. *)
Fixpoint split (sep : ascii) (s : string) : list string :=
  match s with
  | EmptyString => [EmptyString]
  | String c rest =>
      if Ascii.eqb c sep then EmptyString :: split sep rest
      else match split sep rest with
           | [] => [String c EmptyString]
           | piece :: pieces => String c piece :: pieces
           end
  end.

(** [const [a, b] = xs]: a position past the end reads [undefined]. *)
Definition destructure2 (xs : list string) : option string * option string :=
  (nth_error xs 0, nth_error xs 1).

Definition colon : ascii := ":"%char.
Definition space : ascii := " "%char.

End Js.

(** ** [Result<TSuccess, TError>] ([lib/result/result.ts]) *)

Module Result.

(** The three private fields.  An optional constructor argument that is not
    passed is [undefined], here [None]. *)
Record t (TSuccess TError : Type) : Type := new {
  _isSuccess : bool;
  successValue : option TSuccess;
  errorValue : option TError
}.
Arguments new {TSuccess TError} _ _ _.
Arguments _isSuccess {TSuccess TError} _.
Arguments successValue {TSuccess TError} _.
Arguments errorValue {TSuccess TError} _.

Definition ok {TSuccess TError : Type} (value : TSuccess) : t TSuccess TError :=
  new true (Some value) None.

Definition fail {TSuccess TError : Type} (error : TError) : t TSuccess TError :=
  new false None (Some error).

Definition isSuccess {TSuccess TError : Type} (r : t TSuccess TError) : bool :=
  _isSuccess r.

Definition isFailure {TSuccess TError : Type} (r : t TSuccess TError) : bool :=
  negb (_isSuccess r).

Definition value_message : string :=
  "Can't get the value of an error result. Use isSuccess() before accessing value.".

Definition error_message : string :=
  "Can't get the error of a success result. Use isFailure() before accessing error.".

(** [get value()]: the stored field, cast unchanged, unless the result is a
    failure. *)
Definition value {TSuccess TError : Type} (r : t TSuccess TError)
  : Completion (option TSuccess) :=
  if negb (_isSuccess r) then Throws value_message
  else Returns (successValue r).

(** [get error()]. *)
Definition error {TSuccess TError : Type} (r : t TSuccess TError)
  : Completion (option TError) :=
  if _isSuccess r then Throws error_message
  else Returns (errorValue r).

End Result.

(** ** Collaborator calls and their trace *)

Module UserId.
(** Value object around the identifier string; only [getValue] and the
    static [fromString] are used by the code embedded here. *)
Record t : Type := make { getValue : string }.
End UserId.

Module RoleId.
Record t : Type := make { getValue : string }.
End RoleId.

Module PermissionId.
Record t : Type := make { getValue : string }.
End PermissionId.

Module Email.
Record t : Type := make { getValue : string }.
End Email.

Module Password.
Record t : Type := make { getValue : string }.
Definition fromString (hash : string) : t := make hash.
End Password.

(** What a run does to the outside, in order: the reads it awaits, the
    token verification, and the invocation of the protected controller
    method. *)
Inductive Event : Type :=
| CallUserFindById (id : UserId.t)
| CallRoleFindById (id : RoleId.t)
| CallPermissionFindByIds (ids : list PermissionId.t)
| CallJwtVerify (token : string)
| CallHandler.

(** A computation: how it completes and the trace it leaves. *)
Definition M (A : Type) : Type := (Completion A * list Event)%type.

Definition ret {A : Type} (a : A) : M A := (Returns a, []).

Definition bind {A B : Type} (m : M A) (k : A -> M B) : M B :=
  match m with
  | (Returns a, tr) => let (c, tr') := k a in (c, tr ++ tr')
  | (Throws msg, tr) => (Throws msg, tr)
  end.

(** [await collaborator.method(args)] resolving to [a]. *)
Definition call {A : Type} (ev : Event) (a : A) : M A := (Returns a, [ev]).

(** Reading a getter of [Result] at its TypeScript type.  A result made by
    [Result.ok] or [Result.fail] always carries the field that its flag
    allows to be read, so the [undefined] case does not arise for the
    results the type checker admits; it is kept apart as an abnormal
    completion. *)
Definition defined {A : Type} (c : Completion (option A)) : M A :=
  match c with
  | Returns (Some a) => ret a
  | Returns None => (Throws "undefined", [])
  | Throws msg => (Throws msg, [])
  end.

Definition completion {A : Type} (m : M A) : Completion A := fst m.
Definition trace {A : Type} (m : M A) : list Event := snd m.

Declare Scope m_scope.
Delimit Scope m_scope with m.
Notation "x <- m ;; k" := (bind m (fun x => k))
  (at level 61, m at next level, right associativity) : m_scope.
Local Open Scope m_scope.

(** ** Errors *)

Module ErrorContext.
(** [metadata] values are rendered as strings. *)
Record t : Type := make {
  requestId : option string;
  userId : option string;
  aggregateId : option string;
  aggregateType : option string;
  operation : option string;
  metadata : option (list (string * string))
}.
End ErrorContext.

(** The error classes that reach the request pipeline, one constructor per
    concrete class, with the constructor arguments of the class.
    [ValidationError] and [DatabaseError] are used by the code here but
    their class files are not in the repository's sources; [PlainError] is
    an [Error] that is not a [BaseError]. *)
Inductive Error : Type :=
| ValidationError (field reason : string) (context : option ErrorContext.t)
| NotFoundError (entityType entityId : string) (context : option ErrorContext.t)
| UnauthorizedError (reason : string) (context : option ErrorContext.t)
| ForbiddenError (action resource reason : string) (context : option ErrorContext.t)
| DatabaseError (message : string) (context : option ErrorContext.t)
| PlainError (message : string).

(** [error instanceof BaseError]. *)
Definition isBaseError (e : Error) : bool :=
  match e with
  | PlainError _ => false
  | _ => true
  end.

(** [readonly httpStatus] of each class: 404, 401 and 403 are the overrides
    in [not-found.error.ts], [unauthorized.error.ts], [forbidden.error.ts];
    400 for [ValidationError] is the value the doc comments of
    [DomainError] and of the errors index give for it; 500 for
    [DatabaseError] is the [InfrastructureError] default. *)
Definition httpStatus (e : Error) : Z :=
  match e with
  | ValidationError _ _ _ => 400
  | NotFoundError _ _ _ => 404
  | UnauthorizedError _ _ => 401
  | ForbiddenError _ _ _ _ => 403
  | DatabaseError _ _ => 500
  | PlainError _ => 500
  end.

Module ProblemDetails.
(** The fields of the RFC 9457 body that depend on the error class. *)
Record t : Type := make {
  status : Z;
  extensions : list (string * string)
}.
End ProblemDetails.

Module ErrorMapper.

(** [getErrorExtensions] with [includeContext] off. *)
Definition getErrorExtensions (error : Error) : list (string * string) :=
  match error with
  | ValidationError field reason _ => [("field", field); ("reason", reason)]
  | NotFoundError entityType entityId _ =>
      [("entityType", entityType); ("entityId", entityId)]
  | UnauthorizedError reason _ => [("reason", reason)]
  | ForbiddenError action resource reason _ =>
      [("action", action); ("resource", resource); ("reason", reason)]
  | _ => []
  end.

(** [toProblemDetails]: [mapBaseError] takes the status from the error,
    [mapUnexpectedError] answers 500. *)
Definition toProblemDetails (error : Error) : ProblemDetails.t :=
  if isBaseError error then
    ProblemDetails.make (httpStatus error) (getErrorExtensions error)
  else
    ProblemDetails.make 500 [].

End ErrorMapper.

(** [ErrorHandlerMiddleware.handle] when no header was sent yet: the status
    line of the response is [problemDetails.status]. *)
Definition ErrorHandlerMiddleware_handle (error : Error) : Z :=
  ProblemDetails.status (ErrorMapper.toProblemDetails error).

(** A status of the 5xx class reports a fault of the server, one of the 4xx
    class an error of the client. *)
Definition isServerFault (status : Z) : bool :=
  ((500 <=? status) && (status <? 600))%Z.

Definition isClientError (status : Z) : bool :=
  ((400 <=? status) && (status <? 500))%Z.

(** ** Domain entities *)

Module Permission.
Record t : Type := make {
  id : PermissionId.t;
  resource : string;
  action : string;
  description : string
}.

(** Modelled from the spec: [Permission.grants], whose entity file is not
    in the repository's sources (only its call in [CheckPermissionUseCase.execute]
    is).  The spec's matching rule: the permission grants
    [(resource, action)] iff ([this.resource == resource] or
    [this.resource == "*"]) and ([this.action == action] or
    [this.action == "*"]); comparison is exact and case-sensitive. *)
Definition grants (this : t) (resource' action' : string) : bool :=
  (String.eqb (resource this) resource' || String.eqb (resource this) "*")
  && (String.eqb (action this) action' || String.eqb (action this) "*").
End Permission.

Module Role.
(** The aggregate of the spec's data model; the code here reads it only
    through [getPermissionIds]. *)
Record t : Type := make {
  id : RoleId.t;
  name : string;
  description : string;
  isSystem : bool;
  permissionIds : list PermissionId.t
}.
Definition getPermissionIds (this : t) : list PermissionId.t := permissionIds this.
End Role.

Module User.
(** The properties [UserRepositoryImpl] hands to [User.reconstitute]. *)
Record t : Type := reconstitute {
  id : UserId.t;
  email : Email.t;
  password : Password.t;
  firstName : string;
  lastName : string;
  isActive : bool;
  roleId : RoleId.t;
  createdAt : Z;
  updatedAt : Z
}.
Definition getRoleId (this : t) : RoleId.t := roleId this.

(** Modelled from the spec: [User.canAuthenticate], whose entity file is not
    in the repository's sources.  The spec lets it hold iff the user exists, is not
    soft-deleted and [isActive == true]; an entity handed out by the
    repository exists and is not soft-deleted (the repository filters on
    [deletedAt: null] and the entity has no deletion marker), which leaves
    the flag. *)
Definition canAuthenticate (this : t) : bool := isActive this.
End User.

(** ** Persistence *)

Module UserRecord.
(** A row of the [users] table. *)
Record t : Type := make {
  id : string;
  email : string;
  password : string;
  firstName : string;
  lastName : string;
  isActive : bool;
  roleId : string;
  createdAt : Z;
  updatedAt : Z;
  deletedAt : option Z
}.
End UserRecord.

Module PrismaClient.
(** The client as the repository sees it: the rows of [users], and whether
    the connection is broken, in which case every query rejects with the
    driver's message. *)
Record t : Type := make {
  users : list UserRecord.t;
  broken : option string
}.

(** [prisma.user.findFirst({ where: { id, deletedAt: null } })]: the first
    row that has this id and no deletion marker, or [null]. *)
Definition user_findFirst (this : t) (id' : string)
  : Completion (option UserRecord.t) :=
  match broken this with
  | Some msg => Throws msg
  | None =>
      Returns
        (find (fun r =>
                 String.eqb (UserRecord.id r) id'
                 && match UserRecord.deletedAt r with None => true | Some _ => false end)
              (users this))
  end.
End PrismaClient.

(** The repository and service interfaces: what a call resolves to. *)
Record IUserRepository : Type := {
  user_findById : UserId.t -> Result.t (option User.t) Error
}.

Record IRoleRepository : Type := {
  role_findById : RoleId.t -> Result.t (option Role.t) Error
}.

Record IPermissionRepository : Type := {
  permission_findByIds : list PermissionId.t -> Result.t (list Permission.t) Error
}.

Module AccessTokenPayload.
Record t : Type := make { userId : string }.
End AccessTokenPayload.

Record IJwtService : Type := {
  jwt_verify : string -> Result.t AccessTokenPayload.t Error
}.

(** ** The classes and their injected collaborators *)

Record GetActiveUserByIdUseCase : Type := {
  getActive_userRepository : IUserRepository
}.

Record CheckPermissionUseCase : Type := {
  userRepository : IUserRepository;
  roleRepository : IRoleRepository;
  permissionRepository : IPermissionRepository
}.

Record AuthenticationMiddleware : Type := {
  jwtService : IJwtService;
  getActiveUserByIdUseCase : GetActiveUserByIdUseCase
}.

Record AuthorizationMiddleware : Type := {
  checkPermissionUseCase : CheckPermissionUseCase
}.

(** ** Express *)

Module Request.
(** [req.headers.authorization] and the [userId] the authentication
    middleware adds to the request. *)
Record t : Type := make {
  authorization : option string;
  userId : option string
}.
Definition set_userId (req : t) (v : string) : t :=
  make (authorization req) (Some v).
End Request.

(** How a handler of the stack ends: [next()] is [next None], [next(err)] is
    [next (Some err)], and a handler that answers the request itself has
    [responded]. *)
Inductive Signal : Type :=
| next (err : option Error)
| responded (status : Z).

Definition Handler : Type := Request.t -> M (Request.t * Signal).

(** Express runs the handlers registered for a route in the order of
    registration; [next()] passes to the following one, [next(err)] leaves
    the stack for the error handler, and a handler that answers ends the
    request. *)
Fixpoint dispatch (stack : list Handler) (req : Request.t) : M (Request.t * Signal) :=
  match stack with
  | [] => ret (req, next None)
  | h :: rest =>
      r <- h req ;;
      match snd r with
      | next None => dispatch rest (fst r)
      | _ => ret r
      end
  end.

(** A controller method as the last handler of a route; its invocation is
    recorded. *)
Definition invoke (controller : Request.t -> Signal) : Handler :=
  fun req => s <- call CallHandler (controller req) ;; ret (req, s).

(** ** Use cases, repository and middlewares *)

Section Program.

(** The static factories of the value objects validate a raw string.  Their
    class files are not in the repository's sources, so the code below is
    embedded for any such factories. *)
Variable UserId_fromString : string -> Result.t UserId.t Error.
Variable RoleId_fromString : string -> Result.t RoleId.t Error.
Variable Email_create : string -> Result.t Email.t Error.

(** The body of the [try] block of [UserRepositoryImpl.findById]; a getter
    that throws inside it is caught like a rejected query. *)
Definition UserRepositoryImpl_findById_try (prisma : PrismaClient.t) (id : UserId.t)
  : Completion (Result.t (option User.t) Error) :=
  match PrismaClient.user_findFirst prisma (UserId.getValue id) with
  | Throws msg => Throws msg
  | Returns None => Returns (Result.ok None)
  | Returns (Some record) =>
      let emailResult := Email_create (UserRecord.email record) in
      if negb (Result.isSuccess emailResult) then
        match Result.error emailResult with
        | Returns (Some e) => Returns (Result.fail e)
        | Returns None => Throws "undefined"
        | Throws msg => Throws msg
        end
      else
        let roleIdResult := RoleId_fromString (UserRecord.roleId record) in
        if negb (Result.isSuccess roleIdResult) then
          match Result.error roleIdResult with
          | Returns (Some e) => Returns (Result.fail e)
          | Returns None => Throws "undefined"
          | Throws msg => Throws msg
          end
        else
          match Result.value emailResult, Result.value roleIdResult with
          | Returns (Some email), Returns (Some roleId) =>
              Returns
                (Result.ok
                   (Some
                      (User.reconstitute id email
                         (Password.fromString (UserRecord.password record))
                         (UserRecord.firstName record)
                         (UserRecord.lastName record)
                         (UserRecord.isActive record)
                         roleId
                         (UserRecord.createdAt record)
                         (UserRecord.updatedAt record))))
          | Throws msg, _ => Throws msg
          | _, Throws msg => Throws msg
          | _, _ => Throws "undefined"
          end
  end.

(** [UserRepositoryImpl.findById]: the [catch] clause turns whatever was
    thrown into a [DatabaseError]. *)
Definition UserRepositoryImpl_findById (prisma : PrismaClient.t) (id : UserId.t)
  : Result.t (option User.t) Error :=
  match UserRepositoryImpl_findById_try prisma id with
  | Returns r => r
  | Throws cause =>
      Result.fail
        (DatabaseError "Failed to find user by ID"
           (Some
              (ErrorContext.make None None None None None
                 (Some [("operation", "findById");
                        ("id", UserId.getValue id);
                        ("cause", cause)]))))
  end.

Definition UserRepositoryImpl (prisma : PrismaClient.t) : IUserRepository :=
  {| user_findById := UserRepositoryImpl_findById prisma |}.

(** [GetActiveUserByIdUseCase.execute] *)
Definition GetActiveUserByIdUseCase_execute
  (this : GetActiveUserByIdUseCase) (userId : UserId.t) : M (Result.t User.t Error) :=
  userResult <- call (CallUserFindById userId)
                     (user_findById (getActive_userRepository this) userId) ;;
  if negb (Result.isSuccess userResult) then
    e <- defined (Result.error userResult) ;;
    ret (Result.fail e)
  else
    user <- defined (Result.value userResult) ;;
    match user with
    | None => ret (Result.fail (UnauthorizedError "User inactive or not found" None))
    | Some u =>
        if negb (User.canAuthenticate u) then
          ret (Result.fail (UnauthorizedError "User inactive or not found" None))
        else
          ret (Result.ok u)
    end.

(** [CheckPermissionUseCase.execute] *)
Definition CheckPermissionUseCase_execute
  (this : CheckPermissionUseCase) (userId : UserId.t) (resource action : string)
  : M (Result.t bool Error) :=
  userResult <- call (CallUserFindById userId)
                     (user_findById (userRepository this) userId) ;;
  if negb (Result.isSuccess userResult) then
    e <- defined (Result.error userResult) ;;
    ret (Result.fail e)
  else
    user <- defined (Result.value userResult) ;;
    match user with
    | None =>
        ret (Result.fail
               (NotFoundError "User" (UserId.getValue userId)
                  (Some (ErrorContext.make None None
                           (Some (UserId.getValue userId)) (Some "User") None None))))
    | Some user =>
        if negb (User.isActive user) then ret (Result.ok false)
        else
          roleResult <- call (CallRoleFindById (User.getRoleId user))
                             (role_findById (roleRepository this) (User.getRoleId user)) ;;
          if negb (Result.isSuccess roleResult) then
            e <- defined (Result.error roleResult) ;;
            ret (Result.fail e)
          else
            role <- defined (Result.value roleResult) ;;
            match role with
            | None =>
                ret (Result.fail
                       (NotFoundError "Role" (RoleId.getValue (User.getRoleId user))
                          (Some (ErrorContext.make None None
                                   (Some (RoleId.getValue (User.getRoleId user)))
                                   (Some "Role") None None))))
            | Some role =>
                let permissionIds := Role.getPermissionIds role in
                if Nat.eqb (List.length permissionIds) 0 then ret (Result.ok false)
                else
                  permissionsResult <-
                    call (CallPermissionFindByIds permissionIds)
                         (permission_findByIds (permissionRepository this) permissionIds) ;;
                  if negb (Result.isSuccess permissionsResult) then
                    e <- defined (Result.error permissionsResult) ;;
                    ret (Result.fail e)
                  else
                    permissions <- defined (Result.value permissionsResult) ;;
                    let hasPermission :=
                      existsb (fun permission => Permission.grants permission resource action)
                              permissions in
                    ret (Result.ok hasPermission)
            end
    end.

(** [AuthenticationMiddleware.handle] *)
Definition AuthenticationMiddleware_handle (this : AuthenticationMiddleware) : Handler :=
  fun req =>
  let authHeader := Request.authorization req in
  if Js.falsy authHeader then
    ret (req, next (Some (UnauthorizedError "Token missing" None)))
  else
    let parts :=
      Js.destructure2
        (Js.split Js.space (match authHeader with Some h => h | None => "" end)) in
    let scheme := fst parts in
    let token := snd parts in
    if Js.strictNe scheme "Bearer" || Js.falsy token then
      ret (req, next (Some (UnauthorizedError "Invalid authorization header" None)))
    else
      let token := match token with Some tk => tk | None => "" end in
      tokenResult <- call (CallJwtVerify token) (jwt_verify (jwtService this) token) ;;
      if negb (Result.isSuccess tokenResult) then
        e <- defined (Result.error tokenResult) ;;
        ret (req, next (Some e))
      else
        payload <- defined (Result.value tokenResult) ;;
        let userIdResult := UserId_fromString (AccessTokenPayload.userId payload) in
        if negb (Result.isSuccess userIdResult) then
          ret (req, next (Some (UnauthorizedError "Invalid token payload" None)))
        else
          userId <- defined (Result.value userIdResult) ;;
          userResult <-
            GetActiveUserByIdUseCase_execute (getActiveUserByIdUseCase this) userId ;;
          if negb (Result.isSuccess userResult) then
            e <- defined (Result.error userResult) ;;
            ret (req, next (Some e))
          else
            user <- defined (Result.value userResult) ;;
            ret (Request.set_userId req (UserId.getValue (User.id user)), next None).

(** The [for ... of] loop of [requirePermission]: [Some err] when an
    iteration returns through [next(err)], [None] when the loop runs to its
    end. *)
Fixpoint checkEach (this : AuthorizationMiddleware) (req : Request.t)
  (userIdResult : Result.t UserId.t Error) (permissions : list string)
  : M (option Error) :=
  match permissions with
  | [] => ret None
  | permissionCode :: rest =>
      let parts := Js.destructure2 (Js.split Js.colon permissionCode) in
      let resource := fst parts in
      let action := snd parts in
      if Js.falsy resource || Js.falsy action then
        ret (Some (ValidationError "permission" "Invalid permission format"
                     (Some (ErrorContext.make None None None None None
                              (Some [("permissionCode", permissionCode)])))))
      else
        let resource := match resource with Some s => s | None => "" end in
        let action := match action with Some s => s | None => "" end in
        userId <- defined (Result.value userIdResult) ;;
        hasPermissionResult <-
          CheckPermissionUseCase_execute (checkPermissionUseCase this) userId resource action ;;
        if negb (Result.isSuccess hasPermissionResult) then
          e <- defined (Result.error hasPermissionResult) ;;
          ret (Some e)
        else
          hasPermission <- defined (Result.value hasPermissionResult) ;;
          if negb hasPermission then
            ret (Some (ForbiddenError action resource "Missing required permission"
                         (Some (ErrorContext.make None (Request.userId req)
                                  None None (Some "authorize") None))))
          else
            checkEach this req userIdResult rest
  end.

(** [AuthorizationMiddleware.requirePermission(permission)]; the argument is
    one code or an array of codes. *)
Definition AuthorizationMiddleware_requirePermission
  (this : AuthorizationMiddleware) (permission : string + list string) : Handler :=
  let permissions := match permission with inl p => [p] | inr ps => ps end in
  fun req =>
  if Js.falsy (Request.userId req) then
    ret (req, next (Some (UnauthorizedError "Token missing" None)))
  else
    let userIdResult :=
      UserId_fromString (match Request.userId req with Some s => s | None => "" end) in
    if negb (Result.isSuccess userIdResult) then
      ret (req, next (Some (UnauthorizedError "Invalid user context" None)))
    else
      err <- checkEach this req userIdResult permissions ;;
      ret (req, next err).

(** The stack [PermissionsRoutes.setupRoutes] registers for a route:
    [authenticate], the [requirePermission] handlers declared for it, then
    the controller method. *)
Definition protectedRoute (authn : AuthenticationMiddleware)
  (authz : AuthorizationMiddleware) (declared : list (string + list string))
  (controller : Request.t -> Signal) : list Handler :=
  AuthenticationMiddleware_handle authn
  :: map (AuthorizationMiddleware_requirePermission authz) declared
  ++ [invoke controller].

(** [PermissionsRoutes.setupRoutes]: each of its two routes registers
    [authenticate], [requirePermission('permissions:read')] and a method of
    the controller. *)
Definition PermissionsRoutes_route (authn : AuthenticationMiddleware)
  (authz : AuthorizationMiddleware) (controller : Request.t -> Signal) : list Handler :=
  protectedRoute authn authz [inl "permissions:read"] controller.

End Program.

(** ** The shapes the specification asks of the two raw strings *)

(** The spec's words for a permission code: exactly two non-empty
    colon-separated tokens [resource:action]. *)
Definition exactlyTwoTokens (permissionCode : string) : bool :=
  match Js.split Js.colon permissionCode with
  | [resource; action] => negb (String.eqb resource "") && negb (String.eqb action "")
  | _ => false
  end.

(** The spec's words for the header: it splits into exactly the scheme token
    [Bearer] and a non-empty token string. *)
Definition exactlyBearerAndToken (authHeader : string) : bool :=
  match Js.split Js.space authHeader with
  | [scheme; token] => String.eqb scheme "Bearer" && negb (String.eqb token "")
  | _ => false
  end.

(** What the guards of the code look at: the first two pieces of the split,
    whatever follows them. *)
Definition firstTwoTokens (sep : ascii) (s : string) : option (string * string) :=
  match Js.split sep s with
  | String a x :: String b y :: _ => Some (String a x, String b y)
  | _ => None
  end.

Definition invalidPermissionFormat (permissionCode : string) : Error :=
  ValidationError "permission" "Invalid permission format"
    (Some (ErrorContext.make None None None None None
             (Some [("permissionCode", permissionCode)]))).

(** Is this error the one [requirePermission] raises for a malformed code? *)
Definition isInvalidFormat (e : Error) : bool :=
  match e with
  | ValidationError field reason _ =>
      String.eqb field "permission" && String.eqb reason "Invalid permission format"
  | _ => false
  end.

(** Is this error the denial [requirePermission] raises? *)
Definition isDenied (e : Error) : bool :=
  match e with
  | ForbiddenError _ _ _ _ => true
  | _ => false
  end.

(** ** Seed data, as [prisma/seed.ts] sets it up *)

Module Seed.

Definition UserId_fromString (raw : string) : Result.t UserId.t Error :=
  if String.eqb raw "" then Result.fail (ValidationError "userId" "Invalid format" None)
  else Result.ok (UserId.make raw).

Definition RoleId_fromString (raw : string) : Result.t RoleId.t Error :=
  if String.eqb raw "" then Result.fail (ValidationError "roleId" "Invalid format" None)
  else Result.ok (RoleId.make raw).

Definition Email_create (raw : string) : Result.t Email.t Error :=
  if String.eqb raw "" then Result.fail (ValidationError "email" "Invalid format" None)
  else Result.ok (Email.make raw).

Definition permissions : list Permission.t :=
  [ Permission.make (PermissionId.make "p-users-read") "users" "read" "View user details";
    Permission.make (PermissionId.make "p-users-delete") "users" "delete" "Delete users (soft delete)";
    Permission.make (PermissionId.make "p-all") "*" "*" "Full system access (admin)" ].

Definition roles : list Role.t :=
  [ Role.make (RoleId.make "r-admin") "ADMIN" "System administrator with full access" true
      [PermissionId.make "p-all"];
    Role.make (RoleId.make "r-user") "USER" "Authenticated user with basic permissions" true
      [PermissionId.make "p-users-read"];
    Role.make (RoleId.make "r-guest") "GUEST" "Guest user with no permissions" true [] ].

Definition row (id roleId : string) (isActive : bool) (deletedAt : option Z) : UserRecord.t :=
  UserRecord.make id (String.append id "@system.local") "hash" "First" "Last" isActive roleId 0 0 deletedAt.

(** The entity [UserRepositoryImpl] rebuilds from such a row. *)
Definition user (id roleId : string) (isActive : bool) : User.t :=
  User.reconstitute (UserId.make id) (Email.make (String.append id "@system.local"))
    (Password.make "hash") "First" "Last" isActive (RoleId.make roleId) 0 0.

Definition prisma : PrismaClient.t :=
  PrismaClient.make
    [ row "u-admin" "r-admin" true None;
      row "u-user" "r-user" true None;
      row "u-guest" "r-guest" true None;
      row "u-off" "r-admin" false None;
      row "u-orphan" "r-none" true None;
      row "u-gone" "r-admin" true (Some 1700000000000%Z) ]
    None.

Definition users : IUserRepository :=
  UserRepositoryImpl RoleId_fromString Email_create prisma.

Definition roleRepo : IRoleRepository :=
  {| role_findById := fun id =>
       Result.ok
         (find (fun r => String.eqb (RoleId.getValue (Role.id r)) (RoleId.getValue id)) roles) |}.

(** [findByIds]: the permissions whose id is in the list; an id without a
    permission is left out. *)
Definition permissionRepo : IPermissionRepository :=
  {| permission_findByIds := fun ids =>
       Result.ok
         (filter (fun p =>
                    existsb (fun i => String.eqb (PermissionId.getValue i)
                                        (PermissionId.getValue (Permission.id p))) ids)
                 permissions) |}.

Definition tokens : list (string * string) :=
  [ ("abc", "u-admin"); ("t-user", "u-user"); ("t-guest", "u-guest");
    ("t-off", "u-off"); ("t-gone", "u-gone"); ("t-nobody", "u-nobody") ].

Definition jwt : IJwtService :=
  {| jwt_verify := fun token =>
       match find (fun kv => String.eqb (fst kv) token) tokens with
       | Some kv => Result.ok (AccessTokenPayload.make (snd kv))
       | None => Result.fail (UnauthorizedError "Invalid or expired token" None)
       end |}.

Definition checkPermission : CheckPermissionUseCase :=
  {| userRepository := users; roleRepository := roleRepo; permissionRepository := permissionRepo |}.

Definition authn : AuthenticationMiddleware :=
  {| jwtService := jwt; getActiveUserByIdUseCase := {| getActive_userRepository := users |} |}.

Definition authz : AuthorizationMiddleware :=
  {| checkPermissionUseCase := checkPermission |}.

Definition controller (req : Request.t) : Signal := responded 200.

Definition bearer (token : string) : Request.t :=
  Request.make (Some (String.append "Bearer " token)) None.

Definition authenticated (userId : string) : Request.t :=
  Request.make None (Some userId).

End Seed.

(** ** The situations the properties speak about *)

(** How [AuthenticationMiddleware.handle] reads the header: nothing to read,
    a scheme [Bearer] followed by a non-empty second piece (whatever comes
    after it), or anything else. *)
Inductive HeaderShape : Type :=
| HeaderMissing
| HeaderMalformed
| HeaderBearer (token : string).

Definition headerShape (authorization : option string) : HeaderShape :=
  match authorization with
  | None => HeaderMissing
  | Some EmptyString => HeaderMissing
  | Some authHeader =>
      match Js.split Js.space authHeader with
      | scheme :: String c tk :: _ =>
          if String.eqb scheme "Bearer" then HeaderBearer (String c tk)
          else HeaderMalformed
      | _ => HeaderMalformed
      end
  end.

(** The user or the role the use case needs is not there: the error it
    fails with and the reads it has issued by then. *)
Inductive Vanished (this : CheckPermissionUseCase) (userId : UserId.t)
  : Error -> list Event -> Prop :=
| vanished_user :
    user_findById (userRepository this) userId = Result.ok None ->
    Vanished this userId
      (NotFoundError "User" (UserId.getValue userId)
         (Some (ErrorContext.make None None (Some (UserId.getValue userId))
                  (Some "User") None None)))
      [CallUserFindById userId]
| vanished_role (u : User.t) :
    user_findById (userRepository this) userId = Result.ok (Some u) ->
    User.isActive u = true ->
    role_findById (roleRepository this) (User.getRoleId u) = Result.ok None ->
    Vanished this userId
      (NotFoundError "Role" (RoleId.getValue (User.getRoleId u))
         (Some (ErrorContext.make None None (Some (RoleId.getValue (User.getRoleId u)))
                  (Some "Role") None None)))
      [CallUserFindById userId; CallRoleFindById (User.getRoleId u)].

(** The user a verified token names cannot authenticate: the repository
    finds nobody; or the repository is [UserRepositoryImpl] over a table in
    which every row with this id carries a deletion marker (soft-deleted,
    or no row at all); or the user it finds has [isActive] false. *)
Inductive CannotAuthenticate
  (RoleId_fromString : string -> Result.t RoleId.t Error)
  (Email_create : string -> Result.t Email.t Error)
  (repository : IUserRepository) (userId : UserId.t) : Prop :=
| cannot_absent :
    user_findById repository userId = Result.ok None ->
    CannotAuthenticate RoleId_fromString Email_create repository userId
| cannot_softDeleted (prisma : PrismaClient.t) :
    repository = UserRepositoryImpl RoleId_fromString Email_create prisma ->
    PrismaClient.broken prisma = None ->
    (forall r, In r (PrismaClient.users prisma) ->
               UserRecord.id r = UserId.getValue userId ->
               UserRecord.deletedAt r <> None) ->
    CannotAuthenticate RoleId_fromString Email_create repository userId
| cannot_inactive (u : User.t) :
    user_findById repository userId = Result.ok (Some u) ->
    User.isActive u = false ->
    CannotAuthenticate RoleId_fromString Email_create repository userId.

(** The reads of the authorization decision, and the events of the
    authentication step. *)
Definition isRead (ev : Event) : bool :=
  match ev with
  | CallUserFindById _ | CallRoleFindById _ | CallPermissionFindByIds _ => true
  | _ => false
  end.

Definition isAuthenticationEvent (ev : Event) : bool :=
  match ev with
  | CallJwtVerify _ | CallUserFindById _ => true
  | _ => false
  end.

(** No collaborator of the use case fails with the error that
    [requirePermission] raises for a malformed code. *)
Definition noFormatErrorUpstream (this : CheckPermissionUseCase) : Prop :=
  (forall id e, Result.errorValue (user_findById (userRepository this) id) = Some e ->
                isInvalidFormat e = false)
  /\ (forall id e, Result.errorValue (role_findById (roleRepository this) id) = Some e ->
                   isInvalidFormat e = false)
  /\ (forall ids e,
         Result.errorValue (permission_findByIds (permissionRepository this) ids) = Some e ->
         isInvalidFormat e = false).

(** [next()] was called on an unchanged request. *)
Definition passes (req : Request.t) (m : M (Request.t * Signal)) : Prop :=
  completion m = Returns (req, next None).

(** Every event of the run satisfies [P]. *)
Definition traceAll {A : Type} (P : Event -> bool) (m : M A) : Prop :=
  forallb P (trace m) = true.

(** Did the handler end with [next()]? *)
Definition continues (c : Completion (Request.t * Signal)) : bool :=
  match c with
  | Returns (_, next None) => true
  | _ => false
  end.

(** ** Reading results *)

(** The result is a success carrying [v]; the result is a failure carrying
    [e]. *)
Definition resolvesTo {T E : Type} (r : Result.t T E) (v : T) : Prop :=
  Result.isSuccess r = true /\ Result.successValue r = Some v.

Definition failsWith {T E : Type} (r : Result.t T E) (e : E) : Prop :=
  Result.isSuccess r = false /\ Result.errorValue r = Some e.

(** The codes a [requirePermission] argument stands for. *)
Definition codesOf (permission : string + list string) : list string :=
  match permission with inl p => [p] | inr ps => ps end.

(** The error comes from one of the three repositories of the use case. *)
Definition fromRepository (this : CheckPermissionUseCase) (e : Error) : Prop :=
  (exists id, failsWith (user_findById (userRepository this) id) e)
  \/ (exists id, failsWith (role_findById (roleRepository this) id) e)
  \/ (exists ids, failsWith (permission_findByIds (permissionRepository this) ids) e).

(** ** [JwtService] ([infrastructure/services/jwt.service.ts]) *)

Module Jsonwebtoken.

(** The [userId] property of a decoded object: missing, a string, or a
    value of another type. *)
Inductive Property : Type :=
| Absent
| Text (s : string)
| NotText.

(** What [jwt.verify] hands back when it does not throw: a string or a
    decoded object. *)
Inductive Decoded : Type :=
| DecodedString (s : string)
| DecodedObject (userId : Property).

(** The two functions of the library the service calls, at one moment in
    time: [sign(payload, secret, { expiresIn })], which throws on options
    it cannot use, and [verify(token, secret)], which throws on a token it
    does not accept. *)
Record t : Type := make {
  sign : AccessTokenPayload.t -> string -> string -> Completion string;
  verify : string -> string -> Completion Decoded
}.

End Jsonwebtoken.

Module JwtService.

Record t : Type := make {
  jwt : Jsonwebtoken.t;
  secret : string;
  expiresIn : string
}.

(** [JwtService.sign]: nothing is caught. *)
Definition sign (this : t) (payload : AccessTokenPayload.t) : Completion string :=
  Jsonwebtoken.sign (jwt this) payload (secret this) (expiresIn this).

(** [JwtService.verify]: [!decoded.userId || typeof decoded.userId !==
    'string'] lets through a non-empty string only. *)
Definition verify (this : t) (token : string) : Result.t AccessTokenPayload.t Error :=
  match Jsonwebtoken.verify (jwt this) token (secret this) with
  | Returns (Jsonwebtoken.DecodedString _) =>
      Result.fail (UnauthorizedError "Invalid token payload" None)
  | Returns (Jsonwebtoken.DecodedObject (Jsonwebtoken.Text (String c s))) =>
      Result.ok (AccessTokenPayload.make (String c s))
  | Returns (Jsonwebtoken.DecodedObject _) =>
      Result.fail (UnauthorizedError "Invalid token payload" None)
  | Throws cause =>
      Result.fail
        (UnauthorizedError "Invalid or expired token"
           (Some (ErrorContext.make None None None None None (Some [("cause", cause)]))))
  end.

(** The service behind the interface the middleware is given. *)
Definition asInterface (this : t) : IJwtService :=
  {| jwt_verify := verify this |}.

End JwtService.

(** The reasons [AuthenticationMiddleware] and the services it calls give
    for an [UnauthorizedError]. *)
Definition authenticationReasons : list string :=
  [ "Token missing"; "Invalid authorization header"; "Invalid token payload";
    "Invalid or expired token"; "User inactive or not found" ].

(** A token service that fails, as its interface says, with an
    [UnauthorizedError] only. *)
Definition failsUnauthorized (service : IJwtService) : Prop :=
  forall token e,
    failsWith (jwt_verify service token) e ->
    exists reason context, e = UnauthorizedError reason context.

Module SeedJwt.

(** A stand-in for the library: the token is the secret, a dot and the
    user id; anything else is thrown on. *)
Definition library : Jsonwebtoken.t :=
  Jsonwebtoken.make
    (fun payload secret expiresIn =>
       if String.eqb expiresIn "" then Throws "bad expiresIn"
       else Returns (String.append secret
                       (String.append "." (AccessTokenPayload.userId payload))))
    (fun token secret =>
       if String.prefix (String.append secret ".") token then
         Returns (Jsonwebtoken.DecodedObject
                    (Jsonwebtoken.Text
                       (String.substring (S (String.length secret))
                          (String.length token - S (String.length secret)) token)))
       else Throws "invalid signature").

Definition service : JwtService.t := JwtService.make library "s3cret" "1h".

Definition authn : AuthenticationMiddleware :=
  {| jwtService := JwtService.asInterface service;
     getActiveUserByIdUseCase := {| getActive_userRepository := Seed.users |} |}.

End SeedJwt.

(** ** The other methods of [UserRepositoryImpl] *)

Module PrismaError.
(** What a rejected query throws, as far as the repository looks at it:
    the [code] property, if there is one, and the message. *)
Record t : Type := make {
  code : option string;
  message : string
}.
End PrismaError.

(** [deletedAt: null] *)
Definition notDeleted (r : UserRecord.t) : bool :=
  match UserRecord.deletedAt r with None => true | Some _ => false end.

(** [prisma.user.findFirst({ where: criteria })]. *)
Definition prisma_user_findFirst (this : PrismaClient.t) (criteria : UserRecord.t -> bool)
  : Completion (option UserRecord.t) :=
  match PrismaClient.broken this with
  | Some msg => Throws msg
  | None => Returns (find criteria (PrismaClient.users this))
  end.

(** [prisma.user.count({ where: criteria })] *)
Definition prisma_user_count (this : PrismaClient.t) (criteria : UserRecord.t -> bool)
  : Completion Z :=
  match PrismaClient.broken this with
  | Some msg => Throws msg
  | None => Returns (Z.of_nat (List.length (filter criteria (PrismaClient.users this))))
  end.

(** [prisma.user.update({ where: { id }, data })]: the row with this id (the
    primary key; every row that has it) gets the new values; without such a
    row the query is rejected with code [P2025]. *)
Definition prisma_user_update (this : PrismaClient.t) (id : string)
  (data : UserRecord.t -> UserRecord.t) : PrismaError.t + PrismaClient.t :=
  match PrismaClient.broken this with
  | Some msg => inl (PrismaError.make None msg)
  | None =>
      if existsb (fun r => String.eqb (UserRecord.id r) id) (PrismaClient.users this) then
        inr (PrismaClient.make
               (map (fun r => if String.eqb (UserRecord.id r) id then data r else r)
                    (PrismaClient.users this))
               None)
      else inl (PrismaError.make (Some "P2025") "Record to update not found.")
  end.

(** [data: { deletedAt: new Date() }], with the reading of the clock.  The
    schema of the client is not among the sources: [stamp] is what the write
    leaves in [updatedAt] (the old value, or the time of the write if the
    column is maintained by the client). *)
Definition markDeleted (now : Z) (stamp : UserRecord.t -> Z) (r : UserRecord.t)
  : UserRecord.t :=
  UserRecord.make (UserRecord.id r) (UserRecord.email r) (UserRecord.password r)
    (UserRecord.firstName r) (UserRecord.lastName r) (UserRecord.isActive r)
    (UserRecord.roleId r) (UserRecord.createdAt r) (stamp r) (Some now).

(** [isRecordNotFoundError] *)
Definition isRecordNotFoundError (error : PrismaError.t) : bool :=
  match PrismaError.code error with
  | Some code => String.eqb code "P2025"
  | None => false
  end.

Definition databaseError (message operation key value cause : string) : Error :=
  DatabaseError message
    (Some (ErrorContext.make None None None None None
             (Some [("operation", operation); (key, value); ("cause", cause)]))).

Section Repository.

Variable UserId_fromString : string -> Result.t UserId.t Error.
Variable RoleId_fromString : string -> Result.t RoleId.t Error.

(** The [try] block of [UserRepositoryImpl.findByEmail]. *)
Definition UserRepositoryImpl_findByEmail_try (prisma : PrismaClient.t) (email : Email.t)
  : Completion (Result.t (option User.t) Error) :=
  match prisma_user_findFirst prisma
          (fun r => String.eqb (UserRecord.email r) (Email.getValue email) && notDeleted r)
  with
  | Throws msg => Throws msg
  | Returns None => Returns (Result.ok None)
  | Returns (Some record) =>
      let idResult := UserId_fromString (UserRecord.id record) in
      if negb (Result.isSuccess idResult) then
        match Result.error idResult with
        | Returns (Some e) => Returns (Result.fail e)
        | Returns None => Throws "undefined"
        | Throws msg => Throws msg
        end
      else
        let roleIdResult := RoleId_fromString (UserRecord.roleId record) in
        if negb (Result.isSuccess roleIdResult) then
          match Result.error roleIdResult with
          | Returns (Some e) => Returns (Result.fail e)
          | Returns None => Throws "undefined"
          | Throws msg => Throws msg
          end
        else
          match Result.value idResult, Result.value roleIdResult with
          | Returns (Some id), Returns (Some roleId) =>
              Returns
                (Result.ok
                   (Some
                      (User.reconstitute id email
                         (Password.fromString (UserRecord.password record))
                         (UserRecord.firstName record)
                         (UserRecord.lastName record)
                         (UserRecord.isActive record)
                         roleId
                         (UserRecord.createdAt record)
                         (UserRecord.updatedAt record))))
          | Throws msg, _ => Throws msg
          | _, Throws msg => Throws msg
          | _, _ => Throws "undefined"
          end
  end.

(** [UserRepositoryImpl.findByEmail] *)
Definition UserRepositoryImpl_findByEmail (prisma : PrismaClient.t) (email : Email.t)
  : Result.t (option User.t) Error :=
  match UserRepositoryImpl_findByEmail_try prisma email with
  | Returns r => r
  | Throws cause =>
      Result.fail
        (databaseError "Failed to find user by email" "findByEmail"
           "email" (Email.getValue email) cause)
  end.

End Repository.

(** [UserRepositoryImpl.existsByEmail] *)
Definition UserRepositoryImpl_existsByEmail (prisma : PrismaClient.t) (email : Email.t)
  : Result.t bool Error :=
  match prisma_user_count prisma
          (fun r => String.eqb (UserRecord.email r) (Email.getValue email) && notDeleted r)
  with
  | Returns count => Result.ok (0 <? count)%Z
  | Throws cause =>
      Result.fail
        (databaseError "Failed to check user existence by email" "existsByEmail"
           "email" (Email.getValue email) cause)
  end.

(** [UserRepositoryImpl.existsById] *)
Definition UserRepositoryImpl_existsById (prisma : PrismaClient.t) (id : UserId.t)
  : Result.t bool Error :=
  match prisma_user_count prisma
          (fun r => String.eqb (UserRecord.id r) (UserId.getValue id) && notDeleted r)
  with
  | Returns count => Result.ok (0 <? count)%Z
  | Throws cause =>
      Result.fail
        (databaseError "Failed to check user existence by ID" "existsById"
           "id" (UserId.getValue id) cause)
  end.

(** [UserRepositoryImpl.count] *)
Definition UserRepositoryImpl_count (prisma : PrismaClient.t) : Result.t Z Error :=
  match prisma_user_count prisma notDeleted with
  | Returns total => Result.ok total
  | Throws cause =>
      Result.fail
        (DatabaseError "Failed to count users"
           (Some (ErrorContext.make None None None None None
                    (Some [("operation", "count"); ("cause", cause)]))))
  end.

(** [UserRepositoryImpl.delete]: what it resolves to and the table it
    leaves. *)
Definition UserRepositoryImpl_delete (prisma : PrismaClient.t) (id : UserId.t)
  (now : Z) (stamp : UserRecord.t -> Z) : Result.t bool Error * PrismaClient.t :=
  match prisma_user_update prisma (UserId.getValue id) (markDeleted now stamp) with
  | inr after => (Result.ok true, after)
  | inl error =>
      if isRecordNotFoundError error then (Result.ok false, prisma)
      else
        (Result.fail
           (databaseError "Failed to delete user" "delete"
              "id" (UserId.getValue id) (PrismaError.message error)),
         prisma)
  end.

(** The table without its soft-deleted rows. *)
Definition purge (prisma : PrismaClient.t) : PrismaClient.t :=
  PrismaClient.make (filter notDeleted (PrismaClient.users prisma))
    (PrismaClient.broken prisma).

(** The rows a query on [id] and [deletedAt: null] selects. *)
Definition liveWithId (prisma : PrismaClient.t) (id : UserId.t) : list UserRecord.t :=
  filter (fun r => String.eqb (UserRecord.id r) (UserId.getValue id) && notDeleted r)
    (PrismaClient.users prisma).

(** The unique index on [email] of the [users] table. *)
Definition uniqueEmails (prisma : PrismaClient.t) : Prop :=
  NoDup (map UserRecord.email (PrismaClient.users prisma)).

(** ** Pagination *)

Module JsNumber.
(** A number as [PaginationService] tells numbers apart: an integer, or a
    value [Number.isInteger] refuses (a fraction, [NaN], an infinity), kept
    by the way it is written. *)
Inductive t : Type :=
| Integer (z : Z)
| NotInteger (written : string).

(** [Number.isInteger] *)
Definition isInteger (n : t) : bool :=
  match n with Integer _ => true | NotInteger _ => false end.
End JsNumber.

Module PaginationParams.
Record t : Type := make {
  limit : Z;
  offset : Z
}.
End PaginationParams.

Module PaginationMetadata.
Record t : Type := make {
  total : Z;
  limit : Z;
  offset : Z;
  hasMore : bool;
  currentPage : JsNumber.t;
  totalPages : JsNumber.t
}.
End PaginationMetadata.

Module PaginatedResponseDto.
Record t (T : Type) : Type := make {
  data : list T;
  pagination : PaginationMetadata.t
}.
Arguments make {T} _ _.
Arguments data {T} _.
Arguments pagination {T} _.
End PaginatedResponseDto.

Module PaginationService.

Definition DEFAULT_LIMIT : Z := 20.
Definition MAX_LIMIT : Z := 100.
Definition MIN_LIMIT : Z := 1.

Section Validate.

(** How a number is written in the metadata of an error. *)
Variable written : JsNumber.t -> string.

Definition limitTooSmall (normalizedLimit : JsNumber.t) : Error :=
  ValidationError "limit" "Limit must be an integer greater than or equal to 1"
    (Some (ErrorContext.make None None None None None
             (Some [("value", written normalizedLimit);
                    ("min", written (JsNumber.Integer MIN_LIMIT))]))).

Definition limitTooLarge (normalizedLimit : JsNumber.t) : Error :=
  ValidationError "limit" "Limit must not exceed 100"
    (Some (ErrorContext.make None None None None None
             (Some [("value", written normalizedLimit);
                    ("max", written (JsNumber.Integer MAX_LIMIT))]))).

Definition offsetInvalid (normalizedOffset : JsNumber.t) : Error :=
  ValidationError "offset" "Offset must be a non-negative integer"
    (Some (ErrorContext.make None None None None None
             (Some [("value", written normalizedOffset)]))).

(** [PaginationService.validateParams]; [None] is an argument left out (or
    [null]), which [??] replaces by the default. *)
Definition validateParams (limit offset : option JsNumber.t)
  : Result.t PaginationParams.t Error :=
  let normalizedLimit :=
    match limit with Some n => n | None => JsNumber.Integer DEFAULT_LIMIT end in
  let normalizedOffset :=
    match offset with Some n => n | None => JsNumber.Integer 0 end in
  match normalizedLimit with
  | JsNumber.NotInteger _ => Result.fail (limitTooSmall normalizedLimit)
  | JsNumber.Integer l =>
      if (l <? MIN_LIMIT)%Z then Result.fail (limitTooSmall normalizedLimit)
      else if (l >? MAX_LIMIT)%Z then Result.fail (limitTooLarge normalizedLimit)
      else
        match normalizedOffset with
        | JsNumber.NotInteger _ => Result.fail (offsetInvalid normalizedOffset)
        | JsNumber.Integer o =>
            if (o <? 0)%Z then Result.fail (offsetInvalid normalizedOffset)
            else Result.ok (PaginationParams.make l o)
        end
  end.

End Validate.







End PaginationService.

(** ** Problem details: the builder, the whole mapper, the handlers *)

Module JsString.

(** [toLowerCase] and [toUpperCase] on the letters of ASCII; other
    characters, which the error codes do not have, are left as they are. *)
Definition lowerChar (c : ascii) : ascii :=
  let n := nat_of_ascii c in
  if ((65 <=? n) && (n <=? 90))%nat then ascii_of_nat (n + 32) else c.

Definition upperChar (c : ascii) : ascii :=
  let n := nat_of_ascii c in
  if ((97 <=? n) && (n <=? 122))%nat then ascii_of_nat (n - 32) else c.

Fixpoint toLowerCase (s : string) : string :=
  match s with
  | EmptyString => EmptyString
  | String c rest => String (lowerChar c) (toLowerCase rest)
  end.

Fixpoint toUpperCase (s : string) : string :=
  match s with
  | EmptyString => EmptyString
  | String c rest => String (upperChar c) (toUpperCase rest)
  end.

(** [s.charAt(0)] *)
Definition charAt0 (s : string) : string :=
  match s with
  | EmptyString => EmptyString
  | String c _ => String c EmptyString
  end.

(** [s.slice(1)] *)
Definition slice1 (s : string) : string :=
  match s with
  | EmptyString => EmptyString
  | String _ rest => rest
  end.

(** [s.replace(/_/g, '-')] *)
Fixpoint replaceUnderscores (s : string) : string :=
  match s with
  | EmptyString => EmptyString
  | String c rest =>
      String (if Ascii.eqb c "_"%char then "-"%char else c) (replaceUnderscores rest)
  end.

End JsString.

Module JsValue.
(** The values the problem details hold: strings, the status, and the
    [metadata] record of an error context. *)
Inductive t : Type :=
| Str (s : string)
| Num (z : Z)
| Fields (entries : list (string * string)).
End JsValue.

Module JsObject.
(** An object by what reading a property gives, [None] for a property it
    does not have (the order of its keys is not kept). *)
Definition t : Type := string -> option JsValue.t.

Definition empty : t := fun _ => None.

(** [o[key] = value] *)
Definition set (key : string) (value : JsValue.t) (o : t) : t :=
  fun k => if String.eqb k key then Some value else o k.

(** [Object.assign(target, source)], also [{ ...target, ...source }]. *)
Definition assign (target source : t) : t :=
  fun k => match source k with Some v => Some v | None => target k end.

End JsObject.

Module ProblemDetailsBuilder.

Record t : Type := make {
  type : option string;
  title : option string;
  status : option Z;
  detail : option string;
  instance : option string;
  requestId : option string;
  timestamp : option string;
  extensions : JsObject.t
}.

(** [new ProblemDetailsBuilder()] *)
Definition new : t := make None None None None None None None JsObject.empty.

Definition withType (type' : string) (this : t) : t :=
  make (Some type') (title this) (status this) (detail this) (instance this)
    (requestId this) (timestamp this) (extensions this).

Definition withTitle (title' : string) (this : t) : t :=
  make (type this) (Some title') (status this) (detail this) (instance this)
    (requestId this) (timestamp this) (extensions this).

Definition withStatus (status' : Z) (this : t) : t :=
  make (type this) (title this) (Some status') (detail this) (instance this)
    (requestId this) (timestamp this) (extensions this).

Definition withDetail (detail' : string) (this : t) : t :=
  make (type this) (title this) (status this) (Some detail') (instance this)
    (requestId this) (timestamp this) (extensions this).

Definition withInstance (instance' : string) (this : t) : t :=
  make (type this) (title this) (status this) (detail this) (Some instance')
    (requestId this) (timestamp this) (extensions this).

Definition withRequestId (requestId' : string) (this : t) : t :=
  make (type this) (title this) (status this) (detail this) (instance this)
    (Some requestId') (timestamp this) (extensions this).

(** [withTimestamp]: the date, a valid one, by its ISO 8601 string. *)
Definition withTimestamp (iso : string) (this : t) : t :=
  make (type this) (title this) (status this) (detail this) (instance this)
    (requestId this) (Some iso) (extensions this).

Definition withExtension (key : string) (value : JsValue.t) (this : t) : t :=
  make (type this) (title this) (status this) (detail this) (instance this)
    (requestId this) (timestamp this) (JsObject.set key value (extensions this)).

Definition withExtensions (extensions' : JsObject.t) (this : t) : t :=
  make (type this) (title this) (status this) (detail this) (instance this)
    (requestId this) (timestamp this) (JsObject.assign (extensions this) extensions').

(** [if (field) { problemDetails[key] = field }] *)
Definition setIfPresent (key : string) (field : option string) (o : JsObject.t)
  : JsObject.t :=
  match field with
  | None | Some EmptyString => o
  | Some s => JsObject.set key (JsValue.Str s) o
  end.

(** [build] *)
Definition build (this : t) : Completion JsObject.t :=
  match type this with
  | None | Some EmptyString => Throws "ProblemDetailsBuilder: type is required"
  | Some type' =>
      match title this with
      | None | Some EmptyString => Throws "ProblemDetailsBuilder: title is required"
      | Some title' =>
          match status this with
          | None => Throws "ProblemDetailsBuilder: status is required"
          | Some status' =>
              match detail this with
              | None | Some EmptyString =>
                  Throws "ProblemDetailsBuilder: detail is required"
              | Some detail' =>
                  let problemDetails :=
                    JsObject.assign
                      (JsObject.set "detail" (JsValue.Str detail')
                         (JsObject.set "status" (JsValue.Num status')
                            (JsObject.set "title" (JsValue.Str title')
                               (JsObject.set "type" (JsValue.Str type')
                                  JsObject.empty))))
                      (extensions this) in
                  Returns
                    (setIfPresent "timestamp" (timestamp this)
                       (setIfPresent "requestId" (requestId this)
                          (setIfPresent "instance" (instance this) problemDetails)))
              end
          end
      end
  end.

End ProblemDetailsBuilder.

Module ErrorMapperOptions.
(** [includeContext] left out reads as [false]. *)
Record t : Type := make {
  instance : option string;
  requestId : option string;
  includeContext : bool;
  baseUrl : option string
}.
End ErrorMapperOptions.

(** [error.context] *)
Definition contextOf (error : Error) : option ErrorContext.t :=
  match error with
  | ValidationError _ _ context => context
  | NotFoundError _ _ context => context
  | UnauthorizedError _ context => context
  | ForbiddenError _ _ _ context => context
  | DatabaseError _ context => context
  | PlainError _ => None
  end.

Module WholeErrorMapper.

Definition DEFAULT_BASE_URL : string := "https://api.example.com".
Definition genericDetail : string :=
  "An unexpected error occurred. Please try again later.".

(** [buildTypeUrl] *)
Definition buildTypeUrl (errorCode : string) (baseUrl : option string) : string :=
  let base := match baseUrl with
              | None | Some EmptyString => DEFAULT_BASE_URL
              | Some b => b
              end in
  let type := JsString.replaceUnderscores (JsString.toLowerCase errorCode) in
  String.append base (String.append "/problems/" type).

(** [getTitle], on the error code. *)
Definition getTitle (errorCode : string) : string :=
  String.concat " "
    (map (fun word =>
            String.append (JsString.toUpperCase (JsString.charAt0 word))
              (JsString.toLowerCase (JsString.slice1 word)))
         (Js.split "_"%char errorCode)).

(** The context part of [getErrorExtensions]. *)
Definition withContext (context : ErrorContext.t) (extensions : JsObject.t)
  : JsObject.t :=
  let extensions := ProblemDetailsBuilder.setIfPresent "aggregateType"
                      (ErrorContext.aggregateType context) extensions in
  let extensions := ProblemDetailsBuilder.setIfPresent "aggregateId"
                      (ErrorContext.aggregateId context) extensions in
  let extensions := ProblemDetailsBuilder.setIfPresent "operation"
                      (ErrorContext.operation context) extensions in
  let extensions := ProblemDetailsBuilder.setIfPresent "userId"
                      (ErrorContext.userId context) extensions in
  match ErrorContext.metadata context with
  | Some metadata => JsObject.set "metadata" (JsValue.Fields metadata) extensions
  | None => extensions
  end.

(** [getErrorExtensions]: the fields of the error's class, which
    [ErrorMapper.getErrorExtensions] lists in the order they are assigned,
    then the context if it is asked for. *)
Definition getErrorExtensions (error : Error) (includeContext : bool) : JsObject.t :=
  let extensions :=
    fold_left (fun o kv => JsObject.set (fst kv) (JsValue.Str (snd kv)) o)
      (ErrorMapper.getErrorExtensions error) JsObject.empty in
  match includeContext, contextOf error with
  | true, Some context => withContext context extensions
  | _, _ => extensions
  end.

(** [if (field) { builder.withX(field) }] *)
Definition withIfPresent (setter : string -> ProblemDetailsBuilder.t -> ProblemDetailsBuilder.t)
  (field : option string) (builder : ProblemDetailsBuilder.t) : ProblemDetailsBuilder.t :=
  match field with
  | None | Some EmptyString => builder
  | Some s => setter s builder
  end.

Section Mapper.

(** What the mapper reads off the error object: its code, message and time
    of creation, and its stack if it has one.  [NotFoundError],
    [UnauthorizedError] and [ForbiddenError] fix the first two (see
    [errorCode] and [message] below); for the classes whose files are not
    among the sources they are whatever the class makes them. *)
Variable otherErrorCode : Error -> string.
Variable otherMessage : Error -> string.
Variable timestamp : Error -> string.
Variable stack : Error -> option string.

(** [readonly errorCode] *)
Definition errorCode (error : Error) : string :=
  match error with
  | NotFoundError _ _ _ => "NOT_FOUND"
  | UnauthorizedError _ _ => "UNAUTHORIZED"
  | ForbiddenError _ _ _ _ => "FORBIDDEN"
  | _ => otherErrorCode error
  end.

(** [error.message]: what each constructor hands to [super]. *)
Definition message (error : Error) : string :=
  match error with
  | NotFoundError entityType entityId _ =>
      String.append entityType
        (String.append " with id '" (String.append entityId "' not found"))
  | UnauthorizedError reason _ => String.append "Authentication failed: " reason
  | ForbiddenError action resource reason _ =>
      String.append "Access denied: cannot "
        (String.append action
           (String.append " "
              (String.append resource (String.append ". Reason: " reason))))
  | PlainError message => message
  | _ => otherMessage error
  end.

(** [mapBaseError] *)
Definition mapBaseError (error : Error) (options : ErrorMapperOptions.t)
  : Completion JsObject.t :=
  let builder :=
    ProblemDetailsBuilder.withTimestamp (timestamp error)
      (ProblemDetailsBuilder.withDetail (message error)
         (ProblemDetailsBuilder.withStatus (httpStatus error)
            (ProblemDetailsBuilder.withTitle (getTitle (errorCode error))
               (ProblemDetailsBuilder.withType
                  (buildTypeUrl (errorCode error) (ErrorMapperOptions.baseUrl options))
                  ProblemDetailsBuilder.new)))) in
  let builder := withIfPresent ProblemDetailsBuilder.withInstance
                   (ErrorMapperOptions.instance options) builder in
  let builder := withIfPresent ProblemDetailsBuilder.withRequestId
                   (ErrorMapperOptions.requestId options) builder in
  let extensions := getErrorExtensions error (ErrorMapperOptions.includeContext options) in
  ProblemDetailsBuilder.build (ProblemDetailsBuilder.withExtensions extensions builder).

(** [mapUnexpectedError]; [now] is the reading of the clock. *)
Definition mapUnexpectedError (error : Error) (options : ErrorMapperOptions.t)
  (now : string) : Completion JsObject.t :=
  let builder :=
    ProblemDetailsBuilder.withTimestamp now
      (ProblemDetailsBuilder.withDetail
         (if ErrorMapperOptions.includeContext options then message error
          else genericDetail)
         (ProblemDetailsBuilder.withStatus 500
            (ProblemDetailsBuilder.withTitle "Internal Server Error"
               (ProblemDetailsBuilder.withType
                  (buildTypeUrl "internal-server-error"
                     (ErrorMapperOptions.baseUrl options))
                  ProblemDetailsBuilder.new)))) in
  let builder := withIfPresent ProblemDetailsBuilder.withInstance
                   (ErrorMapperOptions.instance options) builder in
  let builder := withIfPresent ProblemDetailsBuilder.withRequestId
                   (ErrorMapperOptions.requestId options) builder in
  let builder :=
    if ErrorMapperOptions.includeContext options then
      withIfPresent
        (fun s => ProblemDetailsBuilder.withExtension "stack" (JsValue.Str s))
        (stack error) builder
    else builder in
  ProblemDetailsBuilder.build builder.

(** [toProblemDetails] *)
Definition toProblemDetails (error : Error) (options : ErrorMapperOptions.t)
  (now : string) : Completion JsObject.t :=
  if isBaseError error then mapBaseError error options
  else mapUnexpectedError error options now.

End Mapper.

End WholeErrorMapper.

(** ** The handlers at the end of the chain *)

Module HttpRequest.
(** What the two handlers read of the request. *)
Record t : Type := make {
  method : string;
  path : string;
  originalUrl : string;
  id : string
}.
End HttpRequest.

(** How a handler at the end of the chain ends: the response it sends, or
    the error it hands to Express. *)
Inductive Reply : Type :=
| Sent (status : Z) (contentType : string) (body : JsObject.t)
| Delegated (error : Error).

Inductive LogEntry : Type :=
| LogWarn (message : string)
| LogError (message : string).

(** [NotFoundMiddleware.handle] *)
Definition NotFoundMiddleware_handle (apiBaseUrl : option string) (req : HttpRequest.t)
  (now : string) : Completion Reply :=
  let base := match apiBaseUrl with
              | None | Some EmptyString => "https://api.example.com"
              | Some b => b
              end in
  match
    ProblemDetailsBuilder.build
      (ProblemDetailsBuilder.withTimestamp now
         (ProblemDetailsBuilder.withRequestId (HttpRequest.id req)
            (ProblemDetailsBuilder.withInstance (HttpRequest.originalUrl req)
               (ProblemDetailsBuilder.withDetail
                  (String.append "Route "
                     (String.append (HttpRequest.method req)
                        (String.append " "
                           (String.append (HttpRequest.path req) " does not exist"))))
                  (ProblemDetailsBuilder.withStatus 404
                     (ProblemDetailsBuilder.withTitle "Route Not Found"
                        (ProblemDetailsBuilder.withType
                           (String.append base (String.append "/problems/" "not-found"))
                           ProblemDetailsBuilder.new)))))))
  with
  | Throws msg => Throws msg
  | Returns problemDetails => Returns (Sent 404 "application/problem+json" problemDetails)
  end.

Section ErrorHandler.

Variable otherErrorCode : Error -> string.
Variable otherMessage : Error -> string.
Variable timestamp : Error -> string.
Variable stack : Error -> option string.
(** [error.isOperational] *)
Variable isOperational : Error -> bool.

(** [ErrorHandlerMiddleware.handle], with what it logs.  The status line is
    read from the body: [res.status(problemDetails.status)]; a body without
    a number there cannot be sent. *)
Definition ErrorHandlerMiddleware_handle_whole
  (isDevelopment : bool) (apiBaseUrl : option string)
  (error : Error) (req : HttpRequest.t) (headersSent : bool) (now : string)
  : Completion (Reply * list LogEntry) :=
  if headersSent then Returns (Delegated error, [])
  else
    let options :=
      ErrorMapperOptions.make (Some (HttpRequest.originalUrl req))
        (Some (HttpRequest.id req)) isDevelopment apiBaseUrl in
    match WholeErrorMapper.toProblemDetails otherErrorCode otherMessage timestamp stack
            error options now
    with
    | Throws msg => Throws msg
    | Returns problemDetails =>
        let logged :=
          if isBaseError error then
            if isOperational error then [LogWarn "Operational error"]
            else [LogError "Non-operational error"]
          else [LogError "Unexpected error"] in
        match problemDetails "status" with
        | Some (JsValue.Num status) =>
            Returns (Sent status "application/problem+json" problemDetails, logged)
        | _ => Throws "Invalid status code"
        end
    end.

End ErrorHandler.

(** ** The console logger *)

Module LogLevel.
Inductive t : Type := debug | info | warn | error.

(** The name of the level, as the string the type is. *)
Definition name (level : t) : string :=
  match level with
  | debug => "debug"
  | info => "info"
  | warn => "warn"
  | error => "error"
  end.
End LogLevel.

Module ConsoleLogger.

(** [logLevels] *)
Definition logLevels (level : LogLevel.t) : Z :=
  match level with
  | LogLevel.debug => 0
  | LogLevel.info => 1
  | LogLevel.warn => 2
  | LogLevel.error => 3
  end.

Definition escape : string := String (ascii_of_nat 27) EmptyString.
Definition newline : string := String (ascii_of_nat 10) EmptyString.

(** [colors] *)
Definition colors (level : LogLevel.t) : string :=
  match level with
  | LogLevel.debug => String.append escape "[90m"
  | LogLevel.info => String.append escape "[34m"
  | LogLevel.warn => String.append escape "[33m"
  | LogLevel.error => String.append escape "[31m"
  end.

Definition colors_reset : string := String.append escape "[0m".

(** [s.padEnd(n)] *)
Definition padEnd (n : nat) (s : string) : string :=
  String.append s (String.concat "" (repeat " " (n - String.length s))).

(** What [console] is asked to write: the method, named by its level, and
    the text. *)
Record Written : Type := write {
  method : LogLevel.t;
  text : string
}.

Section Log.

(** [JSON.stringify(meta, null, 2)] *)
Variable stringify : list (string * string) -> string.

(** [log]; [error] is the message of the error and its stack, [now] the
    time as an ISO string. *)
Definition log (minLevel level : LogLevel.t) (message : string)
  (error : option (string * option string)) (meta : option (list (string * string)))
  (now : string) : option Written :=
  if (logLevels level <? logLevels minLevel)%Z then None
  else
    let levelUpperCase := padEnd 5 (JsString.toUpperCase (LogLevel.name level)) in
    let logMessage :=
      String.concat ""
        [colors level; "["; now; "] "; levelUpperCase; colors_reset; " "; message] in
    let logMessage :=
      match meta with
      | Some (entry :: entries) =>
          String.concat "" [logMessage; newline; "  "; stringify (entry :: entries)]
      | _ => logMessage
      end in
    let logMessage :=
      match error with
      | Some (errorMessage, stack) =>
          let logMessage :=
            String.concat "" [logMessage; newline; "  Error: "; errorMessage] in
          match stack with
          | None | Some EmptyString => logMessage
          | Some stack' => String.concat "" [logMessage; newline; "  Stack: "; stack']
          end
      | None => logMessage
      end in
    Some (write level logMessage).

Definition debug (minLevel : LogLevel.t) (message : string)
  (meta : option (list (string * string))) (now : string) : option Written :=
  log minLevel LogLevel.debug message None meta now.

Definition info (minLevel : LogLevel.t) (message : string)
  (meta : option (list (string * string))) (now : string) : option Written :=
  log minLevel LogLevel.info message None meta now.

Definition warn (minLevel : LogLevel.t) (message : string)
  (meta : option (list (string * string))) (now : string) : option Written :=
  log minLevel LogLevel.warn message None meta now.

Definition error (minLevel : LogLevel.t) (message : string)
  (error : option (string * option string)) (meta : option (list (string * string)))
  (now : string) : option Written :=
  log minLevel LogLevel.error message error meta now.

End Log.

End ConsoleLogger.

(** ** The request id *)

(** [RequestIdMiddleware.handle]: the request with its id attached, and the
    header set on the response; the handler then calls [next()].  [headers]
    reads a header of the request, [uuid] is what [randomUUID()] returns. *)
Definition RequestIdMiddleware_handle (headerName : string)
  (headers : string -> option string) (uuid : string) (req : HttpRequest.t)
  : HttpRequest.t * (string * string) :=
  let requestId :=
    match headers headerName with
    | None | Some EmptyString => uuid
    | Some given => given
    end in
  (HttpRequest.make (HttpRequest.method req) (HttpRequest.path req)
     (HttpRequest.originalUrl req) requestId,
   ("X-Request-ID", requestId)).

(** * Part II: properties *)

(** ** Scenarios of the specification, by evaluation *)

(** Scenario A: the ADMIN role holds [*:*]. *)
Example scenario_A :
  completion (CheckPermissionUseCase_execute Seed.checkPermission
                (UserId.make "u-admin") "users" "delete")
  = Returns (Result.ok true).
Proof. reflexivity. Qed.

(** Scenario B: the USER role holds only [users:read]. *)
Example scenario_B :
  completion (CheckPermissionUseCase_execute Seed.checkPermission
                (UserId.make "u-user") "users" "delete")
  = Returns (Result.ok false).
Proof. reflexivity. Qed.

(** Scenario C: the GUEST role holds nothing. *)
Example scenario_C :
  CheckPermissionUseCase_execute Seed.checkPermission
    (UserId.make "u-guest") "anything" "anything"
  = (Returns (Result.ok false),
     [CallUserFindById (UserId.make "u-guest"); CallRoleFindById (RoleId.make "r-guest")]).
Proof. reflexivity. Qed.

(** Scenario D: a header with the wrong scheme. *)
Example scenario_D :
  AuthenticationMiddleware_handle Seed.UserId_fromString Seed.authn
    (Request.make (Some "Token abc") None)
  = (Returns (Request.make (Some "Token abc") None,
              next (Some (UnauthorizedError "Invalid authorization header" None))),
     []).
Proof. reflexivity. Qed.

(** Scenario E: a token that verifies, for a soft-deleted user. *)
Example scenario_E :
  completion (AuthenticationMiddleware_handle Seed.UserId_fromString Seed.authn
                (Seed.bearer "t-gone"))
  = Returns (Seed.bearer "t-gone",
             next (Some (UnauthorizedError "User inactive or not found" None))).
Proof. reflexivity. Qed.

(** Scenario F: a requirement without a colon. *)
Example scenario_F :
  AuthorizationMiddleware_requirePermission Seed.UserId_fromString Seed.authz
    (inl "users") (Seed.authenticated "u-admin")
  = (Returns (Seed.authenticated "u-admin", next (Some (invalidPermissionFormat "users"))),
     []).
Proof. reflexivity. Qed.

(** Splitting, on the strings the counterexamples use. *)
Example split_examples :
  Js.split Js.colon "users:read" = ["users"; "read"]
  /\ Js.split Js.colon "users" = ["users"]
  /\ Js.split Js.colon "" = [""]
  /\ Js.split Js.colon "users:" = ["users"; ""]
  /\ Js.split Js.colon ":read" = [""; "read"]
  /\ Js.split Js.colon "users:read:extra" = ["users"; "read"; "extra"]
  /\ Js.split Js.space "Bearer  abc" = ["Bearer"; ""; "abc"].
Proof. repeat split. Qed.

(** ** The trace monad *)

Lemma bind_ret {A B : Type} (a : A) (k : A -> M B) : bind (ret a) k = k a.
Proof. unfold bind, ret. destruct (k a) as [c tr]. reflexivity. Qed.

Lemma bind_call {A B : Type} (ev : Event) (a : A) (k : A -> M B) :
  bind (call ev a) k = (completion (k a), ev :: trace (k a)).
Proof. unfold bind, call, completion, trace. destruct (k a) as [c tr]. reflexivity. Qed.

Lemma bind_throws {A B : Type} (msg : string) (tr : list Event) (k : A -> M B) :
  bind (Throws msg, tr) k = (Throws msg, tr).
Proof. reflexivity. Qed.

Lemma bind_returns {A B : Type} (a : A) (tr : list Event) (k : A -> M B) :
  bind (Returns a, tr) k = (completion (k a), tr ++ trace (k a)).
Proof. unfold bind, completion, trace. destruct (k a) as [c tr']. reflexivity. Qed.

(** ** Permission matching *)

Lemma grants_rule (p : Permission.t) (r2 a2 : string) :
  Permission.grants p r2 a2 = true <->
  (Permission.resource p = r2 \/ Permission.resource p = "*")
  /\ (Permission.action p = a2 \/ Permission.action p = "*").
Proof.
  unfold Permission.grants.
  rewrite andb_true_iff, !orb_true_iff, !String.eqb_eq.
  reflexivity.
Qed.

(** C1. A permission [(r, a)] grants the query [(r2, a2)] exactly when
    ([r = r2] or [r] is the wildcard) and ([a = a2] or [a] is the wildcard);
    the permission [*:*] grants every query; and the decision
    [permissions.some(p => p.grants(resource, action))] of the use case is
    true exactly when one of the fetched permissions satisfies that rule. *)
Theorem C1_grants_matching_rule :
  (forall (p : Permission.t) (r2 a2 : string),
      Permission.grants p r2 a2 = true <->
      (Permission.resource p = r2 \/ Permission.resource p = "*")
      /\ (Permission.action p = a2 \/ Permission.action p = "*"))
  /\ (forall (id : PermissionId.t) (description r2 a2 : string),
         Permission.grants (Permission.make id "*" "*" description) r2 a2 = true)
  /\ (forall (permissions : list Permission.t) (r2 a2 : string),
         existsb (fun p => Permission.grants p r2 a2) permissions = true <->
         exists p, In p permissions
                   /\ (Permission.resource p = r2 \/ Permission.resource p = "*")
                   /\ (Permission.action p = a2 \/ Permission.action p = "*")).
Proof.
  split; [exact grants_rule | split].
  - intros id description r2 a2. apply grants_rule. cbn. auto.
  - intros permissions r2 a2. rewrite existsb_exists.
    split; intros [p [Hin Hp]]; exists p; split; trivial; now apply grants_rule.
Qed.

(** ** The authorization decision *)

(** The decision on the full path: an active user, a role with at least one
    permission id, and a batch lookup that succeeds. *)
Lemma execute_full_path (this : CheckPermissionUseCase) (userId : UserId.t)
  (u : User.t) (role : Role.t) (permissions : list Permission.t)
  (resource action : string) :
  user_findById (userRepository this) userId = Result.ok (Some u) ->
  User.isActive u = true ->
  role_findById (roleRepository this) (User.getRoleId u) = Result.ok (Some role) ->
  Role.getPermissionIds role <> [] ->
  permission_findByIds (permissionRepository this) (Role.getPermissionIds role)
  = Result.ok permissions ->
  CheckPermissionUseCase_execute this userId resource action
  = (Returns (Result.ok (existsb (fun p => Permission.grants p resource action) permissions)),
     [CallUserFindById userId; CallRoleFindById (User.getRoleId u);
      CallPermissionFindByIds (Role.getPermissionIds role)]).
Proof.
  intros Hu Hact Hr Hids Hp.
  unfold CheckPermissionUseCase_execute.
  rewrite Hu. cbn. rewrite Hact. cbn. rewrite Hr. cbn.
  destruct (Role.getPermissionIds role) as [| i ids] eqn:E; [congruence |].
  cbn. rewrite Hp. reflexivity.
Qed.

(** C5. For a user whose [isActive] flag is false the use case resolves to
    [Result.ok(false)], a success carrying the denial, for every resource
    and action, and the only read it has issued is the lookup of the user:
    neither the role nor any permission is looked up. *)
Theorem C5_inactive_user_denied (this : CheckPermissionUseCase) (userId : UserId.t)
  (u : User.t) (resource action : string) :
  user_findById (userRepository this) userId = Result.ok (Some u) ->
  User.isActive u = false ->
  CheckPermissionUseCase_execute this userId resource action
  = (Returns (Result.ok false), [CallUserFindById userId]).
Proof.
  intros Hu Hoff.
  unfold CheckPermissionUseCase_execute.
  rewrite Hu. cbn. rewrite Hoff. reflexivity.
Qed.

Lemma C5_inactive_user_denied_witness :
  user_findById (userRepository Seed.checkPermission) (UserId.make "u-off")
  = Result.ok (Some (Seed.user "u-off" "r-admin" false))
  /\ User.isActive (Seed.user "u-off" "r-admin" false) = false
  /\ CheckPermissionUseCase_execute Seed.checkPermission (UserId.make "u-off")
       "users" "read"
     = (Returns (Result.ok false), [CallUserFindById (UserId.make "u-off")]).
Proof.
  split; [reflexivity | split; [reflexivity |]].
  apply (C5_inactive_user_denied Seed.checkPermission (UserId.make "u-off")
           (Seed.user "u-off" "r-admin" false)).
  - reflexivity.
  - reflexivity.
Defined.

(** C6. For an active user whose role has an empty permission set the use
    case resolves to [Result.ok(false)] for every resource and action, after
    the lookups of the user and of the role only: the batch lookup of
    permissions is not issued. *)
Theorem C6_empty_role_denied (this : CheckPermissionUseCase) (userId : UserId.t)
  (u : User.t) (role : Role.t) (resource action : string) :
  user_findById (userRepository this) userId = Result.ok (Some u) ->
  User.isActive u = true ->
  role_findById (roleRepository this) (User.getRoleId u) = Result.ok (Some role) ->
  Role.getPermissionIds role = [] ->
  CheckPermissionUseCase_execute this userId resource action
  = (Returns (Result.ok false),
     [CallUserFindById userId; CallRoleFindById (User.getRoleId u)]).
Proof.
  intros Hu Hact Hr Hids.
  unfold CheckPermissionUseCase_execute.
  rewrite Hu. cbn. rewrite Hact. cbn. rewrite Hr. cbn. rewrite Hids. reflexivity.
Qed.

Lemma C6_empty_role_denied_witness :
  user_findById (userRepository Seed.checkPermission) (UserId.make "u-guest")
  = Result.ok (Some (Seed.user "u-guest" "r-guest" true))
  /\ role_findById (roleRepository Seed.checkPermission) (RoleId.make "r-guest")
     = Result.ok (Some (Role.make (RoleId.make "r-guest") "GUEST"
                          "Guest user with no permissions" true []))
  /\ CheckPermissionUseCase_execute Seed.checkPermission (UserId.make "u-guest")
       "anything" "anything"
     = (Returns (Result.ok false),
        [CallUserFindById (UserId.make "u-guest"); CallRoleFindById (RoleId.make "r-guest")]).
Proof.
  split; [reflexivity | split; [reflexivity |]].
  apply (C6_empty_role_denied Seed.checkPermission (UserId.make "u-guest")
           (Seed.user "u-guest" "r-guest" true)
           (Role.make (RoleId.make "r-guest") "GUEST" "Guest user with no permissions"
              true [])).
  - reflexivity.
  - reflexivity.
  - reflexivity.
  - reflexivity.
Defined.

(** ** A user or a role that is not there *)

(** C7 as the specification words it does not hold: the failures for an
    absent user and for an absent role are [NotFoundError]s, whose status is
    404, a client-error status and not a server-fault one.  Shown on the
    seed data for an identity without a row and for a user whose role id has
    no role. *)
Lemma C7_counterexample_not_found_is_client_error :
  (exists e,
      completion (CheckPermissionUseCase_execute Seed.checkPermission
                    (UserId.make "u-nobody") "users" "read")
      = Returns (Result.fail e)
      /\ ErrorHandlerMiddleware_handle e = 404%Z
      /\ isServerFault (ErrorHandlerMiddleware_handle e) = false
      /\ isClientError (ErrorHandlerMiddleware_handle e) = true)
  /\ (exists e,
         completion (CheckPermissionUseCase_execute Seed.checkPermission
                       (UserId.make "u-orphan") "users" "read")
         = Returns (Result.fail e)
         /\ ErrorHandlerMiddleware_handle e = 404%Z
         /\ isServerFault (ErrorHandlerMiddleware_handle e) = false
         /\ isClientError (ErrorHandlerMiddleware_handle e) = true).
Proof.
  split; eexists; (split; [reflexivity | repeat split]).
Qed.

(** C7, amended. When the user is absent the use case fails with
    [NotFoundError('User', id)], and when the user's role is absent it fails
    with [NotFoundError('Role', roleId)], having issued only the reads up to
    the missing one.  The failure is an error and not the denial
    [Result.ok(false)], it is not the [ForbiddenError] of a denial, and the
    error handler answers it with status 404 (a status of the client-error
    class), not with 403 and not with a 5xx status. *)
Theorem C7_vanished_fails_not_found (this : CheckPermissionUseCase) (userId : UserId.t)
  (resource action : string) (e : Error) (reads : list Event) :
  Vanished this userId e reads ->
  CheckPermissionUseCase_execute this userId resource action
  = (Returns (Result.fail e), reads)
  /\ (exists entityType entityId context,
         e = NotFoundError entityType entityId context
         /\ (entityType = "User" \/ entityType = "Role"))
  /\ (Result.fail e : Result.t bool Error) <> Result.ok false
  /\ isDenied e = false
  /\ ErrorHandlerMiddleware_handle e = 404%Z
  /\ isClientError (ErrorHandlerMiddleware_handle e) = true
  /\ isServerFault (ErrorHandlerMiddleware_handle e) = false.
Proof.
  intros [Hu | u Hu Hact Hr].
  - split.
    + unfold CheckPermissionUseCase_execute. rewrite Hu. reflexivity.
    + repeat split; try discriminate. eauto 6.
  - split.
    + unfold CheckPermissionUseCase_execute.
      rewrite Hu. cbn. rewrite Hact. cbn. rewrite Hr. reflexivity.
    + repeat split; try discriminate. eauto 6.
Qed.

Lemma C7_vanished_fails_not_found_witness :
  Vanished Seed.checkPermission (UserId.make "u-nobody")
    (NotFoundError "User" "u-nobody"
       (Some (ErrorContext.make None None (Some "u-nobody") (Some "User") None None)))
    [CallUserFindById (UserId.make "u-nobody")]
  /\ CheckPermissionUseCase_execute Seed.checkPermission (UserId.make "u-nobody")
       "users" "read"
     = (Returns
          (Result.fail
             (NotFoundError "User" "u-nobody"
                (Some (ErrorContext.make None None (Some "u-nobody") (Some "User")
                         None None)))),
        [CallUserFindById (UserId.make "u-nobody")]).
Proof.
  assert (V : Vanished Seed.checkPermission (UserId.make "u-nobody")
                (NotFoundError "User" "u-nobody"
                   (Some (ErrorContext.make None None (Some "u-nobody") (Some "User")
                            None None)))
                [CallUserFindById (UserId.make "u-nobody")]).
  { apply (vanished_user Seed.checkPermission (UserId.make "u-nobody")). reflexivity. }
  split.
  - exact V.
  - exact (proj1 (C7_vanished_fails_not_found Seed.checkPermission
                    (UserId.make "u-nobody") "users" "read" _ _ V)).
Defined.

(** ** [Result] *)

(** C10. Every Result is a success or a failure and never both:
    [isFailure()] is the negation of [isSuccess()] and conversely;
    [Result.ok(v).value] is [v] and [Result.fail(e).error] is [e]; on every
    failed Result [value] throws its fixed message instead of handing out
    the stored field, and on every successful Result [error] throws
    likewise. *)
Theorem C10_result_exclusive_and_guarded (T E : Type) :
  (forall r : Result.t T E,
      Result.isFailure r = negb (Result.isSuccess r)
      /\ Result.isSuccess r = negb (Result.isFailure r)
      /\ ((Result.isSuccess r = true /\ Result.isFailure r = false)
          \/ (Result.isSuccess r = false /\ Result.isFailure r = true))
      /\ Result.value r
         = (if Result.isFailure r then Throws Result.value_message
            else Returns (Result.successValue r))
      /\ Result.error r
         = (if Result.isSuccess r then Throws Result.error_message
            else Returns (Result.errorValue r)))
  /\ (forall v : T,
         Result.isSuccess (@Result.ok T E v) = true
         /\ Result.isFailure (@Result.ok T E v) = false
         /\ Result.value (@Result.ok T E v) = Returns (Some v)
         /\ Result.error (@Result.ok T E v) = Throws Result.error_message)
  /\ (forall e : E,
         Result.isFailure (@Result.fail T E e) = true
         /\ Result.isSuccess (@Result.fail T E e) = false
         /\ Result.error (@Result.fail T E e) = Returns (Some e)
         /\ Result.value (@Result.fail T E e) = Throws Result.value_message).
Proof.
  split; [| split].
  - intros [[] sv ev]; cbn; (split; [| split; [| split; [| split]]]);
      try reflexivity; [left | right]; split; reflexivity.
  - intros v. repeat split.
  - intros e. repeat split.
Qed.

(** ** Reading the [Authorization] header *)

Lemma headerShape_bearer (h token : string) :
  headerShape (Some h) = HeaderBearer token <->
  token <> "" /\ exists more, Js.split Js.space h = "Bearer" :: token :: more.
Proof.
  unfold headerShape. destruct h as [| c h].
  - cbn. split; [discriminate | intros [_ [more H]]; discriminate].
  - destruct (Js.split Js.space (String c h)) as [| scheme [| [| c2 tk] more]] eqn:E.
    + split; [discriminate | intros [_ [more H]]; discriminate].
    + split; [discriminate | intros [_ [more H]]; discriminate].
    + split; [discriminate |].
      intros [Hne [more' H]]. injection H as _ Htk _. congruence.
    + destruct (String.eqb scheme "Bearer") eqn:Es.
      * apply String.eqb_eq in Es. subst scheme. split.
        -- intros H. injection H as <-. split; [discriminate | eauto].
        -- intros [_ [more' H]]. injection H as <- _. reflexivity.
      * apply String.eqb_neq in Es. split; [discriminate |].
        intros [_ [more' H]]. injection H as Hs _ _. congruence.
Qed.

(** C4 as the specification words it does not hold: a header with further
    segments after the token is not in the shape the spec asks for, and the
    middleware still goes on with its second piece as the token, here up to
    a successful authentication. *)
Lemma C4_counterexample_extra_segments_accepted :
  exactlyBearerAndToken "Bearer abc def" = false
  /\ AuthenticationMiddleware_handle Seed.UserId_fromString Seed.authn
       (Request.make (Some "Bearer abc def") None)
     = (Returns (Request.make (Some "Bearer abc def") (Some "u-admin"), next None),
        [CallJwtVerify "abc"; CallUserFindById (UserId.make "u-admin")]).
Proof. split; reflexivity. Qed.

(** C4, amended. The middleware goes past the parsing of the header, that
    is, consults the token service, exactly when the header is non-empty
    and its split on spaces starts with the piece [Bearer] followed by a
    non-empty second piece; that second piece is the token handed to the
    token service and further pieces are ignored.  A missing (or empty)
    header fails with [UnauthorizedError('Token missing')] and every other
    header with [UnauthorizedError('Invalid authorization header')]; in both
    cases the request is unchanged and nothing was consulted.  A header in
    the shape the specification asks for is among the accepted ones. *)
Theorem C4_header_parsing (UserId_fromString : string -> Result.t UserId.t Error)
  (this : AuthenticationMiddleware) (req : Request.t) :
  match headerShape (Request.authorization req) with
  | HeaderMissing =>
      AuthenticationMiddleware_handle UserId_fromString this req
      = (Returns (req, next (Some (UnauthorizedError "Token missing" None))), [])
  | HeaderMalformed =>
      AuthenticationMiddleware_handle UserId_fromString this req
      = (Returns (req, next (Some (UnauthorizedError "Invalid authorization header" None))),
         [])
  | HeaderBearer token =>
      exists c rest,
        AuthenticationMiddleware_handle UserId_fromString this req
        = (c, CallJwtVerify token :: rest)
  end
  /\ ((exists token,
          In (CallJwtVerify token)
             (trace (AuthenticationMiddleware_handle UserId_fromString this req)))
      <-> (exists token, headerShape (Request.authorization req) = HeaderBearer token))
  /\ (forall h token,
         headerShape (Some h) = HeaderBearer token <->
         token <> "" /\ exists more, Js.split Js.space h = "Bearer" :: token :: more)
  /\ (forall h,
         exactlyBearerAndToken h = true ->
         exists token, headerShape (Some h) = HeaderBearer token).
Proof.
  assert (Hshape :
    match headerShape (Request.authorization req) with
    | HeaderMissing =>
        AuthenticationMiddleware_handle UserId_fromString this req
        = (Returns (req, next (Some (UnauthorizedError "Token missing" None))), [])
    | HeaderMalformed =>
        AuthenticationMiddleware_handle UserId_fromString this req
        = (Returns (req, next (Some (UnauthorizedError "Invalid authorization header" None))),
           [])
    | HeaderBearer token =>
        exists c rest,
          AuthenticationMiddleware_handle UserId_fromString this req
          = (c, CallJwtVerify token :: rest)
    end).
  { unfold AuthenticationMiddleware_handle, headerShape.
    destruct (Request.authorization req) as [[| c h] |]; try reflexivity.
    cbn [Js.falsy].
    destruct (Js.split Js.space (String c h)) as [| scheme [| [| c2 tk] more]];
      cbn [Js.destructure2 nth_error fst snd Js.strictNe Js.falsy].
    - reflexivity.
    - rewrite orb_true_r. reflexivity.
    - rewrite orb_true_r. reflexivity.
    - destruct (String.eqb scheme "Bearer"); cbn [negb orb].
      + rewrite bind_call. eauto.
      + reflexivity. }
  split; [exact Hshape | split; [| split]].
  - destruct (headerShape (Request.authorization req)) as [| | token].
    + rewrite Hshape. cbn. split; intros [tk H]; [contradiction | discriminate].
    + rewrite Hshape. cbn. split; intros [tk H]; [contradiction | discriminate].
    + destruct Hshape as [c [rest H]]. rewrite H. cbn.
      split; intros _; exists token; auto.
  - exact headerShape_bearer.
  - intros h Hex. unfold exactlyBearerAndToken in Hex.
    destruct (Js.split Js.space h) as [| scheme [| token [| x more]]] eqn:E;
      try discriminate.
    apply andb_true_iff in Hex. destruct Hex as [Hs Ht].
    apply String.eqb_eq in Hs. subst scheme.
    exists token. apply headerShape_bearer. split; [| eauto].
    intros ->. discriminate.
Qed.

(** ** Users that cannot authenticate *)

(** [UserRepositoryImpl.findById] filters on [deletedAt: null]: when every
    row with the id carries a deletion marker, and the query itself goes
    through, it resolves to [Result.ok(null)]. *)
Lemma findById_no_live_row
  (RoleId_fromString : string -> Result.t RoleId.t Error)
  (Email_create : string -> Result.t Email.t Error)
  (prisma : PrismaClient.t) (userId : UserId.t) :
  PrismaClient.broken prisma = None ->
  (forall r, In r (PrismaClient.users prisma) ->
             UserRecord.id r = UserId.getValue userId ->
             UserRecord.deletedAt r <> None) ->
  UserRepositoryImpl_findById RoleId_fromString Email_create prisma userId
  = Result.ok None.
Proof.
  intros Hup Hrows.
  unfold UserRepositoryImpl_findById, UserRepositoryImpl_findById_try,
    PrismaClient.user_findFirst.
  rewrite Hup.
  destruct (find _ (PrismaClient.users prisma)) as [r |] eqn:F; [| reflexivity].
  apply find_some in F. destruct F as [Hin Hmatch].
  apply andb_true_iff in Hmatch. destruct Hmatch as [Hid Hlive].
  apply String.eqb_eq in Hid.
  specialize (Hrows r Hin Hid).
  destruct (UserRecord.deletedAt r); [discriminate | congruence].
Qed.

(** A broken connection is a failure of its own kind, not a verdict on the
    user. *)
Lemma findById_broken
  (RoleId_fromString : string -> Result.t RoleId.t Error)
  (Email_create : string -> Result.t Email.t Error)
  (prisma : PrismaClient.t) (userId : UserId.t) (cause : string) :
  PrismaClient.broken prisma = Some cause ->
  exists context,
    UserRepositoryImpl_findById RoleId_fromString Email_create prisma userId
    = Result.fail (DatabaseError "Failed to find user by ID" context).
Proof.
  intros Hdown.
  unfold UserRepositoryImpl_findById, UserRepositoryImpl_findById_try,
    PrismaClient.user_findFirst.
  rewrite Hdown. eauto.
Qed.

Lemma getActive_rejects
  (RoleId_fromString : string -> Result.t RoleId.t Error)
  (Email_create : string -> Result.t Email.t Error)
  (this : GetActiveUserByIdUseCase) (userId : UserId.t) :
  CannotAuthenticate RoleId_fromString Email_create (getActive_userRepository this) userId ->
  GetActiveUserByIdUseCase_execute this userId
  = (Returns (Result.fail (UnauthorizedError "User inactive or not found" None)),
     [CallUserFindById userId]).
Proof.
  intros [Habsent | prisma Hrepo Hup Hrows | u Hu Hoff];
    unfold GetActiveUserByIdUseCase_execute.
  - rewrite Habsent. reflexivity.
  - rewrite Hrepo. cbn [user_findById UserRepositoryImpl].
    rewrite (findById_no_live_row RoleId_fromString Email_create prisma userId Hup Hrows).
    reflexivity.
  - rewrite Hu. cbn. unfold User.canAuthenticate. rewrite Hoff. reflexivity.
Qed.

(** C8. When the header carries a bearer token, the token verifies and the
    identity in its payload is well-formed, but the user it names cannot
    authenticate (absent, soft-deleted, or [isActive] false), the
    middleware ends with [next(UnauthorizedError('User inactive or not
    found'))]: the request it passes on is the one it received, with no
    [userId] attached, after the token verification and one lookup of the
    user. *)
Theorem C8_cannot_authenticate_rejected
  (UserId_fromString : string -> Result.t UserId.t Error)
  (RoleId_fromString : string -> Result.t RoleId.t Error)
  (Email_create : string -> Result.t Email.t Error)
  (this : AuthenticationMiddleware) (req : Request.t) (token : string)
  (payload : AccessTokenPayload.t) (userId : UserId.t) :
  headerShape (Request.authorization req) = HeaderBearer token ->
  jwt_verify (jwtService this) token = Result.ok payload ->
  UserId_fromString (AccessTokenPayload.userId payload) = Result.ok userId ->
  CannotAuthenticate RoleId_fromString Email_create
    (getActive_userRepository (getActiveUserByIdUseCase this)) userId ->
  AuthenticationMiddleware_handle UserId_fromString this req
  = (Returns (req, next (Some (UnauthorizedError "User inactive or not found" None))),
     [CallJwtVerify token; CallUserFindById userId]).
Proof.
  intros Hshape Hjwt Hid Hcannot.
  unfold AuthenticationMiddleware_handle.
  unfold headerShape in Hshape.
  destruct (Request.authorization req) as [[| c h] |]; try discriminate.
  cbn [Js.falsy].
  destruct (Js.split Js.space (String c h)) as [| scheme [| [| c2 tk] more]];
    try discriminate.
  cbn [Js.destructure2 nth_error fst snd Js.strictNe Js.falsy].
  destruct (String.eqb scheme "Bearer"); [| discriminate].
  injection Hshape as <-.
  cbn [negb orb].
  rewrite bind_call, Hjwt. cbn [Result.isSuccess Result.ok Result._isSuccess negb].
  unfold Result.value. cbn [Result.ok Result._isSuccess Result.successValue negb defined].
  rewrite bind_ret, Hid.
  cbn [Result.isSuccess Result.ok Result._isSuccess Result.successValue negb defined].
  rewrite bind_ret.
  rewrite (getActive_rejects RoleId_fromString Email_create _ userId Hcannot).
  reflexivity.
Qed.

Lemma C8_cannot_authenticate_rejected_witness :
  CannotAuthenticate Seed.RoleId_fromString Seed.Email_create Seed.users
    (UserId.make "u-gone")
  /\ AuthenticationMiddleware_handle Seed.UserId_fromString Seed.authn
       (Seed.bearer "t-gone")
     = (Returns (Seed.bearer "t-gone",
                 next (Some (UnauthorizedError "User inactive or not found" None))),
        [CallJwtVerify "t-gone"; CallUserFindById (UserId.make "u-gone")]).
Proof.
  assert (Hgone : CannotAuthenticate Seed.RoleId_fromString Seed.Email_create Seed.users
                    (UserId.make "u-gone")).
  { apply (cannot_softDeleted Seed.RoleId_fromString Seed.Email_create Seed.users
             (UserId.make "u-gone") Seed.prisma).
    - reflexivity.
    - reflexivity.
    - intros r Hin Hid.
      cbn in Hin.
      repeat (destruct Hin as [<- | Hin]; [cbn in Hid |- *; discriminate |]).
      contradiction. }
  split.
  - exact Hgone.
  - apply (C8_cannot_authenticate_rejected Seed.UserId_fromString Seed.RoleId_fromString
             Seed.Email_create Seed.authn (Seed.bearer "t-gone") "t-gone"
             (AccessTokenPayload.make "u-gone") (UserId.make "u-gone")).
    + reflexivity.
    + reflexivity.
    + reflexivity.
    + exact Hgone.
Defined.

(** ** The loop over the required permissions *)

Lemma bind_assoc {A B C : Type} (m : M A) (f : A -> M B) (g : B -> M C) :
  bind (bind m f) g = bind m (fun x => bind (f x) g).
Proof.
  destruct m as [[a | msg] tr]; [| reflexivity].
  cbn. destruct (f a) as [[b | msg] tr1]; cbn; [| reflexivity].
  destruct (g b) as [c tr2]. now rewrite app_assoc.
Qed.

Lemma bind_ext {A B : Type} (m : M A) (k k' : A -> M B) :
  (forall a, k a = k' a) -> bind m k = bind m k'.
Proof.
  intros H. destruct m as [[a | msg] tr]; [| reflexivity].
  cbn. now rewrite H.
Qed.

(** Ending a handler with [next(err)] on the request it was given. *)
Lemma bind_next (req : Request.t) (m : M (option Error)) :
  bind m (fun err => ret (req, next err))
  = (match completion m with
     | Returns err => Returns (req, next err)
     | Throws msg => Throws msg
     end, trace m).
Proof.
  destruct m as [[err | msg] tr]; cbn; [| reflexivity].
  now rewrite app_nil_r.
Qed.

(** One iteration, then the rest of the loop. *)
Lemma checkEach_cons (this : AuthorizationMiddleware) (req : Request.t)
  (userIdResult : Result.t UserId.t Error) (permissionCode : string)
  (rest : list string) :
  checkEach this req userIdResult (permissionCode :: rest)
  = bind (checkEach this req userIdResult [permissionCode])
         (fun err => match err with
                     | Some e => ret (Some e)
                     | None => checkEach this req userIdResult rest
                     end).
Proof.
  cbn [checkEach].
  destruct (Js.falsy _ || Js.falsy _).
  - now rewrite bind_ret.
  - rewrite bind_assoc. apply bind_ext. intros userId.
    rewrite bind_assoc. apply bind_ext. intros hasPermissionResult.
    destruct (negb (Result.isSuccess hasPermissionResult)).
    + rewrite bind_assoc. apply bind_ext. intros e. now rewrite bind_ret.
    + rewrite bind_assoc. apply bind_ext. intros hasPermission.
      destruct (negb hasPermission); now rewrite bind_ret.
Qed.

(** On a request that carries a well-formed identity the handler is the
    loop, ended by [next]. *)
Lemma requirePermission_authenticated
  (UserId_fromString : string -> Result.t UserId.t Error)
  (this : AuthorizationMiddleware) (permission : string + list string)
  (req : Request.t) (userId : UserId.t) :
  Js.falsy (Request.userId req) = false ->
  UserId_fromString (match Request.userId req with Some s => s | None => "" end)
  = Result.ok userId ->
  AuthorizationMiddleware_requirePermission UserId_fromString this permission req
  = bind (checkEach this req (Result.ok userId)
            (match permission with inl p => [p] | inr ps => ps end))
         (fun err => ret (req, next err)).
Proof.
  intros Hid Hparse. unfold AuthorizationMiddleware_requirePermission.
  rewrite Hid, Hparse. reflexivity.
Qed.

(** The loop passes exactly when each of its codes passes on its own. *)
Lemma checkEach_passes_iff (this : AuthorizationMiddleware) (req : Request.t)
  (userIdResult : Result.t UserId.t Error) (permissions : list string) :
  completion (checkEach this req userIdResult permissions) = Returns None <->
  Forall (fun code => completion (checkEach this req userIdResult [code]) = Returns None)
         permissions.
Proof.
  induction permissions as [| code rest IH].
  - split; [constructor | reflexivity].
  - rewrite checkEach_cons.
    destruct (checkEach this req userIdResult [code]) as [[[e |] | msg] tr] eqn:E.
    + rewrite bind_returns. cbn [completion fst ret]. split; [discriminate |].
      intros H. inversion H as [| ? ? Hhead _]; subst.
      rewrite E in Hhead. cbn in Hhead. discriminate.
    + rewrite bind_returns. cbn [completion fst]. rewrite IH.
      split; [intros H; constructor; [now rewrite E | exact H] |].
      intros H. now inversion H.
    + rewrite bind_throws. cbn [completion fst]. split; [discriminate |].
      intros H. inversion H as [| ? ? Hhead _]; subst.
      rewrite E in Hhead. cbn in Hhead. discriminate.
Qed.

(** The loop stops at the first code that does not pass: it ends as that
    code ends on its own, and its trace is the traces of the codes before
    it followed by the trace of that code. *)
Lemma checkEach_first_refusal (this : AuthorizationMiddleware) (req : Request.t)
  (userIdResult : Result.t UserId.t Error) (before : list string) (code : string)
  (after : list string) :
  Forall (fun c => completion (checkEach this req userIdResult [c]) = Returns None) before ->
  completion (checkEach this req userIdResult [code]) <> Returns None ->
  checkEach this req userIdResult (before ++ code :: after)
  = (completion (checkEach this req userIdResult [code]),
     flat_map (fun c => trace (checkEach this req userIdResult [c])) before
     ++ trace (checkEach this req userIdResult [code])).
Proof.
  intros Hbefore Hcode. induction before as [| b before IH]; cbn [app flat_map].
  - rewrite checkEach_cons.
    destruct (checkEach this req userIdResult [code]) as [[[e |] | msg] tr].
    + cbn. now rewrite app_nil_r.
    + cbn in Hcode. congruence.
    + reflexivity.
  - inversion Hbefore as [| ? ? Hb Hrest]; subst.
    rewrite checkEach_cons.
    destruct (checkEach this req userIdResult [b]) as [cb trb] eqn:Eb.
    cbn in Hb. subst cb. rewrite bind_returns, (IH Hrest).
    cbn [completion trace fst snd]. now rewrite app_assoc.
Qed.

Lemma passes_next (req : Request.t) (m : M (option Error)) :
  passes req (bind m (fun err => ret (req, next err))) <-> completion m = Returns None.
Proof.
  unfold passes. rewrite bind_next. cbn [completion fst].
  destruct (completion m) as [[e |] | msg]; split; congruence.
Qed.

(** C2. On a request that carries a well-formed identity, a list of required
    codes passes ([next()]) exactly when every code of the list passes when
    required alone; and when some code does not pass, the handler ends as
    the first such code ends when required alone (its denial or its error),
    having issued the reads of the codes before it, in order, then the reads
    of that code, and nothing for the codes after it. *)
Theorem C2_fail_fast_in_order
  (UserId_fromString : string -> Result.t UserId.t Error)
  (this : AuthorizationMiddleware) (req : Request.t) (userId : UserId.t) :
  Js.falsy (Request.userId req) = false ->
  UserId_fromString (match Request.userId req with Some s => s | None => "" end)
  = Result.ok userId ->
  (forall codes : list string,
      passes req (AuthorizationMiddleware_requirePermission UserId_fromString this
                    (inr codes) req)
      <-> Forall (fun code =>
                    passes req (AuthorizationMiddleware_requirePermission
                                  UserId_fromString this (inl code) req))
                 codes)
  /\ (forall (before : list string) (code : string) (after : list string),
         Forall (fun c =>
                   passes req (AuthorizationMiddleware_requirePermission
                                 UserId_fromString this (inl c) req))
                before ->
         ~ passes req (AuthorizationMiddleware_requirePermission
                         UserId_fromString this (inl code) req) ->
         AuthorizationMiddleware_requirePermission UserId_fromString this
           (inr (before ++ code :: after)) req
         = (completion (AuthorizationMiddleware_requirePermission
                          UserId_fromString this (inl code) req),
            flat_map (fun c =>
                        trace (AuthorizationMiddleware_requirePermission
                                 UserId_fromString this (inl c) req))
                     before
            ++ trace (AuthorizationMiddleware_requirePermission
                        UserId_fromString this (inl code) req))).
Proof.
  intros Hid Hparse.
  assert (Hone : forall p,
             AuthorizationMiddleware_requirePermission UserId_fromString this p req
             = bind (checkEach this req (Result.ok userId)
                       (match p with inl c => [c] | inr ps => ps end))
                    (fun err => ret (req, next err))).
  { intros p. now apply requirePermission_authenticated. }
  assert (Hpass : forall c,
             passes req (AuthorizationMiddleware_requirePermission
                           UserId_fromString this (inl c) req)
             <-> completion (checkEach this req (Result.ok userId) [c]) = Returns None).
  { intros c. rewrite Hone. apply passes_next. }
  split.
  - intros codes. rewrite Hone, passes_next, checkEach_passes_iff.
    rewrite !Forall_forall. split; intros H c Hc; apply Hpass, H, Hc.
  - intros before code after Hbefore Hcode.
    rewrite !Hone, !bind_next.
    rewrite checkEach_first_refusal.
    + cbn [completion trace fst snd]. f_equal. f_equal.
      apply flat_map_ext. intros c. now rewrite Hone, bind_next.
    + rewrite Forall_forall in *. intros c Hc. apply Hpass, Hbefore, Hc.
    + intros H. apply Hcode, Hpass, H.
Qed.

Lemma C2_fail_fast_in_order_witness :
  Js.falsy (Request.userId (Seed.authenticated "u-user")) = false
  /\ Seed.UserId_fromString "u-user" = Result.ok (UserId.make "u-user")
  /\ passes (Seed.authenticated "u-user")
       (AuthorizationMiddleware_requirePermission Seed.UserId_fromString Seed.authz
          (inl "users:read") (Seed.authenticated "u-user"))
  /\ AuthorizationMiddleware_requirePermission Seed.UserId_fromString Seed.authz
       (inr ["users:read"; "users:delete"; "roles:read"]) (Seed.authenticated "u-user")
     = (Returns (Seed.authenticated "u-user",
                 next (Some (ForbiddenError "delete" "users" "Missing required permission"
                               (Some (ErrorContext.make None (Some "u-user") None None
                                        (Some "authorize") None))))),
        [CallUserFindById (UserId.make "u-user"); CallRoleFindById (RoleId.make "r-user");
         CallPermissionFindByIds [PermissionId.make "p-users-read"];
         CallUserFindById (UserId.make "u-user"); CallRoleFindById (RoleId.make "r-user");
         CallPermissionFindByIds [PermissionId.make "p-users-read"]]).
Proof.
  split; [reflexivity | split; [reflexivity | split; [reflexivity |]]].
  apply (proj2 (C2_fail_fast_in_order Seed.UserId_fromString Seed.authz
                  (Seed.authenticated "u-user") (UserId.make "u-user")
                  eq_refl eq_refl)
           ["users:read"] "users:delete" ["roles:read"]).
  - constructor; [reflexivity | constructor].
  - unfold passes. cbn. discriminate.
Defined.

(** ** The format of a required code *)

Lemma split_not_nil (sep : ascii) (s : string) : Js.split sep s <> [].
Proof.
  destruct s as [| c rest]; cbn; [discriminate |].
  destruct (Ascii.eqb c sep); [discriminate |].
  destruct (Js.split sep rest); discriminate.
Qed.

(** The codes the guard refuses: no colon at all, an empty first token, or
    an empty second token. *)
Lemma firstTwoTokens_none (sep : ascii) (s : string) :
  firstTwoTokens sep s = None <->
  (exists only, Js.split sep s = [only])
  \/ (exists rest, Js.split sep s = "" :: rest)
  \/ (exists first rest, Js.split sep s = first :: "" :: rest).
Proof.
  unfold firstTwoTokens.
  destruct (Js.split sep s) as [| [| a x] [| [| b y] more]] eqn:E.
  - now apply split_not_nil in E.
  - split; eauto.
  - split; eauto.
  - split; eauto.
  - split; eauto.
  - split; eauto 6.
  - split; [discriminate |].
    intros [[only H] | [[rest H] | [first [rest H]]]]; discriminate.
Qed.

Lemma permission_guard (permissionCode : string) :
  match firstTwoTokens Js.colon permissionCode with
  | None =>
      Js.falsy (fst (Js.destructure2 (Js.split Js.colon permissionCode)))
      || Js.falsy (snd (Js.destructure2 (Js.split Js.colon permissionCode))) = true
  | Some (resource, action) =>
      Js.destructure2 (Js.split Js.colon permissionCode) = (Some resource, Some action)
      /\ Js.falsy (Some resource) || Js.falsy (Some action) = false
  end.
Proof.
  unfold firstTwoTokens, Js.destructure2.
  destruct (Js.split Js.colon permissionCode) as [| [| a x] [| [| b y] more]];
    cbn; auto.
Qed.

(** One required code: refused for its format before anything is read, or
    decided by the use case on its first two tokens. *)
Lemma checkEach_single (this : AuthorizationMiddleware) (req : Request.t)
  (userId : UserId.t) (permissionCode : string) :
  checkEach this req (Result.ok userId) [permissionCode]
  = match firstTwoTokens Js.colon permissionCode with
    | None => ret (Some (invalidPermissionFormat permissionCode))
    | Some (resource, action) =>
        bind (CheckPermissionUseCase_execute (checkPermissionUseCase this)
                userId resource action)
             (fun answer =>
                if negb (Result.isSuccess answer) then
                  bind (defined (Result.error answer)) (fun e => ret (Some e))
                else
                  bind (defined (Result.value answer))
                       (fun hasPermission =>
                          if negb hasPermission then
                            ret (Some (ForbiddenError action resource
                                         "Missing required permission"
                                         (Some (ErrorContext.make None (Request.userId req)
                                                  None None (Some "authorize") None))))
                          else ret None))
    end.
Proof.
  cbn [checkEach].
  pose proof (permission_guard permissionCode) as G.
  destruct (firstTwoTokens Js.colon permissionCode) as [[resource action] |].
  - destruct G as [Hparts Hguard]. rewrite Hparts. cbn [fst snd].
    rewrite Hguard. unfold Result.value at 1.
    cbn [Result.ok Result._isSuccess Result.successValue negb defined].
    now rewrite bind_ret.
  - rewrite G. reflexivity.
Qed.

(** A failure of the use case carries either the error of a collaborator or
    a [NotFoundError]. *)
Lemma execute_failure_origin (this : CheckPermissionUseCase) (userId : UserId.t)
  (resource action : string) (answer : Result.t bool Error) (e : Error) :
  noFormatErrorUpstream this ->
  completion (CheckPermissionUseCase_execute this userId resource action)
  = Returns answer ->
  Result.isSuccess answer = false ->
  Result.errorValue answer = Some e ->
  isInvalidFormat e = false.
Proof.
  intros [Husers [Hroles Hperms]] Hrun Hfail He.
  unfold CheckPermissionUseCase_execute in Hrun.
  rewrite bind_call in Hrun. cbn [completion fst] in Hrun.
  pose proof (Husers userId) as Hu.
  destruct (user_findById (userRepository this) userId) as [[] usv uev].
  - cbn in Hrun. destruct usv as [[u |] |]; cbn in Hrun.
    + destruct (User.isActive u); cbn in Hrun.
      * pose proof (Hroles (User.getRoleId u)) as Hr.
        destruct (role_findById (roleRepository this) (User.getRoleId u))
          as [[] rsv rev].
        -- cbn in Hrun. destruct rsv as [[role |] |]; cbn in Hrun.
           ++ destruct (Role.getPermissionIds role) as [| i ids] eqn:Eids;
                cbn in Hrun.
              ** injection Hrun as <-. discriminate.
              ** pose proof (Hperms (i :: ids)) as Hp.
                 destruct (permission_findByIds (permissionRepository this) (i :: ids))
                   as [[] psv pev].
                 --- cbn in Hrun. destruct psv as [ps |]; cbn in Hrun.
                     +++ injection Hrun as <-. discriminate.
                     +++ discriminate.
                 --- cbn in Hrun. destruct pev as [e' |]; cbn in Hrun.
                     +++ injection Hrun as <-. cbn in He. injection He as <-.
                         now apply Hp.
                     +++ discriminate.
           ++ injection Hrun as <-. cbn in He. injection He as <-. reflexivity.
           ++ discriminate.
        -- cbn in Hrun. destruct rev as [e' |]; cbn in Hrun.
           ++ injection Hrun as <-. cbn in He. injection He as <-. now apply Hr.
           ++ discriminate.
      * injection Hrun as <-. discriminate.
    + injection Hrun as <-. cbn in He. injection He as <-. reflexivity.
    + discriminate.
  - cbn in Hrun. destruct uev as [e' |]; cbn in Hrun.
    + injection Hrun as <-. cbn in He. injection He as <-. now apply Hu.
    + discriminate.
Qed.

(** C3 as the specification words it does not hold: a code with more than
    two colon-separated tokens is not refused for its format.  Its first two
    tokens are checked, with a grant for [users:read:extra] and a denial for
    [users:delete:extra] for a user whose role holds only [users:read]. *)
Lemma C3_counterexample_extra_token_evaluated :
  exactlyTwoTokens "users:read:extra" = false
  /\ exactlyTwoTokens "users:delete:extra" = false
  /\ AuthorizationMiddleware_requirePermission Seed.UserId_fromString Seed.authz
       (inl "users:read:extra") (Seed.authenticated "u-user")
     = (Returns (Seed.authenticated "u-user", next None),
        [CallUserFindById (UserId.make "u-user"); CallRoleFindById (RoleId.make "r-user");
         CallPermissionFindByIds [PermissionId.make "p-users-read"]])
  /\ completion (AuthorizationMiddleware_requirePermission Seed.UserId_fromString
                   Seed.authz (inl "users:delete:extra") (Seed.authenticated "u-user"))
     = Returns (Seed.authenticated "u-user",
                next (Some (ForbiddenError "delete" "users" "Missing required permission"
                              (Some (ErrorContext.make None (Some "u-user") None None
                                       (Some "authorize") None))))).
Proof. repeat split. Qed.

(** C3, amended. On a request that carries a well-formed identity, and with
    collaborators that do not themselves fail with the malformed-code error,
    requiring one code ends with the malformed-code [ValidationError]
    exactly when the split of the code on colons has no second piece or has
    an empty first or second piece (so for a code without a colon and for a
    code with an empty first or second token).  That error is raised before
    anything is read and is not the denial.  Any other code, with two tokens
    or more, is decided by the use case on its first two tokens: a grant
    passes, a denial ends with [ForbiddenError], a failure ends with the
    error of the use case.  A code of exactly two non-empty tokens is
    decided on those two. *)
Theorem C3_invalid_format
  (UserId_fromString : string -> Result.t UserId.t Error)
  (this : AuthorizationMiddleware) (req : Request.t) (userId : UserId.t)
  (permissionCode : string) :
  Js.falsy (Request.userId req) = false ->
  UserId_fromString (match Request.userId req with Some s => s | None => "" end)
  = Result.ok userId ->
  noFormatErrorUpstream (checkPermissionUseCase this) ->
  ((exists e,
       completion (AuthorizationMiddleware_requirePermission UserId_fromString this
                     (inl permissionCode) req)
       = Returns (req, next (Some e))
       /\ isInvalidFormat e = true)
   <-> firstTwoTokens Js.colon permissionCode = None)
  /\ (firstTwoTokens Js.colon permissionCode = None <->
      (exists only, Js.split Js.colon permissionCode = [only])
      \/ (exists rest, Js.split Js.colon permissionCode = "" :: rest)
      \/ (exists first rest, Js.split Js.colon permissionCode = first :: "" :: rest))
  /\ (firstTwoTokens Js.colon permissionCode = None ->
      AuthorizationMiddleware_requirePermission UserId_fromString this
        (inl permissionCode) req
      = (Returns (req, next (Some (invalidPermissionFormat permissionCode))), [])
      /\ isDenied (invalidPermissionFormat permissionCode) = false)
  /\ (forall resource action,
         firstTwoTokens Js.colon permissionCode = Some (resource, action) ->
         exists answer,
           CheckPermissionUseCase_execute (checkPermissionUseCase this)
             userId resource action
           = (answer,
              trace (AuthorizationMiddleware_requirePermission UserId_fromString this
                       (inl permissionCode) req))
           /\ (answer = Returns (Result.ok true) ->
               passes req (AuthorizationMiddleware_requirePermission UserId_fromString
                             this (inl permissionCode) req))
           /\ (answer = Returns (Result.ok false) ->
               completion (AuthorizationMiddleware_requirePermission UserId_fromString
                             this (inl permissionCode) req)
               = Returns (req,
                          next (Some (ForbiddenError action resource
                                        "Missing required permission"
                                        (Some (ErrorContext.make None (Request.userId req)
                                                 None None (Some "authorize") None))))))
           /\ (forall e,
                  answer = Returns (Result.fail e) ->
                  completion (AuthorizationMiddleware_requirePermission UserId_fromString
                                this (inl permissionCode) req)
                  = Returns (req, next (Some e))))
  /\ (exactlyTwoTokens permissionCode = true ->
      exists resource action,
        Js.split Js.colon permissionCode = [resource; action]
        /\ firstTwoTokens Js.colon permissionCode = Some (resource, action)).
Proof.
  intros Hid Hparse Hup.
  rewrite (requirePermission_authenticated UserId_fromString this (inl permissionCode)
             req userId Hid Hparse).
  rewrite bind_next, checkEach_single.
  split; [| split; [apply firstTwoTokens_none | split; [| split]]].
  - destruct (firstTwoTokens Js.colon permissionCode) as [[resource action] |].
    + split; [| discriminate]. intros [e [Hrun Hformat]]. exfalso.
      destruct (CheckPermissionUseCase_execute (checkPermissionUseCase this)
                  userId resource action) as [[answer | msg] tr] eqn:Ex;
        [| discriminate].
      rewrite bind_returns in Hrun. cbn [completion fst] in Hrun.
      pose proof (execute_failure_origin (checkPermissionUseCase this) userId
                    resource action answer) as Horigin.
      rewrite Ex in Horigin. cbn [completion fst] in Horigin.
      destruct answer as [[] sv ev]; cbn in Hrun.
      * destruct sv as [[] |]; cbn in Hrun; try discriminate.
        injection Hrun as <-. discriminate.
      * destruct ev as [e' |]; cbn in Hrun; [| discriminate].
        injection Hrun as <-.
        rewrite (Horigin e' Hup eq_refl eq_refl eq_refl) in Hformat. discriminate.
    + split; [reflexivity |]. intros _.
      exists (invalidPermissionFormat permissionCode). split; reflexivity.
  - intros Hnone. rewrite Hnone. split; reflexivity.
  - intros resource action Hsome. rewrite Hsome.
    destruct (CheckPermissionUseCase_execute (checkPermissionUseCase this)
                userId resource action) as [[answer | msg] tr].
    + exists (Returns answer). rewrite bind_returns.
      cbn [completion trace fst snd]. unfold passes. cbn [completion fst].
      destruct answer as [[] sv ev]; cbn.
      * destruct sv as [[] |]; cbn; rewrite ?app_nil_r;
          (split; [reflexivity | split; [| split]]); intros; try discriminate;
          reflexivity.
      * destruct ev as [e' |]; cbn; rewrite ?app_nil_r;
          (split; [reflexivity | split; [| split]]); intros; try discriminate.
        match goal with H : Returns _ = Returns _ |- _ => inversion H end.
        reflexivity.
    + exists (Throws msg). cbn.
      split; [reflexivity | split; [| split]]; intros; discriminate.
  - intros Hexact. unfold exactlyTwoTokens in Hexact. unfold firstTwoTokens.
    destruct (Js.split Js.colon permissionCode) as [| r [| a [| x more]]];
      try discriminate.
    exists r, a. split; [reflexivity |].
    destruct r; [discriminate |]. destruct a; [| reflexivity].
    cbn in Hexact. discriminate.
Qed.

Lemma Seed_noFormatErrorUpstream : noFormatErrorUpstream Seed.checkPermission.
Proof.
  unfold noFormatErrorUpstream. split; [| split].
  - intros id e H.
    cbn [Seed.checkPermission userRepository Seed.users UserRepositoryImpl user_findById] in H.
    unfold UserRepositoryImpl_findById, UserRepositoryImpl_findById_try in H.
    destruct (PrismaClient.user_findFirst Seed.prisma (UserId.getValue id))
      as [[r |] | msg].
    + unfold Seed.Email_create, Seed.RoleId_fromString in H.
      destruct (String.eqb (UserRecord.email r) ""); cbn in H.
      * injection H as <-. reflexivity.
      * destruct (String.eqb (UserRecord.roleId r) ""); cbn in H.
        -- injection H as <-. reflexivity.
        -- discriminate.
    + discriminate.
    + cbn in H. injection H as <-. reflexivity.
  - intros id e H. discriminate.
  - intros ids e H. discriminate.
Qed.

Lemma C3_invalid_format_witness :
  Js.falsy (Request.userId (Seed.authenticated "u-admin")) = false
  /\ Seed.UserId_fromString "u-admin" = Result.ok (UserId.make "u-admin")
  /\ noFormatErrorUpstream Seed.checkPermission
  /\ firstTwoTokens Js.colon "users" = None
  /\ AuthorizationMiddleware_requirePermission Seed.UserId_fromString Seed.authz
       (inl "users") (Seed.authenticated "u-admin")
     = (Returns (Seed.authenticated "u-admin", next (Some (invalidPermissionFormat "users"))),
        []).
Proof.
  split; [reflexivity | split; [reflexivity | split; [exact Seed_noFormatErrorUpstream |]]].
  split; [reflexivity |].
  exact (proj1 (proj1 (proj2 (proj2
           (C3_invalid_format Seed.UserId_fromString Seed.authz
              (Seed.authenticated "u-admin") (UserId.make "u-admin") "users"
              eq_refl eq_refl Seed_noFormatErrorUpstream)))
           eq_refl)).
Defined.

(** ** The route stack *)

Lemma traceAll_ret {A : Type} (P : Event -> bool) (a : A) : traceAll P (ret a).
Proof. reflexivity. Qed.

Lemma traceAll_defined {A : Type} (P : Event -> bool) (c : Completion (option A)) :
  traceAll P (defined c).
Proof. destruct c as [[a |] | msg]; reflexivity. Qed.

Lemma traceAll_call {A : Type} (P : Event -> bool) (ev : Event) (a : A) :
  P ev = true -> traceAll P (call ev a).
Proof. intros H. unfold traceAll. cbn. now rewrite H. Qed.

Lemma traceAll_bind {A B : Type} (P : Event -> bool) (m : M A) (k : A -> M B) :
  traceAll P m -> (forall a, traceAll P (k a)) -> traceAll P (bind m k).
Proof.
  unfold traceAll. intros Hm Hk. destruct m as [[a | msg] tr]; [| exact Hm].
  rewrite bind_returns. cbn [trace snd] in *. rewrite forallb_app, Hm. apply Hk.
Qed.

Lemma traceAll_not_in {A : Type} (P : Event -> bool) (m : M A) (ev : Event) :
  traceAll P m -> P ev = false -> ~ In ev (trace m).
Proof.
  unfold traceAll. intros H Hev Hin. rewrite forallb_forall in H.
  rewrite (H ev Hin) in Hev. discriminate.
Qed.

(** Goes through a computation built from [bind], [call], [defined] and
    [ret], splitting on the tests it makes. *)
Ltac trace_walk :=
  repeat first
    [ apply traceAll_ret
    | apply traceAll_defined
    | apply traceAll_call; reflexivity
    | apply traceAll_bind; [| intros ?]
    | match goal with
      | |- traceAll _ (if ?b then _ else _) => destruct b
      | |- traceAll _ (match ?x with _ => _ end) => destruct x
      end
    | progress cbv zeta ].

Lemma execute_only_reads (this : CheckPermissionUseCase) (userId : UserId.t)
  (resource action : string) :
  traceAll isRead (CheckPermissionUseCase_execute this userId resource action).
Proof. unfold CheckPermissionUseCase_execute. trace_walk. Qed.

Lemma getActive_only_reads (this : GetActiveUserByIdUseCase) (userId : UserId.t) :
  traceAll isAuthenticationEvent (GetActiveUserByIdUseCase_execute this userId).
Proof. unfold GetActiveUserByIdUseCase_execute. trace_walk. Qed.

Lemma handle_only_authentication_events
  (UserId_fromString : string -> Result.t UserId.t Error)
  (this : AuthenticationMiddleware) (req : Request.t) :
  traceAll isAuthenticationEvent (AuthenticationMiddleware_handle UserId_fromString this req).
Proof.
  unfold AuthenticationMiddleware_handle.
  trace_walk.
Qed.

Lemma checkEach_only_reads (this : AuthorizationMiddleware) (req : Request.t)
  (userIdResult : Result.t UserId.t Error) (permissions : list string) :
  traceAll isRead (checkEach this req userIdResult permissions).
Proof.
  induction permissions as [| code rest IH]; [reflexivity |].
  rewrite checkEach_cons. apply traceAll_bind.
  - cbn [checkEach]. trace_walk.
  - intros [e |]; [reflexivity | exact IH].
Qed.

Lemma requirePermission_only_reads
  (UserId_fromString : string -> Result.t UserId.t Error)
  (this : AuthorizationMiddleware) (permission : string + list string)
  (req : Request.t) :
  traceAll isRead (AuthorizationMiddleware_requirePermission UserId_fromString this
                     permission req).
Proof.
  unfold AuthorizationMiddleware_requirePermission.
  trace_walk. apply checkEach_only_reads.
Qed.

(** [requirePermission] hands on the request it was given. *)
Lemma requirePermission_same_request
  (UserId_fromString : string -> Result.t UserId.t Error)
  (this : AuthorizationMiddleware) (permission : string + list string)
  (req req' : Request.t) (s : Signal) :
  completion (AuthorizationMiddleware_requirePermission UserId_fromString this
                permission req) = Returns (req', s) ->
  req' = req.
Proof.
  unfold AuthorizationMiddleware_requirePermission. cbv zeta.
  destruct (Js.falsy (Request.userId req)); [cbn; congruence |].
  destruct (negb (Result.isSuccess _)); [cbn; congruence |].
  rewrite bind_next. cbn [completion fst].
  destruct (completion (checkEach _ _ _ _)); [congruence | discriminate].
Qed.

Lemma dispatch_cons (h : Handler) (rest : list Handler) (req : Request.t) :
  dispatch (h :: rest) req
  = if continues (completion (h req)) then
      match completion (h req) with
      | Returns (req1, _) =>
          (completion (dispatch rest req1), trace (h req) ++ trace (dispatch rest req1))
      | Throws _ => h req
      end
    else h req.
Proof.
  cbn [dispatch]. destruct (h req) as [[[req1 s] | msg] tr]; [| reflexivity].
  rewrite bind_returns. cbn [completion trace fst snd continues].
  destruct s as [[e |] | status]; cbn; now rewrite ?app_nil_r.
Qed.

Lemma dispatch_invoke (controller : Request.t -> Signal) (req : Request.t) :
  dispatch [invoke controller] req = (Returns (req, controller req), [CallHandler]).
Proof.
  cbn. destruct (controller req) as [[e |] | status]; reflexivity.
Qed.

Lemma passes_continues (req : Request.t) (m : M (Request.t * Signal)) :
  passes req m -> continues (completion m) = true.
Proof. unfold passes. intros ->. reflexivity. Qed.

(** The [requirePermission] handlers of a route, run in the order of their
    declaration: either each of them passes, or the stack ends as the first
    one that does not pass ends, after the reads of those before it and its
    own. *)
Lemma authorization_stack
  (UserId_fromString : string -> Result.t UserId.t Error)
  (authz : AuthorizationMiddleware) (declared : list (string + list string))
  (req : Request.t) :
  if continues
       (completion
          (dispatch (map (AuthorizationMiddleware_requirePermission UserId_fromString authz)
                         declared) req))
  then
    completion
      (dispatch (map (AuthorizationMiddleware_requirePermission UserId_fromString authz)
                     declared) req)
    = Returns (req, next None)
    /\ Forall (fun p =>
                 passes req (AuthorizationMiddleware_requirePermission
                               UserId_fromString authz p req))
              declared
    /\ trace
         (dispatch (map (AuthorizationMiddleware_requirePermission UserId_fromString authz)
                        declared) req)
       = flat_map (fun p =>
                     trace (AuthorizationMiddleware_requirePermission
                              UserId_fromString authz p req))
                  declared
  else
    exists before p after,
      declared = before ++ p :: after
      /\ Forall (fun q =>
                   passes req (AuthorizationMiddleware_requirePermission
                                 UserId_fromString authz q req))
                before
      /\ continues (completion (AuthorizationMiddleware_requirePermission
                                  UserId_fromString authz p req)) = false
      /\ dispatch (map (AuthorizationMiddleware_requirePermission UserId_fromString authz)
                       declared) req
         = (completion (AuthorizationMiddleware_requirePermission
                          UserId_fromString authz p req),
            flat_map (fun q =>
                        trace (AuthorizationMiddleware_requirePermission
                                 UserId_fromString authz q req))
                     before
            ++ trace (AuthorizationMiddleware_requirePermission
                        UserId_fromString authz p req)).
Proof.
  induction declared as [| d rest IH].
  - cbn. repeat split. constructor.
  - cbn [map]. rewrite dispatch_cons.
    destruct (continues (completion (AuthorizationMiddleware_requirePermission
                                       UserId_fromString authz d req))) eqn:Ed.
    + destruct (completion (AuthorizationMiddleware_requirePermission
                              UserId_fromString authz d req))
        as [[req1 s] | msg] eqn:Ec; [| discriminate].
      assert (req1 = req) as -> by
        (eapply requirePermission_same_request; exact Ec).
      assert (Hd : passes req (AuthorizationMiddleware_requirePermission
                                 UserId_fromString authz d req)).
      { unfold passes. rewrite Ec. destruct s as [[e |] | status]; try discriminate.
        reflexivity. }
      cbn [completion trace fst snd].
      destruct (continues
                  (completion
                     (dispatch
                        (map (AuthorizationMiddleware_requirePermission
                                UserId_fromString authz) rest) req))).
      * destruct IH as [Hc [Hall Htr]]. split; [exact Hc | split].
        -- constructor; assumption.
        -- cbn [flat_map]. now rewrite Htr.
      * destruct IH as [before [p [after [Hsplit [Hbefore [Hp Hrun]]]]]].
        exists (d :: before), p, after. split; [now rewrite Hsplit | split; [| split]].
        -- constructor; assumption.
        -- exact Hp.
        -- rewrite Hrun. cbn [completion trace fst snd flat_map].
           now rewrite app_assoc.
    + rewrite Ed. exists [], d, rest. cbn [app flat_map].
      split; [reflexivity | split; [constructor | split; [exact Ed |]]].
      destruct (AuthorizationMiddleware_requirePermission UserId_fromString authz d req).
      reflexivity.
Qed.

Lemma authorization_stack_only_reads
  (UserId_fromString : string -> Result.t UserId.t Error)
  (authz : AuthorizationMiddleware) (declared : list (string + list string))
  (req : Request.t) :
  traceAll isRead
    (dispatch (map (AuthorizationMiddleware_requirePermission UserId_fromString authz)
                   declared) req).
Proof.
  induction declared as [| d rest IH]; [reflexivity |].
  cbn [map]. rewrite dispatch_cons.
  pose proof (requirePermission_only_reads UserId_fromString authz d req) as Hd.
  destruct (continues _) eqn:Ed; [| exact Hd].
  destruct (completion (AuthorizationMiddleware_requirePermission
                          UserId_fromString authz d req))
    as [[req1 s] | msg] eqn:Ec; [| exact Hd].
  assert (req1 = req) as -> by (eapply requirePermission_same_request; exact Ec).
  unfold traceAll in *. cbn [trace snd]. now rewrite forallb_app, Hd, IH.
Qed.

Lemma dispatch_app (stack1 stack2 : list Handler) (req : Request.t) :
  dispatch (stack1 ++ stack2) req
  = if continues (completion (dispatch stack1 req)) then
      match completion (dispatch stack1 req) with
      | Returns (req1, _) =>
          (completion (dispatch stack2 req1),
           trace (dispatch stack1 req) ++ trace (dispatch stack2 req1))
      | Throws _ => dispatch stack1 req
      end
    else dispatch stack1 req.
Proof.
  revert req. induction stack1 as [| h rest IH]; intros req.
  - cbn. now destruct (dispatch stack2 req).
  - cbn [app]. rewrite !dispatch_cons.
    destruct (continues (completion (h req))) eqn:Eh; [| now rewrite Eh].
    destruct (completion (h req)) as [[req1 s] | msg]; [| discriminate].
    rewrite IH. cbn [completion trace fst snd].
    destruct (dispatch rest req1) as [[[req2 s2] | msg2] tr2];
      cbn [completion trace fst snd].
    + destruct (continues (Returns (req2, s2))); [| reflexivity].
      cbn [completion trace fst snd]. now rewrite app_assoc.
    + reflexivity.
Qed.

(** C9. On a protected route the authentication handler runs first.  When
    it does not end with [next()], the route ends as it ends, with the
    events of authentication only: no role or permission is read and the
    controller method is not invoked.  When it ends with [next()], the
    [requirePermission] handlers run on the request it passes on, in the
    order of their declaration; if one of them does not pass, the route
    ends as the first such handler ends, after the reads of the handlers
    declared before it and its own, and the controller method is not
    invoked; if all of them pass, the controller method is invoked, once
    and last.  So the controller method is invoked exactly when
    authentication ended with [next()] and every declared requirement
    passes, and in every other case the route ends with the one outcome of
    the handler that stopped it. *)
Theorem C9_pipeline_order
  (UserId_fromString : string -> Result.t UserId.t Error)
  (authn : AuthenticationMiddleware) (authz : AuthorizationMiddleware)
  (declared : list (string + list string)) (controller : Request.t -> Signal)
  (req : Request.t) :
  let requirePermission := AuthorizationMiddleware_requirePermission UserId_fromString authz in
  let route := protectedRoute UserId_fromString authn authz declared controller in
  let authentication := AuthenticationMiddleware_handle UserId_fromString authn req in
  (if continues (completion authentication) then
     match completion authentication with
     | Returns (req1, _) =>
         let authorization := dispatch (map requirePermission declared) req1 in
         if continues (completion authorization) then
           Forall (fun p => passes req1 (requirePermission p req1)) declared
           /\ dispatch route req
              = (Returns (req1, controller req1),
                 trace authentication
                 ++ flat_map (fun p => trace (requirePermission p req1)) declared
                 ++ [CallHandler])
         else
           (exists before p after,
               declared = before ++ p :: after
               /\ Forall (fun q => passes req1 (requirePermission q req1)) before
               /\ continues (completion (requirePermission p req1)) = false
               /\ dispatch route req
                  = (completion (requirePermission p req1),
                     trace authentication
                     ++ flat_map (fun q => trace (requirePermission q req1)) before
                     ++ trace (requirePermission p req1)))
           /\ ~ In CallHandler (trace (dispatch route req))
     | Throws _ => False
     end
   else
     dispatch route req = authentication
     /\ traceAll isAuthenticationEvent (dispatch route req)
     /\ ~ In CallHandler (trace (dispatch route req)))
  /\ (In CallHandler (trace (dispatch route req)) <->
      exists req1,
        completion authentication = Returns (req1, next None)
        /\ Forall (fun p => passes req1 (requirePermission p req1)) declared).
Proof.
  intros requirePermission route authentication.
  pose proof (handle_only_authentication_events UserId_fromString authn req) as Hauthn.
  fold authentication in Hauthn.
  assert (Hroute : dispatch route req
                   = if continues (completion authentication) then
                       match completion authentication with
                       | Returns (req1, _) =>
                           (completion
                              (dispatch (map requirePermission declared
                                         ++ [invoke controller]) req1),
                            trace authentication
                            ++ trace (dispatch (map requirePermission declared
                                                ++ [invoke controller]) req1))
                       | Throws _ => authentication
                       end
                     else authentication).
  { unfold route, protectedRoute. now rewrite dispatch_cons. }
  assert (Hno : forall ev, isAuthenticationEvent ev = false ->
                           ~ In ev (trace authentication)).
  { intros ev Hev. eapply traceAll_not_in; eassumption. }
  destruct (continues (completion authentication)) eqn:Eauthn.
  - destruct (completion authentication) as [[req1 s] | msg] eqn:Ec; [| discriminate].
    assert (s = next None) as ->.
    { destruct s as [[e |] | status]; try discriminate. reflexivity. }
    pose proof (authorization_stack UserId_fromString authz declared req1) as Hz.
    pose proof (authorization_stack_only_reads UserId_fromString authz declared req1)
      as Hreads.
    fold requirePermission in Hz, Hreads.
    rewrite dispatch_app in Hroute.
    cbv zeta.
    destruct (continues (completion (dispatch (map requirePermission declared) req1)))
      eqn:Ez.
    + destruct Hz as [Hc [Hall Htr]].
      rewrite Hc, Htr, dispatch_invoke in Hroute. cbn [completion trace fst snd] in Hroute.
      split; [split; [exact Hall | exact Hroute] |].
      rewrite Hroute. cbn [trace snd]. split.
      * intros _. exists req1. split; [reflexivity | exact Hall].
      * intros _. rewrite !in_app_iff. right. right. now left.
    + destruct Hz as [before [p [after [Hsplit [Hbefore [Hp Hrun]]]]]].
      rewrite Hrun in Hroute. cbn [completion trace fst snd] in Hroute.
      assert (Hnot : ~ In CallHandler (trace (dispatch route req))).
      { rewrite Hroute. cbn [trace snd]. rewrite in_app_iff. intros [Hin | Hin].
        - now apply (Hno CallHandler).
        - rewrite Hrun in Hreads.
          apply (traceAll_not_in isRead _ CallHandler Hreads eq_refl).
          exact Hin. }
      split; [split; [| exact Hnot] |].
      * exists before, p, after. repeat split; assumption.
      * split; [intros Hin; contradiction |].
        intros [req1' [Heq Hall]]. injection Heq as <-.
        rewrite Hsplit in Hall. apply Forall_app in Hall. destruct Hall as [_ Hall].
        inversion Hall as [| ? ? Hpass _]; subst.
        apply passes_continues in Hpass. congruence.
  - assert (Hnot : ~ In CallHandler (trace (dispatch route req))).
    { rewrite Hroute. now apply (Hno CallHandler). }
    split; [split; [exact Hroute | split; [now rewrite Hroute | exact Hnot]] |].
    split; [intros Hin; contradiction |].
    intros [req1 [Heq _]]. rewrite Heq in Eauthn. discriminate.
Qed.

(** The routes of [PermissionsRoutes] on the seed data: the administrator
    reaches the controller; a user whose role lacks [permissions:read] is
    stopped by the authorization handler; a request without a header is
    stopped by the authentication handler. *)
Example permissions_route_admin :
  dispatch (PermissionsRoutes_route Seed.UserId_fromString Seed.authn Seed.authz
              Seed.controller) (Seed.bearer "abc")
  = (Returns (Request.make (Some "Bearer abc") (Some "u-admin"), responded 200),
     [CallJwtVerify "abc"; CallUserFindById (UserId.make "u-admin");
      CallUserFindById (UserId.make "u-admin"); CallRoleFindById (RoleId.make "r-admin");
      CallPermissionFindByIds [PermissionId.make "p-all"];
      CallHandler]).
Proof. reflexivity. Qed.

Example permissions_route_user :
  dispatch (PermissionsRoutes_route Seed.UserId_fromString Seed.authn Seed.authz
              Seed.controller) (Seed.bearer "t-user")
  = (Returns (Request.make (Some "Bearer t-user") (Some "u-user"),
              next (Some (ForbiddenError "read" "permissions" "Missing required permission"
                            (Some (ErrorContext.make None (Some "u-user") None None
                                     (Some "authorize") None))))),
     [CallJwtVerify "t-user"; CallUserFindById (UserId.make "u-user");
      CallUserFindById (UserId.make "u-user"); CallRoleFindById (RoleId.make "r-user");
      CallPermissionFindByIds [PermissionId.make "p-users-read"]]).
Proof. reflexivity. Qed.

Example permissions_route_anonymous :
  dispatch (PermissionsRoutes_route Seed.UserId_fromString Seed.authn Seed.authz
              Seed.controller) (Request.make None None)
  = (Returns (Request.make None None, next (Some (UnauthorizedError "Token missing" None))),
     []).
Proof. reflexivity. Qed.

(** * Part III: further properties of the code *)

(** ** What the authorization decision rests on *)

(** Takes apart the conjunctions, existentials and result readings among
    the hypotheses. *)
Ltac unpack :=
  repeat match goal with
         | H : _ /\ _ |- _ => destruct H
         | H : exists _, _ |- _ => destruct H
         | H : resolvesTo _ _ |- _ => destruct H
         | H : failsWith _ _ |- _ => destruct H
         end.

(** Replaces the calls whose result is known and draws the consequences. *)
Ltac settle :=
  repeat first
    [ discriminate
    | progress cbn [Result.isSuccess Result._isSuccess Result.successValue
                    Result.errorValue] in *
    | match goal with
      | H : Some _ = Some _ |- _ => inversion H; clear H; subst
      | H : HeaderBearer _ = HeaderBearer _ |- _ => inversion H; clear H; subst
      | E : ?call = Result.new _ _ _, H : context [?call] |- _ =>
          lazymatch type of H with
          | call = Result.new _ _ _ => fail
          | _ => rewrite E in H; cbn in H
          end
      end ].

(** X1.  [CheckPermissionUseCase.execute] answers [ok(true)] exactly when
    the user is found and active, the role of the user is found and lists at
    least one permission id, the lookup of these ids succeeds, and one of the
    permissions it returns grants the resource and action.  It answers
    [ok(false)] exactly when the user is found and either is inactive, or
    has a role that is found and lists no permission id, or none of the
    permissions returned for the ids grants the resource and action. *)
Theorem execute_decision (this : CheckPermissionUseCase) (userId : UserId.t)
  (resource action : string) :
  (completion (CheckPermissionUseCase_execute this userId resource action)
   = Returns (Result.ok true)
   <-> exists u role permissions,
         resolvesTo (user_findById (userRepository this) userId) (Some u)
         /\ User.isActive u = true
         /\ resolvesTo (role_findById (roleRepository this) (User.getRoleId u)) (Some role)
         /\ Role.getPermissionIds role <> []
         /\ resolvesTo (permission_findByIds (permissionRepository this)
                          (Role.getPermissionIds role)) permissions
         /\ exists p, In p permissions /\ Permission.grants p resource action = true)
  /\ (completion (CheckPermissionUseCase_execute this userId resource action)
      = Returns (Result.ok false)
      <-> exists u,
            resolvesTo (user_findById (userRepository this) userId) (Some u)
            /\ (User.isActive u = false
                \/ (User.isActive u = true
                    /\ exists role,
                         resolvesTo (role_findById (roleRepository this)
                                       (User.getRoleId u)) (Some role)
                         /\ (Role.getPermissionIds role = []
                             \/ (Role.getPermissionIds role <> []
                                 /\ exists permissions,
                                      resolvesTo
                                        (permission_findByIds (permissionRepository this)
                                           (Role.getPermissionIds role)) permissions
                                      /\ forall p, In p permissions ->
                                                   Permission.grants p resource action
                                                   = false))))).
Proof.
  unfold CheckPermissionUseCase_execute, Result.value, Result.error.
  rewrite bind_call. cbn [completion fst]. cbv beta iota.
  destruct (user_findById (userRepository this) userId) as [[] usv uev] eqn:Eu;
    cbn [Result.isSuccess Result._isSuccess Result.successValue Result.errorValue negb].
  2:{ destruct uev; cbn; split; (split; [discriminate |]).
      all: intros H; unpack; settle. }
  destruct usv as [[u |] |]; cbn [defined].
  2,3: cbn; split; (split; [discriminate |]); intros H; unpack; settle.
  rewrite bind_ret. cbv beta iota.
  destruct (User.isActive u) eqn:Eact; cbn [negb].
  2:{ cbn. split; split.
      - discriminate.
      - intros H. unpack. settle. congruence.
      - intros _. exists u. split; [split; reflexivity | auto].
      - intros _. reflexivity. }
  rewrite bind_call. cbn [completion fst]. cbv beta iota.
  destruct (role_findById (roleRepository this) (User.getRoleId u)) as [[] rsv rev] eqn:Er;
    cbn [Result.isSuccess Result._isSuccess Result.successValue Result.errorValue negb].
  2:{ destruct rev; cbn; split; (split; [discriminate |]).
      all: intros H; unpack; settle.
      all: match goal with H : _ \/ _ |- _ => destruct H end; unpack; settle;
        congruence. }
  destruct rsv as [[role |] |]; cbn [defined].
  2,3: cbn; split; (split; [discriminate |]); intros H; unpack; settle;
    match goal with H : _ \/ _ |- _ => destruct H end; unpack; settle; congruence.
  rewrite bind_ret. cbv beta iota zeta.
  destruct (Role.getPermissionIds role) as [| i ids] eqn:Eids; cbn [List.length Nat.eqb].
  { cbn. split; split.
    - discriminate.
    - intros H. unpack. settle. congruence.
    - intros _. exists u. split; [split; reflexivity |]. right. split; [exact Eact |].
      exists role. split; [rewrite Er; split; reflexivity |]. left. exact Eids.
    - intros _. reflexivity. }
  rewrite bind_call. cbn [completion fst]. cbv beta iota.
  destruct (permission_findByIds (permissionRepository this) (i :: ids))
    as [[] psv pev] eqn:Ep;
    cbn [Result.isSuccess Result._isSuccess Result.successValue Result.errorValue negb].
  2:{ destruct pev; cbn; split; (split; [discriminate |]).
      all: intros H; unpack; settle.
      all: try (match goal with H : _ \/ _ |- _ => destruct H end; unpack; settle).
      all: try congruence.
      all: try (match goal with H : _ \/ _ |- _ => destruct H end; unpack; settle).
      all: try congruence.
      all: rewrite Eids in *; settle. }
  destruct psv as [ps |]; cbn [defined].
  2:{ cbn. split; (split; [discriminate |]).
      all: intros H; unpack; settle.
      all: try (match goal with H : _ \/ _ |- _ => destruct H end; unpack; settle).
      all: try congruence.
      all: try (match goal with H : _ \/ _ |- _ => destruct H end; unpack; settle).
      all: try congruence.
      all: rewrite Eids in *; settle. }
  rewrite bind_ret. cbv beta iota zeta. cbn [ret completion fst].
  assert (Hshape : forall b : bool,
             Returns (Result.ok (TError := Error)
                        (existsb (fun p => Permission.grants p resource action) ps))
             = Returns (Result.ok b)
             <-> existsb (fun p => Permission.grants p resource action) ps = b).
  { intros b. split; [| intros ->; reflexivity].
    intros H. injection H as H. exact H. }
  split; rewrite Hshape.
  - rewrite existsb_exists. split.
    + intros [p [Hin Hp]]. exists u, role, ps. rewrite Er, Eids, Ep.
      repeat split; try discriminate; eauto.
    + intros H. unpack. settle. rewrite Eids in *. settle. eauto.
  - split.
    + intros Hnone. exists u. split; [split; reflexivity |]. right. split; [exact Eact |].
      exists role. split; [rewrite Er; split; reflexivity |].
      right. split; [rewrite Eids; discriminate |].
      exists ps. rewrite Eids, Ep. split; [split; reflexivity |].
      intros p Hin.
      destruct (Permission.grants p resource action) eqn:Eg; [| reflexivity].
      assert (existsb (fun p => Permission.grants p resource action) ps = true)
        by (apply existsb_exists; eauto).
      congruence.
    + intros H. unpack. settle.
      match goal with H : _ \/ _ |- _ => destruct H end; [congruence |].
      unpack. settle.
      match goal with H : _ \/ _ |- _ => destruct H end; [congruence |].
      unpack. rewrite Eids in *. settle.
      match goal with |- ?b = false => destruct b eqn:Ex end; [| reflexivity].
      apply existsb_exists in Ex. destruct Ex as [p [Hin Hp]].
      match goal with
      | H : forall p, In p _ -> _ = false |- _ => rewrite (H p Hin) in Hp
      end.
      discriminate.
Qed.

(** ** What a successful authentication rests on *)

Lemma handle_passes_iff
  (UserId_fromString : string -> Result.t UserId.t Error)
  (this : AuthenticationMiddleware) (req req' : Request.t) :
  completion (AuthenticationMiddleware_handle UserId_fromString this req)
  = Returns (req', next None)
  <-> exists token payload userId u,
        headerShape (Request.authorization req) = HeaderBearer token
        /\ resolvesTo (jwt_verify (jwtService this) token) payload
        /\ resolvesTo (UserId_fromString (AccessTokenPayload.userId payload)) userId
        /\ resolvesTo (user_findById
                         (getActive_userRepository (getActiveUserByIdUseCase this))
                         userId) (Some u)
        /\ User.canAuthenticate u = true
        /\ req' = Request.set_userId req (UserId.getValue (User.id u)).
Proof.
  unfold AuthenticationMiddleware_handle, GetActiveUserByIdUseCase_execute,
    headerShape, Result.value, Result.error.
  destruct (Request.authorization req) as [[| c h] |]; cbn [Js.falsy].
  1,3: cbn; split; [discriminate | intros H; unpack; discriminate].
  destruct (Js.split Js.space (String c h)) as [| scheme [| [| c2 tk] more]];
    cbn [Js.destructure2 nth_error fst snd Js.strictNe Js.falsy].
  1,2,3: rewrite ?orb_true_r; cbn; split;
    [discriminate | intros H; unpack; discriminate].
  destruct (String.eqb scheme "Bearer"); cbn [negb orb].
  2: cbn; split; [discriminate | intros H; unpack; discriminate].
  rewrite bind_call. cbn [completion fst]. cbv beta iota zeta.
  destruct (jwt_verify (jwtService this) (String c2 tk)) as [[] tsv tev] eqn:Et;
    cbn [Result.isSuccess Result._isSuccess Result.successValue Result.errorValue negb].
  2:{ destruct tev; cbn; split; try discriminate.
      all: intros H; unpack; settle. }
  destruct tsv as [payload |]; cbn [defined].
  2:{ cbn; split; [discriminate |]. intros H; unpack; settle. }
  rewrite bind_ret. cbv beta iota zeta.
  destruct (UserId_fromString (AccessTokenPayload.userId payload)) as [[] isv iev] eqn:Ei;
    cbn [Result.isSuccess Result._isSuccess Result.successValue Result.errorValue negb].
  2:{ cbn; split; [discriminate |]. intros H; unpack; settle. }
  destruct isv as [userId |]; cbn [defined].
  2:{ cbn; split; [discriminate |]. intros H; unpack; settle. }
  rewrite bind_ret. cbv beta iota zeta.
  rewrite bind_assoc, bind_call. cbn [completion fst]. cbv beta iota zeta.
  destruct (user_findById (getActive_userRepository (getActiveUserByIdUseCase this)) userId)
    as [[] usv uev] eqn:Eu;
    cbn [Result.isSuccess Result._isSuccess Result.successValue Result.errorValue negb].
  2:{ destruct uev; cbn; split; try discriminate.
      all: intros H; unpack; settle. }
  destruct usv as [[u |] |]; cbn [defined].
  2,3: cbn; split; [discriminate |]; intros H; unpack; settle.
  rewrite bind_assoc, bind_ret. cbv beta iota zeta.
  destruct (User.canAuthenticate u) eqn:Ecan; cbn.
  - split.
    + intros H. injection H as <-.
      exists (String c2 tk), payload, userId, u.
      rewrite Et, Ei, Eu. repeat split; assumption.
    + intros H. unpack. settle. reflexivity.
  - split; [discriminate |]. intros H. unpack. settle. congruence.
Qed.

(** X2.  The handler ends with [next()] exactly when the header has the bearer
    shape, the token service accepts the token, the identity in its payload
    parses, and the repository finds a user for it who can authenticate.
    The request passed on then has the same header and carries as [userId]
    the id of the user that was found; in no other case does the handler
    end with [next()]. *)
Theorem authentication_success
  (UserId_fromString : string -> Result.t UserId.t Error)
  (this : AuthenticationMiddleware) (req req' : Request.t) :
  completion (AuthenticationMiddleware_handle UserId_fromString this req)
  = Returns (req', next None)
  <-> exists token payload userId u,
        headerShape (Request.authorization req) = HeaderBearer token
        /\ resolvesTo (jwt_verify (jwtService this) token) payload
        /\ resolvesTo (UserId_fromString (AccessTokenPayload.userId payload)) userId
        /\ resolvesTo (user_findById
                         (getActive_userRepository (getActiveUserByIdUseCase this))
                         userId) (Some u)
        /\ User.canAuthenticate u = true
        /\ Request.authorization req' = Request.authorization req
        /\ Request.userId req' = Some (UserId.getValue (User.id u)).
Proof.
  rewrite handle_passes_iff. split.
  - intros [token [payload [userId [u [Hh [Hj [Hi [Hu [Hcan ->]]]]]]]]].
    exists token, payload, userId, u. repeat (split; [assumption |]).
    split; reflexivity.
  - intros [token [payload [userId [u [Hh [Hj [Hi [Hu [Hcan [Hauth Hid]]]]]]]]]].
    exists token, payload, userId, u. repeat (split; [assumption |]).
    destruct req' as [a i]. cbn in Hauth, Hid. subst. reflexivity.
Qed.

(** ** Which errors the authorization handler can raise *)

(** Every result of the use case was made by [Result.ok] or [Result.fail],
    and a failure carries a [NotFoundError] for the user or the role, or the
    error of one of the repositories. *)
Lemma execute_answer (this : CheckPermissionUseCase) (userId : UserId.t)
  (resource action : string) (answer : Result.t bool Error) :
  completion (CheckPermissionUseCase_execute this userId resource action)
  = Returns answer ->
  (exists granted, answer = Result.ok granted)
  \/ (exists e,
         answer = Result.fail e
         /\ ((exists entityType entityId context,
                 e = NotFoundError entityType entityId context
                 /\ (entityType = "User" \/ entityType = "Role"))
             \/ fromRepository this e)).
Proof.
  unfold CheckPermissionUseCase_execute, Result.value, Result.error, fromRepository,
    failsWith.
  rewrite bind_call. cbn [completion fst]. cbv beta iota.
  destruct (user_findById (userRepository this) userId) as [[] usv uev] eqn:Eu;
    cbn [Result.isSuccess Result._isSuccess Result.successValue Result.errorValue negb].
  2:{ destruct uev as [e |]; cbn; [| discriminate].
      intros H. injection H as <-. right. exists e. split; [reflexivity |].
      right. left. exists userId. now rewrite Eu. }
  destruct usv as [[u |] |]; cbn [defined]; [| | discriminate].
  2:{ cbn. intros H. injection H as <-. right. eexists. split; [reflexivity |].
      left. eauto 6. }
  rewrite bind_ret. cbv beta iota.
  destruct (User.isActive u); cbn [negb].
  2:{ cbn. intros H. injection H as <-. left. eauto. }
  rewrite bind_call. cbn [completion fst]. cbv beta iota.
  destruct (role_findById (roleRepository this) (User.getRoleId u)) as [[] rsv rev] eqn:Er;
    cbn [Result.isSuccess Result._isSuccess Result.successValue Result.errorValue negb].
  2:{ destruct rev as [e |]; cbn; [| discriminate].
      intros H. injection H as <-. right. exists e. split; [reflexivity |].
      right. right. left. exists (User.getRoleId u). now rewrite Er. }
  destruct rsv as [[role |] |]; cbn [defined]; [| | discriminate].
  2:{ cbn. intros H. injection H as <-. right. eexists. split; [reflexivity |].
      left. eauto 6. }
  rewrite bind_ret. cbv beta iota zeta.
  destruct (Role.getPermissionIds role) as [| i ids]; cbn [List.length Nat.eqb].
  { cbn. intros H. injection H as <-. left. eauto. }
  rewrite bind_call. cbn [completion fst]. cbv beta iota.
  destruct (permission_findByIds (permissionRepository this) (i :: ids))
    as [[] psv pev] eqn:Ep;
    cbn [Result.isSuccess Result._isSuccess Result.successValue Result.errorValue negb].
  2:{ destruct pev as [e |]; cbn; [| discriminate].
      intros H. injection H as <-. right. exists e. split; [reflexivity |].
      right. right. right. exists (i :: ids). now rewrite Ep. }
  destruct psv as [ps |]; cbn [defined]; [| discriminate].
  cbn. intros H. injection H as <-. left. eauto.
Qed.

(** How one turn of the loop ends, whatever the identity result is. *)
Lemma checkEach_one (this : AuthorizationMiddleware) (req : Request.t)
  (userIdResult : Result.t UserId.t Error) (code : string) (outcome : option Error) :
  completion (checkEach this req userIdResult [code]) = Returns outcome ->
  match outcome with
  | None =>
      exists resource action userId,
        firstTwoTokens Js.colon code = Some (resource, action)
        /\ resolvesTo userIdResult userId
        /\ completion (CheckPermissionUseCase_execute (checkPermissionUseCase this)
                         userId resource action)
           = Returns (Result.ok true)
  | Some e =>
      e = invalidPermissionFormat code
      \/ (exists resource action,
             firstTwoTokens Js.colon code = Some (resource, action)
             /\ e = ForbiddenError action resource "Missing required permission"
                      (Some (ErrorContext.make None (Request.userId req) None None
                               (Some "authorize") None)))
      \/ (exists entityType entityId context,
             e = NotFoundError entityType entityId context
             /\ (entityType = "User" \/ entityType = "Role"))
      \/ fromRepository (checkPermissionUseCase this) e
  end.
Proof.
  cbn [checkEach]. cbv zeta.
  pose proof (permission_guard code) as G.
  destruct (firstTwoTokens Js.colon code) as [[resource action] |].
  2:{ rewrite G. cbn. intros H. injection H as <-. now left. }
  destruct G as [Hparts Hguard]. rewrite Hparts. cbn [fst snd]. rewrite Hguard.
  unfold Result.value at 1. unfold resolvesTo, Result.isSuccess.
  destruct userIdResult as [[] isv iev]; cbn [Result._isSuccess Result.successValue negb];
    [| discriminate].
  destruct isv as [userId |]; cbn [defined]; [| discriminate].
  rewrite bind_ret.
  pose proof (execute_answer (checkPermissionUseCase this) userId resource action) as Hans.
  destruct (CheckPermissionUseCase_execute (checkPermissionUseCase this)
              userId resource action) as [[answer | msg] tr] eqn:Ex; [| discriminate].
  specialize (Hans answer eq_refl).
  rewrite bind_returns. cbn [completion fst].
  unfold Result.value, Result.error.
  destruct Hans as [[granted ->] | [e [-> Horigin]]];
    cbn [Result.ok Result.fail Result.isSuccess Result._isSuccess Result.successValue
         Result.errorValue negb defined];
    rewrite bind_ret.
  - destruct granted; cbn [negb ret fst]; intros H; injection H as <-.
    + exists resource, action, userId. rewrite Ex. repeat split.
    + right. left. eauto.
  - cbn [ret fst]. intros H. injection H as <-. right. right. exact Horigin.
Qed.

Lemma checkEach_errors (this : AuthorizationMiddleware) (req : Request.t)
  (userIdResult : Result.t UserId.t Error) (codes : list string) (e : Error) :
  completion (checkEach this req userIdResult codes) = Returns (Some e) ->
  (exists code, In code codes /\ e = invalidPermissionFormat code)
  \/ (exists code resource action,
         In code codes
         /\ firstTwoTokens Js.colon code = Some (resource, action)
         /\ e = ForbiddenError action resource "Missing required permission"
                  (Some (ErrorContext.make None (Request.userId req) None None
                           (Some "authorize") None)))
  \/ (exists entityType entityId context,
         e = NotFoundError entityType entityId context
         /\ (entityType = "User" \/ entityType = "Role"))
  \/ fromRepository (checkPermissionUseCase this) e.
Proof.
  induction codes as [| code rest IH]; [discriminate |].
  rewrite checkEach_cons.
  pose proof (checkEach_one this req userIdResult code) as Hone.
  destruct (checkEach this req userIdResult [code]) as [[[e' |] | msg] tr];
    [| | discriminate].
  - specialize (Hone (Some e') eq_refl). cbn. intros H. injection H as <-.
    destruct Hone as [-> | [[resource [action [Hparse ->]]] | [Hnf | Hrepo]]].
    + left. exists code. split; [now left | reflexivity].
    + right. left. exists code, resource, action. repeat split; trivial. now left.
    + right. right. left. exact Hnf.
    + right. right. right. exact Hrepo.
  - rewrite bind_returns. cbn [completion fst]. intros H.
    destruct (IH H) as [[c [Hin ->]] | [[c [r [a [Hin [Hp ->]]]]] | [Hnf | Hrepo]]].
    + left. exists c. split; [now right | reflexivity].
    + right. left. exists c, r, a. repeat split; trivial. now right.
    + right. right. left. exact Hnf.
    + right. right. right. exact Hrepo.
Qed.

(** X3.  Whatever the request and the required codes, an error the authorization
    handler passes to [next] is one of: the two [UnauthorizedError]s of a
    request without a usable identity; the malformed-code error of one of
    the codes; the [ForbiddenError] naming the first two tokens of one of
    the codes; a [NotFoundError] for the user or the role; or the error of
    a repository.  The request is passed on unchanged, and unless the error
    is a repository's, the error handler answers with 400, 401, 403 or
    404. *)
Theorem authorization_errors
  (UserId_fromString : string -> Result.t UserId.t Error)
  (this : AuthorizationMiddleware) (permission : string + list string)
  (req req' : Request.t) (e : Error) :
  completion (AuthorizationMiddleware_requirePermission UserId_fromString this
                permission req)
  = Returns (req', next (Some e)) ->
  req' = req
  /\ (e = UnauthorizedError "Token missing" None
      \/ e = UnauthorizedError "Invalid user context" None
      \/ (exists code, In code (codesOf permission) /\ e = invalidPermissionFormat code)
      \/ (exists code resource action,
             In code (codesOf permission)
             /\ firstTwoTokens Js.colon code = Some (resource, action)
             /\ e = ForbiddenError action resource "Missing required permission"
                      (Some (ErrorContext.make None (Request.userId req) None None
                               (Some "authorize") None)))
      \/ (exists entityType entityId context,
             e = NotFoundError entityType entityId context
             /\ (entityType = "User" \/ entityType = "Role"))
      \/ fromRepository (checkPermissionUseCase this) e)
  /\ (fromRepository (checkPermissionUseCase this) e
      \/ In (ErrorHandlerMiddleware_handle e) [400; 401; 403; 404]%Z).
Proof.
  intros Hrun.
  assert (Hreq : req' = req)
    by (eapply requirePermission_same_request; exact Hrun).
  subst req'. split; [reflexivity |].
  assert (Hcases :
    e = UnauthorizedError "Token missing" None
    \/ e = UnauthorizedError "Invalid user context" None
    \/ (exists code, In code (codesOf permission) /\ e = invalidPermissionFormat code)
    \/ (exists code resource action,
           In code (codesOf permission)
           /\ firstTwoTokens Js.colon code = Some (resource, action)
           /\ e = ForbiddenError action resource "Missing required permission"
                    (Some (ErrorContext.make None (Request.userId req) None None
                             (Some "authorize") None)))
    \/ (exists entityType entityId context,
           e = NotFoundError entityType entityId context
           /\ (entityType = "User" \/ entityType = "Role"))
    \/ fromRepository (checkPermissionUseCase this) e).
  { unfold AuthorizationMiddleware_requirePermission in Hrun. cbv zeta in Hrun.
    destruct (Js.falsy (Request.userId req)).
    { cbn in Hrun. injection Hrun as <-. now left. }
    destruct (negb (Result.isSuccess _)).
    { cbn in Hrun. injection Hrun as <-. right. now left. }
    rewrite bind_next in Hrun. cbn [completion fst] in Hrun.
    destruct (completion (checkEach _ _ _ _)) as [[e' |] | msg] eqn:Ec;
      try discriminate.
    injection Hrun as <-. right. right.
    exact (checkEach_errors _ _ _ _ _ Ec). }
  split; [exact Hcases |].
  destruct Hcases as [-> | [-> | [[c [_ ->]] | [[c [r [a [_ [_ ->]]]]] | [Hnf | Hrepo]]]]].
  - right. cbn. auto.
  - right. cbn. auto.
  - right. cbn. auto.
  - right. cbn. auto.
  - destruct Hnf as [t [i [ctx [-> _]]]]. right. cbn. auto.
  - now left.
Qed.

Lemma authorization_errors_witness :
  completion (AuthorizationMiddleware_requirePermission Seed.UserId_fromString Seed.authz
                (inr ["users:read"; "users:delete"]) (Seed.authenticated "u-user"))
  = Returns (Seed.authenticated "u-user",
             next (Some (ForbiddenError "delete" "users" "Missing required permission"
                           (Some (ErrorContext.make None (Some "u-user") None None
                                    (Some "authorize") None)))))
  /\ (fromRepository Seed.checkPermission
        (ForbiddenError "delete" "users" "Missing required permission"
           (Some (ErrorContext.make None (Some "u-user") None None
                    (Some "authorize") None)))
      \/ In (ErrorHandlerMiddleware_handle
                (ForbiddenError "delete" "users" "Missing required permission"
                   (Some (ErrorContext.make None (Some "u-user") None None
                            (Some "authorize") None))))
             [400; 401; 403; 404]%Z).
Proof.
  split; [reflexivity |].
  exact (proj2 (proj2
           (authorization_errors Seed.UserId_fromString Seed.authz
              (inr ["users:read"; "users:delete"]) (Seed.authenticated "u-user")
              (Seed.authenticated "u-user")
              (ForbiddenError "delete" "users" "Missing required permission"
                 (Some (ErrorContext.make None (Some "u-user") None None
                          (Some "authorize") None)))
              eq_refl))).
Defined.

(** ** What it takes to reach the controller *)

Lemma route_reaches_controller
  (UserId_fromString : string -> Result.t UserId.t Error)
  (authn : AuthenticationMiddleware) (authz : AuthorizationMiddleware)
  (declared : list (string + list string)) (controller : Request.t -> Signal)
  (req : Request.t) :
  In CallHandler
     (trace (dispatch (protectedRoute UserId_fromString authn authz declared controller)
               req)) ->
  exists req1,
    completion (AuthenticationMiddleware_handle UserId_fromString authn req)
    = Returns (req1, next None)
    /\ Forall (fun p =>
                 passes req1 (AuthorizationMiddleware_requirePermission
                                UserId_fromString authz p req1))
              declared.
Proof.
  unfold protectedRoute. rewrite dispatch_cons.
  pose proof (handle_only_authentication_events UserId_fromString authn req) as Hauthn.
  destruct (continues (completion (AuthenticationMiddleware_handle
                                     UserId_fromString authn req))) eqn:Ea.
  2:{ intros Hin. exfalso.
      apply (traceAll_not_in isAuthenticationEvent _ CallHandler Hauthn eq_refl Hin). }
  destruct (completion (AuthenticationMiddleware_handle UserId_fromString authn req))
    as [[req1 s] | msg]; [| discriminate].
  assert (s = next None) as ->
    by (destruct s as [[e |] | status]; try discriminate; reflexivity).
  rewrite dispatch_app.
  pose proof (authorization_stack UserId_fromString authz declared req1) as Hz.
  pose proof (authorization_stack_only_reads UserId_fromString authz declared req1)
    as Hreads.
  destruct (continues (completion (dispatch (map _ declared) req1))) eqn:Ez.
  - destruct Hz as [_ [Hall _]]. intros _. exists req1. split; [reflexivity | exact Hall].
  - cbn [trace snd]. rewrite in_app_iff. intros [Hin | Hin]; exfalso.
    + apply (traceAll_not_in isAuthenticationEvent _ CallHandler Hauthn eq_refl Hin).
    + apply (traceAll_not_in isRead _ CallHandler Hreads eq_refl Hin).
Qed.

(** A requirement that passes: the request carries an identity that parses,
    and the use case grants the first two tokens of each of its codes. *)
Lemma requirePermission_passes_only_if
  (UserId_fromString : string -> Result.t UserId.t Error)
  (this : AuthorizationMiddleware) (permission : string + list string)
  (req : Request.t) (code : string) :
  passes req (AuthorizationMiddleware_requirePermission UserId_fromString this
                permission req) ->
  In code (codesOf permission) ->
  exists identity resource action userId,
    Request.userId req = Some identity
    /\ firstTwoTokens Js.colon code = Some (resource, action)
    /\ resolvesTo (UserId_fromString identity) userId
    /\ completion (CheckPermissionUseCase_execute (checkPermissionUseCase this)
                     userId resource action)
       = Returns (Result.ok true).
Proof.
  unfold passes, AuthorizationMiddleware_requirePermission. cbv zeta.
  fold (codesOf permission).
  destruct (Request.userId req) as [[| c identity] |]; cbn [Js.falsy];
    try (cbn; discriminate).
  destruct (negb (Result.isSuccess _)); [cbn; discriminate |].
  rewrite bind_next. cbn [completion fst].
  destruct (completion (checkEach _ _ _ _)) as [[e |] | msg] eqn:Ec; try discriminate.
  intros _ Hin.
  apply checkEach_passes_iff in Ec. rewrite Forall_forall in Ec.
  specialize (Ec code Hin).
  apply checkEach_one in Ec.
  destruct Ec as [resource [action [userId [Hparse [Hid Hgrant]]]]].
  exists (String c identity), resource, action, userId. auto.
Qed.

(** X4.  The controller method of a protected route is invoked only for a
    request whose header has the bearer shape, whose token the token service
    accepts, whose identity parses and names a user the repository finds and
    who can authenticate; and only if, for every code of every declared
    requirement, the use case grants the first two tokens of the code to the
    identity attached to the request, which is the id of that user. *)
Theorem controller_reached_only_if
  (UserId_fromString : string -> Result.t UserId.t Error)
  (authn : AuthenticationMiddleware) (authz : AuthorizationMiddleware)
  (declared : list (string + list string)) (controller : Request.t -> Signal)
  (req : Request.t) :
  In CallHandler
     (trace (dispatch (protectedRoute UserId_fromString authn authz declared controller)
               req)) ->
  exists token payload userId u,
    headerShape (Request.authorization req) = HeaderBearer token
    /\ resolvesTo (jwt_verify (jwtService authn) token) payload
    /\ resolvesTo (UserId_fromString (AccessTokenPayload.userId payload)) userId
    /\ resolvesTo (user_findById
                     (getActive_userRepository (getActiveUserByIdUseCase authn))
                     userId) (Some u)
    /\ User.canAuthenticate u = true
    /\ forall permission code,
         In permission declared ->
         In code (codesOf permission) ->
         exists resource action authorized,
           firstTwoTokens Js.colon code = Some (resource, action)
           /\ resolvesTo (UserId_fromString (UserId.getValue (User.id u))) authorized
           /\ completion (CheckPermissionUseCase_execute (checkPermissionUseCase authz)
                            authorized resource action)
              = Returns (Result.ok true).
Proof.
  intros Hin.
  apply route_reaches_controller in Hin.
  destruct Hin as [req1 [Hauthn Hall]].
  apply handle_passes_iff in Hauthn.
  destruct Hauthn as [token [payload [userId [u [Hh [Hj [Hi [Hu [Hcan ->]]]]]]]]].
  exists token, payload, userId, u. repeat (split; [assumption |]).
  intros permission code Hp Hc.
  rewrite Forall_forall in Hall. specialize (Hall permission Hp).
  destruct (requirePermission_passes_only_if _ _ _ _ code Hall Hc)
    as [identity [resource [action [authorized [Hid [Hparse [Hres Hgrant]]]]]]].
  cbn in Hid. injection Hid as <-.
  exists resource, action, authorized. auto.
Qed.

Lemma controller_reached_only_if_witness :
  In CallHandler
     (trace (dispatch (protectedRoute Seed.UserId_fromString Seed.authn Seed.authz
                         [inl "permissions:read"; inr ["users:read"; "users:delete"]]
                         Seed.controller)
               (Seed.bearer "abc")))
  /\ exists token payload userId u,
       headerShape (Request.authorization (Seed.bearer "abc")) = HeaderBearer token
       /\ resolvesTo (jwt_verify (jwtService Seed.authn) token) payload
       /\ resolvesTo (Seed.UserId_fromString (AccessTokenPayload.userId payload)) userId
       /\ resolvesTo (user_findById
                        (getActive_userRepository (getActiveUserByIdUseCase Seed.authn))
                        userId) (Some u)
       /\ User.canAuthenticate u = true
       /\ forall permission code,
            In permission [inl "permissions:read"; inr ["users:read"; "users:delete"]] ->
            In code (codesOf permission) ->
            exists resource action authorized,
              firstTwoTokens Js.colon code = Some (resource, action)
              /\ resolvesTo (Seed.UserId_fromString (UserId.getValue (User.id u)))
                   authorized
              /\ completion (CheckPermissionUseCase_execute
                               (checkPermissionUseCase Seed.authz)
                               authorized resource action)
                 = Returns (Result.ok true).
Proof.
  assert (Hin : In CallHandler
                   (trace (dispatch (protectedRoute Seed.UserId_fromString Seed.authn
                                       Seed.authz
                                       [inl "permissions:read";
                                        inr ["users:read"; "users:delete"]]
                                       Seed.controller)
                             (Seed.bearer "abc")))).
  { vm_compute. intuition. }
  split; [exact Hin |].
  exact (controller_reached_only_if Seed.UserId_fromString Seed.authn Seed.authz
           [inl "permissions:read"; inr ["users:read"; "users:delete"]]
           Seed.controller (Seed.bearer "abc") Hin).
Defined.

(** ** The token service *)

(** X5.  [JwtService.verify] succeeds exactly when the library hands back an
    object whose [userId] is a non-empty string, and the payload it returns
    carries that string.  A string, an object without [userId], with an
    empty or a non-string [userId] fails with [UnauthorizedError('Invalid
    token payload')], and a token the library throws on fails with
    [UnauthorizedError('Invalid or expired token')]; there is no other
    outcome, and no exception of the library escapes. *)
Theorem verify_outcomes (this : JwtService.t) (token : string) :
  (forall payload,
      resolvesTo (JwtService.verify this token) payload
      <-> Jsonwebtoken.verify (JwtService.jwt this) token (JwtService.secret this)
          = Returns (Jsonwebtoken.DecodedObject
                       (Jsonwebtoken.Text (AccessTokenPayload.userId payload)))
          /\ AccessTokenPayload.userId payload <> "")
  /\ ((exists payload, JwtService.verify this token = Result.ok payload)
      \/ (JwtService.verify this token
          = Result.fail (UnauthorizedError "Invalid token payload" None)
          /\ exists decoded,
               Jsonwebtoken.verify (JwtService.jwt this) token (JwtService.secret this)
               = Returns decoded)
      \/ (exists cause,
             Jsonwebtoken.verify (JwtService.jwt this) token (JwtService.secret this)
             = Throws cause
             /\ JwtService.verify this token
                = Result.fail
                    (UnauthorizedError "Invalid or expired token"
                       (Some (ErrorContext.make None None None None None
                                (Some [("cause", cause)]))))))
  /\ failsUnauthorized (JwtService.asInterface this).
Proof.
  split; [| split].
  3:{ intros tk e [H1 H2]. cbn [jwt_verify JwtService.asInterface] in H1, H2.
      unfold JwtService.verify in H1, H2.
      destruct (Jsonwebtoken.verify (JwtService.jwt this) tk (JwtService.secret this))
        as [[s | [| [| c s] |]] | cause]; cbn in H1, H2;
        try discriminate; injection H2 as <-; eauto. }
  all: unfold JwtService.verify, resolvesTo.
  all: destruct (Jsonwebtoken.verify (JwtService.jwt this) token (JwtService.secret this))
         as [[s | [| [| c s] |]] | cause]; cbn.
  (* the successes *)
  all: try match goal with
           | |- forall payload, _ <-> _ =>
               intros [userId]; cbn; split; intros [H1 H2];
               first [ discriminate
                     | injection H1 as <-; congruence
                     | injection H2 as <-; split; [reflexivity | discriminate]
                     | injection H1 as <-; split; reflexivity ]
           end.
  (* the three kinds of outcome *)
  all: first [ left; eexists; reflexivity
             | right; left; split; [reflexivity | eexists; reflexivity]
             | right; right; eexists; split; reflexivity ].
Qed.

(** X6.  Signing then verifying: when the library gives back, for a token it
    signed with the same secret, the object that was signed, the service
    gives back the payload it signed, provided its [userId] is not empty; a
    payload with an empty [userId] can be signed but its token is refused
    with [UnauthorizedError('Invalid token payload')]. *)
Theorem sign_verify (this : JwtService.t) (payload : AccessTokenPayload.t)
  (token : string) :
  (forall p secret expiresIn tk,
      Jsonwebtoken.sign (JwtService.jwt this) p secret expiresIn = Returns tk ->
      Jsonwebtoken.verify (JwtService.jwt this) tk secret
      = Returns (Jsonwebtoken.DecodedObject
                   (Jsonwebtoken.Text (AccessTokenPayload.userId p)))) ->
  JwtService.sign this payload = Returns token ->
  JwtService.verify this token
  = if String.eqb (AccessTokenPayload.userId payload) ""
    then Result.fail (UnauthorizedError "Invalid token payload" None)
    else Result.ok payload.
Proof.
  intros Hlib Hsign. unfold JwtService.verify. unfold JwtService.sign in Hsign.
  rewrite (Hlib _ _ _ _ Hsign).
  destruct payload as [[| c s]]; reflexivity.
Qed.

Lemma substring_all (s : string) : String.substring 0 (String.length s) s = s.
Proof. induction s as [| c s IH]; cbn; [reflexivity | now rewrite IH]. Qed.

Lemma SeedJwt_round_trip (p : AccessTokenPayload.t) (secret expiresIn tk : string) :
  Jsonwebtoken.sign SeedJwt.library p secret expiresIn = Returns tk ->
  Jsonwebtoken.verify SeedJwt.library tk secret
  = Returns (Jsonwebtoken.DecodedObject
               (Jsonwebtoken.Text (AccessTokenPayload.userId p))).
Proof.
  cbn [SeedJwt.library Jsonwebtoken.verify Jsonwebtoken.sign].
  destruct (String.eqb expiresIn ""); [discriminate |].
  intros H. injection H as <-.
  assert (Hprefix : forall a u,
             String.prefix (String.append a ".") (String.append a (String "."%char u))
             = true).
  { induction a as [| c a IH]; intros u; cbn; [now destruct u |].
    destruct (ascii_dec c c); [apply IH | contradiction]. }
  assert (Hrest : forall a u,
             String.substring (S (String.length a))
               (String.length (String.append a (String "."%char u))
                - S (String.length a))
               (String.append a (String "."%char u))
             = u).
  { induction a as [| c a IH]; intros u.
    - cbn. rewrite Nat.sub_0_r. apply substring_all.
    - cbn [String.append String.length String.substring Nat.sub]. apply IH. }
  now rewrite Hprefix, Hrest.
Qed.

Lemma sign_verify_witness :
  JwtService.sign SeedJwt.service (AccessTokenPayload.make "u-admin")
  = Returns "s3cret.u-admin"
  /\ JwtService.verify SeedJwt.service "s3cret.u-admin"
     = Result.ok (AccessTokenPayload.make "u-admin").
Proof.
  split; [reflexivity |].
  exact (sign_verify SeedJwt.service (AccessTokenPayload.make "u-admin")
           "s3cret.u-admin" SeedJwt_round_trip eq_refl).
Defined.

(** ** Which errors the authentication handler can raise *)

(** X7.  With [JwtService] as its token service, an error the authentication
    handler passes to [next] is an [UnauthorizedError] with one of five
    reasons, answered with 401, or else the error the user repository
    failed with; the request is passed on as it was received, without
    [userId]. *)
Theorem authentication_errors
  (UserId_fromString : string -> Result.t UserId.t Error)
  (this : AuthenticationMiddleware) (service : JwtService.t)
  (req req' : Request.t) (e : Error) :
  jwtService this = JwtService.asInterface service ->
  completion (AuthenticationMiddleware_handle UserId_fromString this req)
  = Returns (req', next (Some e)) ->
  req' = req
  /\ ((exists reason context,
          e = UnauthorizedError reason context
          /\ In reason authenticationReasons
          /\ ErrorHandlerMiddleware_handle e = 401%Z)
      \/ exists userId,
           failsWith (user_findById
                        (getActive_userRepository (getActiveUserByIdUseCase this))
                        userId) e).
Proof.
  intros Hservice.
  unfold AuthenticationMiddleware_handle, GetActiveUserByIdUseCase_execute,
    Result.value, Result.error, authenticationReasons.
  rewrite Hservice. cbn [jwt_verify JwtService.asInterface].
  destruct (Request.authorization req) as [[| c h] |]; cbn [Js.falsy].
  1,3: cbn; intros H; injection H as <- <-; split; [reflexivity |];
    left; do 2 eexists; cbn; auto.
  destruct (Js.split Js.space (String c h)) as [| scheme [| [| c2 tk] more]];
    cbn [Js.destructure2 nth_error fst snd Js.strictNe Js.falsy].
  1,2,3: rewrite ?orb_true_r; cbn; intros H; injection H as <- <-;
    split; [reflexivity |]; left; do 2 eexists; cbn; auto.
  destruct (String.eqb scheme "Bearer"); cbn [negb orb].
  2: cbn; intros H; injection H as <- <-; split; [reflexivity |];
    left; do 2 eexists; cbn; auto.
  rewrite bind_call. cbn [completion fst]. cbv beta iota zeta.
  unfold JwtService.verify.
  destruct (Jsonwebtoken.verify (JwtService.jwt service) (String c2 tk)
              (JwtService.secret service))
    as [[s | [| [| c3 uid] |]] | cause];
    cbn [Result.ok Result.fail Result.isSuccess Result._isSuccess Result.successValue
         Result.errorValue negb defined].
  1,2,3,5,6: cbn; intros H; injection H as <- <-; split; [reflexivity |];
    left; do 2 eexists; cbn; auto 8.
  rewrite bind_ret. cbv beta iota zeta.
  cbn [AccessTokenPayload.userId].
  destruct (UserId_fromString (String c3 uid)) as [[] isv iev];
    cbn [Result.isSuccess Result._isSuccess Result.successValue Result.errorValue negb].
  2:{ cbn; intros H; injection H as <- <-; split; [reflexivity |];
      left; do 2 eexists; cbn; auto 8. }
  destruct isv as [userId |]; cbn [defined]; [| discriminate].
  rewrite bind_ret. cbv beta iota zeta.
  rewrite bind_assoc, bind_call. cbn [completion fst]. cbv beta iota zeta.
  destruct (user_findById (getActive_userRepository (getActiveUserByIdUseCase this)) userId)
    as [[] usv uev] eqn:Eu;
    cbn [Result.isSuccess Result._isSuccess Result.successValue Result.errorValue negb].
  2:{ destruct uev as [e' |]; cbn; [| discriminate].
      intros H; injection H as <- <-. split; [reflexivity |].
      right. exists userId. rewrite Eu. split; reflexivity. }
  destruct usv as [[u |] |]; cbn [defined]; [| | discriminate].
  2:{ cbn; intros H; injection H as <- <-; split; [reflexivity |];
      left; do 2 eexists; cbn; auto 8. }
  rewrite bind_assoc, bind_ret. cbv beta iota zeta.
  destruct (User.canAuthenticate u); cbn; [discriminate |].
  intros H; injection H as <- <-; split; [reflexivity |];
    left; do 2 eexists; cbn; auto 8.
Qed.

Lemma authentication_errors_witness :
  jwtService SeedJwt.authn = JwtService.asInterface SeedJwt.service
  /\ completion (AuthenticationMiddleware_handle Seed.UserId_fromString SeedJwt.authn
                   (Seed.bearer "forged.u-admin"))
     = Returns (Seed.bearer "forged.u-admin",
                next (Some (UnauthorizedError "Invalid or expired token"
                              (Some (ErrorContext.make None None None None None
                                       (Some [("cause", "invalid signature")]))))))
  /\ ((exists reason context,
          UnauthorizedError "Invalid or expired token"
            (Some (ErrorContext.make None None None None None
                     (Some [("cause", "invalid signature")])))
          = UnauthorizedError reason context
          /\ In reason authenticationReasons
          /\ ErrorHandlerMiddleware_handle
               (UnauthorizedError "Invalid or expired token"
                  (Some (ErrorContext.make None None None None None
                           (Some [("cause", "invalid signature")]))))
             = 401%Z)
      \/ exists userId,
           failsWith (user_findById
                        (getActive_userRepository (getActiveUserByIdUseCase SeedJwt.authn))
                        userId)
             (UnauthorizedError "Invalid or expired token"
                (Some (ErrorContext.make None None None None None
                         (Some [("cause", "invalid signature")]))))).
Proof.
  split; [reflexivity | split; [reflexivity |]].
  exact (proj2 (authentication_errors Seed.UserId_fromString SeedJwt.authn SeedJwt.service
                  (Seed.bearer "forged.u-admin") (Seed.bearer "forged.u-admin") _
                  eq_refl eq_refl)).
Defined.

(** ** The user repository: reads, soft deletion *)

Lemma find_purge (P : UserRecord.t -> bool) (rows : list UserRecord.t) :
  find (fun r => P r && notDeleted r) (filter notDeleted rows)
  = find (fun r => P r && notDeleted r) rows.
Proof.
  induction rows as [| r rows IH]; [reflexivity |].
  cbn [filter find]. destruct (notDeleted r) eqn:L.
  - cbn [find]. rewrite L, IH. reflexivity.
  - rewrite andb_false_r. exact IH.
Qed.

Lemma filter_purge (P : UserRecord.t -> bool) (rows : list UserRecord.t) :
  filter (fun r => P r && notDeleted r) (filter notDeleted rows)
  = filter (fun r => P r && notDeleted r) rows.
Proof.
  induction rows as [| r rows IH]; [reflexivity |].
  cbn [filter]. destruct (notDeleted r) eqn:L.
  - cbn [filter]. rewrite L, IH. reflexivity.
  - rewrite andb_false_r. exact IH.
Qed.

Lemma filter_notDeleted_idem (rows : list UserRecord.t) :
  filter notDeleted (filter notDeleted rows) = filter notDeleted rows.
Proof.
  induction rows as [| r rows IH]; [reflexivity |].
  cbn [filter]. destruct (notDeleted r) eqn:L; [| exact IH].
  cbn [filter]. rewrite L, IH. reflexivity.
Qed.

(** X8.  No read of the repository sees a soft-deleted row: [findById],
    [findByEmail], [existsById], [existsByEmail] and [count] answer on a
    table exactly as they answer on the table with its soft-deleted rows
    removed. *)
Theorem reads_ignore_soft_deleted
  (UserId_fromString : string -> Result.t UserId.t Error)
  (RoleId_fromString : string -> Result.t RoleId.t Error)
  (Email_create : string -> Result.t Email.t Error)
  (prisma : PrismaClient.t) (id : UserId.t) (email : Email.t) :
  UserRepositoryImpl_findById RoleId_fromString Email_create (purge prisma) id
  = UserRepositoryImpl_findById RoleId_fromString Email_create prisma id
  /\ UserRepositoryImpl_findByEmail UserId_fromString RoleId_fromString (purge prisma) email
     = UserRepositoryImpl_findByEmail UserId_fromString RoleId_fromString prisma email
  /\ UserRepositoryImpl_existsById (purge prisma) id
     = UserRepositoryImpl_existsById prisma id
  /\ UserRepositoryImpl_existsByEmail (purge prisma) email
     = UserRepositoryImpl_existsByEmail prisma email
  /\ UserRepositoryImpl_count (purge prisma) = UserRepositoryImpl_count prisma.
Proof.
  destruct prisma as [rows down].
  unfold UserRepositoryImpl_findById, UserRepositoryImpl_findById_try,
    UserRepositoryImpl_findByEmail, UserRepositoryImpl_findByEmail_try,
    UserRepositoryImpl_existsById, UserRepositoryImpl_existsByEmail,
    UserRepositoryImpl_count, PrismaClient.user_findFirst, prisma_user_findFirst,
    prisma_user_count, purge.
  cbn [PrismaClient.users PrismaClient.broken].
  destruct down as [cause |]; [repeat split |].
  repeat split.
  - change (fun r : UserRecord.t =>
              (UserRecord.id r =? UserId.getValue id)%string
              && match UserRecord.deletedAt r with Some _ => false | None => true end)
      with (fun r => (UserRecord.id r =? UserId.getValue id)%string && notDeleted r).
    rewrite (find_purge (fun r => (UserRecord.id r =? UserId.getValue id)%string)).
    reflexivity.
  - rewrite (find_purge (fun r => (UserRecord.email r =? Email.getValue email)%string)).
    reflexivity.
  - rewrite (filter_purge (fun r => (UserRecord.id r =? UserId.getValue id)%string)).
    reflexivity.
  - rewrite (filter_purge (fun r => (UserRecord.email r =? Email.getValue email)%string)).
    reflexivity.
  - rewrite filter_notDeleted_idem. reflexivity.
Qed.

(** X9.  A user [findById] hands out is rebuilt from a row of the table
    that has the requested id and no deletion mark: the entity carries the
    requested id, the email and role id the factories made of the row's
    columns, and the row's other columns unchanged. *)
Theorem findById_returns_live_row
  (RoleId_fromString : string -> Result.t RoleId.t Error)
  (Email_create : string -> Result.t Email.t Error)
  (prisma : PrismaClient.t) (id : UserId.t) (u : User.t) :
  resolvesTo (UserRepositoryImpl_findById RoleId_fromString Email_create prisma id) (Some u) ->
  exists row,
    In row (liveWithId prisma id)
    /\ User.id u = id
    /\ resolvesTo (Email_create (UserRecord.email row)) (User.email u)
    /\ resolvesTo (RoleId_fromString (UserRecord.roleId row)) (User.roleId u)
    /\ User.password u = Password.fromString (UserRecord.password row)
    /\ User.firstName u = UserRecord.firstName row
    /\ User.lastName u = UserRecord.lastName row
    /\ User.isActive u = UserRecord.isActive row
    /\ User.createdAt u = UserRecord.createdAt row
    /\ User.updatedAt u = UserRecord.updatedAt row.
Proof.
  unfold resolvesTo, UserRepositoryImpl_findById, UserRepositoryImpl_findById_try,
    PrismaClient.user_findFirst, liveWithId, Result.value, Result.error.
  destruct (PrismaClient.broken prisma) as [cause |];
    [cbn; intros [H _]; discriminate |].
  destruct (find _ (PrismaClient.users prisma)) as [row |] eqn:F;
    [| cbn; intros [_ H]; discriminate].
  apply find_some in F. destruct F as [Hin Hmatch].
  cbv zeta.
  destruct (Email_create (UserRecord.email row)) as [[] [e |] ee] eqn:Ee;
    destruct (RoleId_fromString (UserRecord.roleId row)) as [[] [r |] er] eqn:Er;
    cbn [Result.isSuccess Result._isSuccess Result.successValue Result.errorValue negb];
    try (destruct ee; cbn; intros [H1 H2]; discriminate);
    try (destruct er; cbn; intros [H1 H2]; discriminate);
    try (cbn; intros [H1 H2]; discriminate).
  cbn. intros [_ H]. inversion H; subst u; clear H. cbn.
  exists row. rewrite Ee, Er. repeat split; try reflexivity.
  apply filter_In. split; [exact Hin | exact Hmatch].
Qed.

Lemma findById_returns_live_row_witness :
  exists row,
    In row (liveWithId Seed.prisma (UserId.make "u-off"))
    /\ User.id (Seed.user "u-off" "r-admin" false) = UserId.make "u-off"
    /\ resolvesTo (Seed.Email_create (UserRecord.email row))
         (User.email (Seed.user "u-off" "r-admin" false))
    /\ resolvesTo (Seed.RoleId_fromString (UserRecord.roleId row))
         (User.roleId (Seed.user "u-off" "r-admin" false))
    /\ User.password (Seed.user "u-off" "r-admin" false)
       = Password.fromString (UserRecord.password row)
    /\ User.firstName (Seed.user "u-off" "r-admin" false) = UserRecord.firstName row
    /\ User.lastName (Seed.user "u-off" "r-admin" false) = UserRecord.lastName row
    /\ User.isActive (Seed.user "u-off" "r-admin" false) = UserRecord.isActive row
    /\ User.createdAt (Seed.user "u-off" "r-admin" false) = UserRecord.createdAt row
    /\ User.updatedAt (Seed.user "u-off" "r-admin" false) = UserRecord.updatedAt row.
Proof.
  apply (findById_returns_live_row Seed.RoleId_fromString Seed.Email_create Seed.prisma
           (UserId.make "u-off") (Seed.user "u-off" "r-admin" false)).
  split; reflexivity.
Defined.

(** X10.  A user [findByEmail] hands out is rebuilt from a row of the table
    that has the requested email and no deletion mark: the entity carries the
    requested email, the id and role id the factories made of the row's
    columns, and the row's other columns unchanged. *)
Theorem findByEmail_returns_live_row
  (UserId_fromString : string -> Result.t UserId.t Error)
  (RoleId_fromString : string -> Result.t RoleId.t Error)
  (prisma : PrismaClient.t) (email : Email.t) (u : User.t) :
  resolvesTo (UserRepositoryImpl_findByEmail UserId_fromString RoleId_fromString prisma email)
    (Some u) ->
  exists row,
    In row (PrismaClient.users prisma)
    /\ UserRecord.email row = Email.getValue email
    /\ UserRecord.deletedAt row = None
    /\ User.email u = email
    /\ resolvesTo (UserId_fromString (UserRecord.id row)) (User.id u)
    /\ resolvesTo (RoleId_fromString (UserRecord.roleId row)) (User.roleId u)
    /\ User.password u = Password.fromString (UserRecord.password row)
    /\ User.firstName u = UserRecord.firstName row
    /\ User.lastName u = UserRecord.lastName row
    /\ User.isActive u = UserRecord.isActive row
    /\ User.createdAt u = UserRecord.createdAt row
    /\ User.updatedAt u = UserRecord.updatedAt row.
Proof.
  unfold resolvesTo, UserRepositoryImpl_findByEmail, UserRepositoryImpl_findByEmail_try,
    prisma_user_findFirst, Result.value, Result.error.
  destruct (PrismaClient.broken prisma) as [cause |];
    [cbn; intros [H _]; discriminate |].
  destruct (find _ (PrismaClient.users prisma)) as [row |] eqn:F;
    [| cbn; intros [_ H]; discriminate].
  apply find_some in F. destruct F as [Hin Hmatch].
  apply andb_true_iff in Hmatch. destruct Hmatch as [Hmail Hlive].
  apply String.eqb_eq in Hmail.
  cbv zeta.
  destruct (UserId_fromString (UserRecord.id row)) as [[] [e |] ee] eqn:Ee;
    destruct (RoleId_fromString (UserRecord.roleId row)) as [[] [r |] er] eqn:Er;
    cbn [Result.isSuccess Result._isSuccess Result.successValue Result.errorValue negb];
    try (destruct ee; cbn; intros [H1 H2]; discriminate);
    try (destruct er; cbn; intros [H1 H2]; discriminate);
    try (cbn; intros [H1 H2]; discriminate).
  cbn. intros [_ H]. inversion H; subst u; clear H. cbn.
  exists row. rewrite Ee, Er. repeat split; try reflexivity; try assumption.
  unfold notDeleted in Hlive. destruct (UserRecord.deletedAt row); [discriminate | reflexivity].
Qed.

Lemma findByEmail_returns_live_row_witness :
  exists row,
    In row (PrismaClient.users Seed.prisma)
    /\ UserRecord.email row = Email.getValue (Email.make "u-guest@system.local")
    /\ UserRecord.deletedAt row = None
    /\ User.email (Seed.user "u-guest" "r-guest" true) = Email.make "u-guest@system.local"
    /\ resolvesTo (Seed.UserId_fromString (UserRecord.id row))
         (User.id (Seed.user "u-guest" "r-guest" true))
    /\ resolvesTo (Seed.RoleId_fromString (UserRecord.roleId row))
         (User.roleId (Seed.user "u-guest" "r-guest" true))
    /\ User.password (Seed.user "u-guest" "r-guest" true)
       = Password.fromString (UserRecord.password row)
    /\ User.firstName (Seed.user "u-guest" "r-guest" true) = UserRecord.firstName row
    /\ User.lastName (Seed.user "u-guest" "r-guest" true) = UserRecord.lastName row
    /\ User.isActive (Seed.user "u-guest" "r-guest" true) = UserRecord.isActive row
    /\ User.createdAt (Seed.user "u-guest" "r-guest" true) = UserRecord.createdAt row
    /\ User.updatedAt (Seed.user "u-guest" "r-guest" true) = UserRecord.updatedAt row.
Proof.
  apply (findByEmail_returns_live_row Seed.UserId_fromString Seed.RoleId_fromString
           Seed.prisma (Email.make "u-guest@system.local")
           (Seed.user "u-guest" "r-guest" true)).
  split; reflexivity.
Defined.

Lemma find_none_filter {A : Type} (f : A -> bool) (l : list A) :
  find f l = None <-> filter f l = [].
Proof.
  induction l as [| a l IH]; [split; reflexivity |].
  cbn [find filter]. destruct (f a); [split; discriminate | exact IH].
Qed.

Lemma find_map_frame {A : Type} (P : A -> bool) (g : A -> A) (l : list A) :
  (forall a, P (g a) = P a) -> (forall a, P a = true -> g a = a) ->
  find P (map g l) = find P l.
Proof.
  intros Hsame Hfix. induction l as [| a l IH]; [reflexivity |].
  cbn [map find]. rewrite Hsame. destruct (P a) eqn:Pa; [| exact IH].
  rewrite (Hfix a Pa). reflexivity.
Qed.

Lemma filter_map_frame {A : Type} (P : A -> bool) (g : A -> A) (l : list A) :
  (forall a, P (g a) = P a) -> (forall a, P a = true -> g a = a) ->
  filter P (map g l) = filter P l.
Proof.
  intros Hsame Hfix. induction l as [| a l IH]; [reflexivity |].
  cbn [map filter]. rewrite Hsame. destruct (P a) eqn:Pa; [| exact IH].
  rewrite (Hfix a Pa), IH. reflexivity.
Qed.

Lemma filter_map_none {A : Type} (P : A -> bool) (g : A -> A) (l : list A) :
  (forall a, P (g a) = false) -> filter P (map g l) = [].
Proof.
  intros Hnone. induction l as [| a l IH]; [reflexivity |].
  cbn [map filter]. rewrite Hnone. exact IH.
Qed.

Lemma existsb_id_iff (rows : list UserRecord.t) (key : string) :
  existsb (fun r => String.eqb (UserRecord.id r) key) rows = true
  <-> exists row, In row rows /\ UserRecord.id row = key.
Proof.
  rewrite existsb_exists. split; intros [row [Hin Hid]]; exists row; split; try exact Hin.
  - apply String.eqb_eq. exact Hid.
  - apply String.eqb_eq. exact Hid.
Qed.

Lemma ok_injective {T E : Type} (a b : T) : @Result.ok T E a = Result.ok b -> a = b.
Proof. intros H. inversion H. reflexivity. Qed.

Lemma ok_not_fail {T E : Type} (a : T) (e : E) : @Result.ok T E a <> Result.fail e.
Proof. intros H. inversion H. Qed.

(** X11.  [existsById] and [findById] agree on absence, and likewise
    [existsByEmail] and [findByEmail]: the one answers [ok(false)] exactly
    when the other answers [ok(null)].  [existsById] answers [ok(true)]
    exactly when the query goes through and some row has the id and no
    deletion mark, and it fails exactly when the query is rejected. *)
Theorem existence_agrees_with_lookup
  (UserId_fromString : string -> Result.t UserId.t Error)
  (RoleId_fromString : string -> Result.t RoleId.t Error)
  (Email_create : string -> Result.t Email.t Error)
  (prisma : PrismaClient.t) (id : UserId.t) (email : Email.t) :
  (UserRepositoryImpl_existsById prisma id = Result.ok false
   <-> UserRepositoryImpl_findById RoleId_fromString Email_create prisma id = Result.ok None)
  /\ (UserRepositoryImpl_existsByEmail prisma email = Result.ok false
      <-> UserRepositoryImpl_findByEmail UserId_fromString RoleId_fromString prisma email
          = Result.ok None)
  /\ (UserRepositoryImpl_existsById prisma id = Result.ok true
      <-> PrismaClient.broken prisma = None
          /\ exists row, In row (PrismaClient.users prisma)
                         /\ UserRecord.id row = UserId.getValue id
                         /\ UserRecord.deletedAt row = None)
  /\ (Result.isFailure (UserRepositoryImpl_existsById prisma id) = true
      <-> PrismaClient.broken prisma <> None).
Proof.
  destruct prisma as [rows down].
  unfold UserRepositoryImpl_findById, UserRepositoryImpl_findById_try,
    UserRepositoryImpl_findByEmail, UserRepositoryImpl_findByEmail_try,
    UserRepositoryImpl_existsById, UserRepositoryImpl_existsByEmail,
    PrismaClient.user_findFirst, prisma_user_findFirst, prisma_user_count,
    Result.value, Result.error.
  cbn [PrismaClient.users PrismaClient.broken].
  destruct down as [cause |].
  { repeat split; try (intros H; inversion H; fail); try discriminate.
    intros [H _]. discriminate. }
  change (fun r : UserRecord.t =>
            (UserRecord.id r =? UserId.getValue id)%string
            && match UserRecord.deletedAt r with Some _ => false | None => true end)
    with (fun r => (UserRecord.id r =? UserId.getValue id)%string && notDeleted r).
  split; [| split; [| split]].
  - destruct (find _ rows) as [row |] eqn:F.
    + split.
      * intros H. apply ok_injective in H. apply Z.ltb_ge in H.
        assert (Hl : List.length (filter (fun r => (UserRecord.id r =? UserId.getValue id)%string && notDeleted r) rows) = 0%nat) by lia.
        apply length_zero_iff_nil in Hl. apply find_none_filter in Hl. congruence.
      * cbv zeta.
        destruct (Email_create (UserRecord.email row)) as [[] [e |] [ee |]];
          destruct (RoleId_fromString (UserRecord.roleId row)) as [[] [r |] [er |]];
          cbn; intros H; inversion H.
    + apply find_none_filter in F. rewrite F. cbn. split; reflexivity.
  - destruct (find _ rows) as [row |] eqn:F.
    + split.
      * intros H. apply ok_injective in H. apply Z.ltb_ge in H.
        assert (Hl : List.length (filter (fun r => (UserRecord.email r =? Email.getValue email)%string && notDeleted r) rows) = 0%nat) by lia.
        apply length_zero_iff_nil in Hl. apply find_none_filter in Hl. congruence.
      * cbv zeta.
        destruct (UserId_fromString (UserRecord.id row)) as [[] [e |] [ee |]];
          destruct (RoleId_fromString (UserRecord.roleId row)) as [[] [r |] [er |]];
          cbn; intros H; inversion H.
    + apply find_none_filter in F. rewrite F. cbn. split; reflexivity.
  - split.
    + intros H. apply ok_injective in H. apply Z.ltb_lt in H.
      split; [reflexivity |].
      destruct (filter _ rows) as [| row rest] eqn:F; [cbn in H; lia |].
      assert (Hin : In row (filter (fun r => (UserRecord.id r =? UserId.getValue id)%string && notDeleted r) rows))
        by (rewrite F; left; reflexivity).
      apply filter_In in Hin. destruct Hin as [Hin Hm].
      apply andb_true_iff in Hm. destruct Hm as [Hid Hlive].
      exists row. split; [exact Hin |]. split; [apply String.eqb_eq; exact Hid |].
      unfold notDeleted in Hlive.
      destruct (UserRecord.deletedAt row); [discriminate | reflexivity].
    + intros [_ [row [Hin [Hid Hlive]]]].
      assert (Hf : In row (filter (fun r => (UserRecord.id r =? UserId.getValue id)%string && notDeleted r) rows)).
      { apply filter_In. split; [exact Hin |].
        unfold notDeleted. rewrite Hlive, Hid, String.eqb_refl. reflexivity. }
      destruct (filter _ rows) as [| r0 rest]; [destruct Hf |].
      f_equal.
  - cbn. split; [discriminate | intros H; now elim H].
Qed.

Lemma delete_table (prisma : PrismaClient.t) (id : UserId.t) (now : Z)
  (stamp : UserRecord.t -> Z) :
  (snd (UserRepositoryImpl_delete prisma id now stamp) = prisma
   /\ (PrismaClient.broken prisma = None -> liveWithId prisma id = []))
  \/ (PrismaClient.broken prisma = None
      /\ snd (UserRepositoryImpl_delete prisma id now stamp)
         = PrismaClient.make
             (map (fun r => if String.eqb (UserRecord.id r) (UserId.getValue id)
                            then markDeleted now stamp r else r)
                  (PrismaClient.users prisma))
             None).
Proof.
  unfold UserRepositoryImpl_delete, prisma_user_update.
  destruct (PrismaClient.broken prisma) as [cause |];
    [left; split; [reflexivity | discriminate] |].
  destruct (existsb _ (PrismaClient.users prisma)) eqn:Ex;
    [right; split; reflexivity | left; split; [reflexivity | intros _]].
  unfold liveWithId.
  destruct (filter _ (PrismaClient.users prisma)) as [| r0 rest] eqn:F; [reflexivity |].
  assert (Hin : In r0 (filter (fun r => (UserRecord.id r =? UserId.getValue id)%string
                                        && notDeleted r) (PrismaClient.users prisma)))
    by (rewrite F; left; reflexivity).
  apply filter_In in Hin. destruct Hin as [Hin Hm].
  apply andb_true_iff in Hm. destruct Hm as [Hid _]. apply String.eqb_eq in Hid.
  assert (E : existsb (fun r => String.eqb (UserRecord.id r) (UserId.getValue id))
                (PrismaClient.users prisma) = true)
    by (apply existsb_id_iff; eauto).
  congruence.
Qed.

(** X12.  What [delete] answers and leaves behind.  It answers [ok(true)]
    exactly when the query goes through and a row has the id, soft-deleted
    already or not; [ok(false)] exactly when the query goes through and no
    row has it; and it fails, with the [DatabaseError] of the operation,
    exactly when the query is rejected for another reason.  Unless it
    answers [ok(true)] the table is unchanged, and whenever the query goes
    through, [findById] on the table it leaves answers [ok(null)] and
    [existsById] answers [ok(false)]. *)
Theorem delete_outcomes
  (RoleId_fromString : string -> Result.t RoleId.t Error)
  (Email_create : string -> Result.t Email.t Error)
  (prisma : PrismaClient.t) (id : UserId.t) (now : Z) (stamp : UserRecord.t -> Z) :
  let result := fst (UserRepositoryImpl_delete prisma id now stamp) in
  let after := snd (UserRepositoryImpl_delete prisma id now stamp) in
  (result = Result.ok true
   <-> PrismaClient.broken prisma = None
       /\ exists row, In row (PrismaClient.users prisma)
                      /\ UserRecord.id row = UserId.getValue id)
  /\ (result = Result.ok false
      <-> PrismaClient.broken prisma = None
          /\ forall row, In row (PrismaClient.users prisma)
                         -> UserRecord.id row <> UserId.getValue id)
  /\ ((exists context, result = Result.fail (DatabaseError "Failed to delete user" context))
      <-> PrismaClient.broken prisma <> None)
  /\ (result <> Result.ok true -> after = prisma)
  /\ (PrismaClient.broken prisma = None ->
      UserRepositoryImpl_findById RoleId_fromString Email_create after id = Result.ok None
      /\ UserRepositoryImpl_existsById after id = Result.ok false).
Proof.
  cbv zeta.
  destruct prisma as [rows down].
  unfold UserRepositoryImpl_delete, prisma_user_update, databaseError.
  cbn [PrismaClient.users PrismaClient.broken].
  destruct down as [cause |].
  { cbn. repeat split; try (intros H; inversion H; fail); try discriminate.
    - intros [H _]. discriminate.
    - intros [H _]. discriminate.
    - eexists. reflexivity. }
  destruct (existsb _ rows) eqn:Ex.
  - apply existsb_id_iff in Ex.
    cbn [fst snd]. split; [| split; [| split; [| split]]].
    + split; [intros _; split; [reflexivity | exact Ex] | reflexivity].
    + split; [intros H; inversion H |].
      intros [_ Hno]. destruct Ex as [row [Hin Hid]]. elim (Hno row Hin Hid).
    + split; [intros [context H]; inversion H | intros H; now elim H].
    + intros H. now elim H.
    + intros _.
      assert (Hnone : filter (fun r => String.eqb (UserRecord.id r) (UserId.getValue id) && notDeleted r)
                (map (fun r => if String.eqb (UserRecord.id r) (UserId.getValue id)
                               then markDeleted now stamp r else r) rows) = []).
      { apply filter_map_none. intros r.
        destruct (String.eqb (UserRecord.id r) (UserId.getValue id)) eqn:Hid.
        - cbn. rewrite Hid. reflexivity.
        - rewrite Hid. reflexivity. }
      split.
      * unfold UserRepositoryImpl_findById, UserRepositoryImpl_findById_try,
          PrismaClient.user_findFirst.
        cbn [PrismaClient.users PrismaClient.broken].
        change (fun r : UserRecord.t =>
                  (UserRecord.id r =? UserId.getValue id)%string
                  && match UserRecord.deletedAt r with Some _ => false | None => true end)
          with (fun r => (UserRecord.id r =? UserId.getValue id)%string && notDeleted r).
        apply find_none_filter in Hnone. rewrite Hnone. reflexivity.
      * unfold UserRepositoryImpl_existsById, prisma_user_count.
        cbn [PrismaClient.users PrismaClient.broken].
        rewrite Hnone. reflexivity.
  - assert (Hno : forall row, In row rows -> UserRecord.id row <> UserId.getValue id).
    { intros row Hin Hid.
      assert (E : existsb (fun r => String.eqb (UserRecord.id r) (UserId.getValue id)) rows = true)
        by (apply existsb_id_iff; eauto).
      congruence. }
    cbn [isRecordNotFoundError PrismaError.code fst snd]. cbn [String.eqb Ascii.eqb Bool.eqb].
    cbn [fst snd]. split; [| split; [| split; [| split]]].
    + split; [intros H; inversion H |].
      intros [_ [row [Hin Hid]]]. elim (Hno row Hin Hid).
    + split; [intros _; split; [reflexivity | exact Hno] | reflexivity].
    + split; [intros [context H]; inversion H | intros H; now elim H].
    + reflexivity.
    + intros _.
      assert (Hnone : filter (fun r => String.eqb (UserRecord.id r) (UserId.getValue id) && notDeleted r)
                rows = []).
      { destruct (filter _ rows) as [| r0 rest] eqn:F; [reflexivity |].
        assert (Hin : In r0 (filter (fun r => (UserRecord.id r =? UserId.getValue id)%string && notDeleted r) rows))
          by (rewrite F; left; reflexivity).
        apply filter_In in Hin. destruct Hin as [Hin Hm].
        apply andb_true_iff in Hm. destruct Hm as [Hid _]. apply String.eqb_eq in Hid.
        elim (Hno r0 Hin Hid). }
      split.
      * unfold UserRepositoryImpl_findById, UserRepositoryImpl_findById_try,
          PrismaClient.user_findFirst.
        cbn [PrismaClient.users PrismaClient.broken].
        change (fun r : UserRecord.t =>
                  (UserRecord.id r =? UserId.getValue id)%string
                  && match UserRecord.deletedAt r with Some _ => false | None => true end)
          with (fun r => (UserRecord.id r =? UserId.getValue id)%string && notDeleted r).
        apply find_none_filter in Hnone. rewrite Hnone. reflexivity.
      * unfold UserRepositoryImpl_existsById, prisma_user_count.
        cbn [PrismaClient.users PrismaClient.broken].
        rewrite Hnone. reflexivity.
Qed.

(** X13.  [delete] touches nothing but the deletion mark (and the
    modification stamp) of the rows with the id: the table keeps its rows, in
    order, with their ids and emails; every lookup of another id answers as
    before; and the count of users drops by the number of rows with the id
    that were not yet soft-deleted. *)
Theorem delete_frame
  (RoleId_fromString : string -> Result.t RoleId.t Error)
  (Email_create : string -> Result.t Email.t Error)
  (prisma : PrismaClient.t) (id : UserId.t) (now : Z) (stamp : UserRecord.t -> Z) :
  let after := snd (UserRepositoryImpl_delete prisma id now stamp) in
  map UserRecord.id (PrismaClient.users after) = map UserRecord.id (PrismaClient.users prisma)
  /\ map UserRecord.email (PrismaClient.users after)
     = map UserRecord.email (PrismaClient.users prisma)
  /\ PrismaClient.broken after = PrismaClient.broken prisma
  /\ (forall other,
        UserId.getValue other <> UserId.getValue id ->
        UserRepositoryImpl_findById RoleId_fromString Email_create after other
        = UserRepositoryImpl_findById RoleId_fromString Email_create prisma other
        /\ UserRepositoryImpl_existsById after other
           = UserRepositoryImpl_existsById prisma other)
  /\ (forall total,
        UserRepositoryImpl_count prisma = Result.ok total ->
        UserRepositoryImpl_count after
        = Result.ok (total - Z.of_nat (List.length (liveWithId prisma id)))%Z).
Proof.
  cbv zeta.
  destruct (delete_table prisma id now stamp) as [[Same Hnone] | [Hup Changed]].
  { rewrite Same. repeat split.
    intros total Hcount. rewrite Hcount. f_equal.
    assert (Hup : PrismaClient.broken prisma = None).
    { unfold UserRepositoryImpl_count, prisma_user_count in Hcount.
      destruct (PrismaClient.broken prisma); [inversion Hcount | reflexivity]. }
    rewrite (Hnone Hup). cbn. lia. }
  rewrite Changed. cbn [PrismaClient.users PrismaClient.broken].
  split; [| split; [| split; [| split]]].
  - rewrite map_map. apply map_ext. intros r.
    destruct (String.eqb (UserRecord.id r) (UserId.getValue id)); reflexivity.
  - rewrite map_map. apply map_ext. intros r.
    destruct (String.eqb (UserRecord.id r) (UserId.getValue id)); reflexivity.
  - symmetry. exact Hup.
  - intros other Hother.
    assert (Hsame : forall r : UserRecord.t,
      (fun r => String.eqb (UserRecord.id r) (UserId.getValue other) && notDeleted r)
        (if String.eqb (UserRecord.id r) (UserId.getValue id) then markDeleted now stamp r else r)
      = String.eqb (UserRecord.id r) (UserId.getValue other) && notDeleted r).
    { intros r. destruct (String.eqb (UserRecord.id r) (UserId.getValue id)) eqn:Hid;
        [| reflexivity].
      apply String.eqb_eq in Hid. cbn.
      destruct (String.eqb (UserRecord.id r) (UserId.getValue other)) eqn:Ho; [| reflexivity].
      apply String.eqb_eq in Ho. congruence. }
    assert (Hfix : forall r : UserRecord.t,
      String.eqb (UserRecord.id r) (UserId.getValue other) && notDeleted r = true ->
      (if String.eqb (UserRecord.id r) (UserId.getValue id) then markDeleted now stamp r else r)
      = r).
    { intros r Hm. apply andb_true_iff in Hm. destruct Hm as [Ho _].
      apply String.eqb_eq in Ho.
      destruct (String.eqb (UserRecord.id r) (UserId.getValue id)) eqn:Hid; [| reflexivity].
      apply String.eqb_eq in Hid. congruence. }
    split.
    + unfold UserRepositoryImpl_findById, UserRepositoryImpl_findById_try,
        PrismaClient.user_findFirst.
      cbn [PrismaClient.users PrismaClient.broken]. rewrite Hup.
      change (fun r : UserRecord.t =>
                (UserRecord.id r =? UserId.getValue other)%string
                && match UserRecord.deletedAt r with Some _ => false | None => true end)
        with (fun r => (UserRecord.id r =? UserId.getValue other)%string && notDeleted r).
      rewrite (find_map_frame _ _ _ Hsame Hfix). reflexivity.
    + unfold UserRepositoryImpl_existsById, prisma_user_count.
      cbn [PrismaClient.users PrismaClient.broken]. rewrite Hup.
      rewrite (filter_map_frame _ _ _ Hsame Hfix). reflexivity.
  - intros total Hcount.
    unfold UserRepositoryImpl_count, prisma_user_count in *.
    cbn [PrismaClient.users PrismaClient.broken]. rewrite Hup in Hcount.
    apply ok_injective in Hcount. subst total. f_equal.
    unfold liveWithId. clear Changed.
    induction (PrismaClient.users prisma) as [| r rows IH]; [reflexivity |].
    cbn [map filter].
    destruct (String.eqb (UserRecord.id r) (UserId.getValue id)) eqn:Hid.
    + cbn [markDeleted notDeleted UserRecord.deletedAt andb].
      destruct (notDeleted r); cbn [List.length]; lia.
    + cbn [andb]. destruct (notDeleted r); cbn [List.length]; lia.
Qed.

Lemma filter_map_none_in {A : Type} (P : A -> bool) (g : A -> A) (l : list A) :
  (forall a, In a l -> P (g a) = false) -> filter P (map g l) = [].
Proof.
  induction l as [| a l IH]; intros Hnone; [reflexivity |].
  cbn [map filter]. rewrite (Hnone a (or_introl eq_refl)).
  apply IH. intros b Hb. apply Hnone. right. exact Hb.
Qed.

Lemma unique_email_row (rows : list UserRecord.t) (a b : UserRecord.t) :
  NoDup (map UserRecord.email rows) -> In a rows -> In b rows ->
  UserRecord.email a = UserRecord.email b -> a = b.
Proof.
  induction rows as [| r rows IH]; intros Hnd Ha Hb Heq; [destruct Ha |].
  cbn [map] in Hnd. inversion Hnd as [| x xs Hfresh Hrest]; subst.
  destruct Ha as [Ha | Ha], Hb as [Hb | Hb].
  - congruence.
  - subst a. elim Hfresh. rewrite Heq. apply in_map. exact Hb.
  - subst b. elim Hfresh. rewrite <- Heq. apply in_map. exact Ha.
  - exact (IH Hrest Ha Hb Heq).
Qed.

(** X14.  With emails unique in the table (the unique index of the
    schema), deleting a user by id also hides them from the reads by email:
    on the table [delete] leaves, [findByEmail] of the email of a row with
    that id answers [ok(null)] and [existsByEmail] answers [ok(false)]. *)
Theorem delete_hides_email
  (UserId_fromString : string -> Result.t UserId.t Error)
  (RoleId_fromString : string -> Result.t RoleId.t Error)
  (prisma : PrismaClient.t) (id : UserId.t) (email : Email.t)
  (now : Z) (stamp : UserRecord.t -> Z) (row : UserRecord.t) :
  PrismaClient.broken prisma = None ->
  uniqueEmails prisma ->
  In row (PrismaClient.users prisma) ->
  UserRecord.id row = UserId.getValue id ->
  UserRecord.email row = Email.getValue email ->
  UserRepositoryImpl_findByEmail UserId_fromString RoleId_fromString
    (snd (UserRepositoryImpl_delete prisma id now stamp)) email
  = Result.ok None
  /\ UserRepositoryImpl_existsByEmail
       (snd (UserRepositoryImpl_delete prisma id now stamp)) email
     = Result.ok false.
Proof.
  intros Hup Hunique Hin Hid Hmail.
  assert (Ex : existsb (fun r => String.eqb (UserRecord.id r) (UserId.getValue id))
                 (PrismaClient.users prisma) = true)
    by (apply existsb_id_iff; eauto).
  unfold UserRepositoryImpl_delete, prisma_user_update. rewrite Hup, Ex. cbn [snd].
  assert (Hnone :
    filter (fun r => String.eqb (UserRecord.email r) (Email.getValue email) && notDeleted r)
      (map (fun r => if String.eqb (UserRecord.id r) (UserId.getValue id)
                     then markDeleted now stamp r else r)
           (PrismaClient.users prisma)) = []).
  { apply filter_map_none_in. intros r Hr.
    destruct (String.eqb (UserRecord.id r) (UserId.getValue id)) eqn:Hrid.
    - cbn. apply andb_false_r.
    - destruct (String.eqb (UserRecord.email r) (Email.getValue email)) eqn:Hrmail;
        [| reflexivity].
      apply String.eqb_eq in Hrmail.
      assert (r = row) by (apply (unique_email_row _ _ _ Hunique Hr Hin); congruence).
      subst r. rewrite Hid, String.eqb_refl in Hrid. discriminate. }
  split.
  - unfold UserRepositoryImpl_findByEmail, UserRepositoryImpl_findByEmail_try,
      prisma_user_findFirst.
    cbn [PrismaClient.users PrismaClient.broken].
    apply find_none_filter in Hnone. rewrite Hnone. reflexivity.
  - unfold UserRepositoryImpl_existsByEmail, prisma_user_count.
    cbn [PrismaClient.users PrismaClient.broken].
    rewrite Hnone. reflexivity.
Qed.

Lemma delete_hides_email_witness :
  UserRepositoryImpl_findByEmail Seed.UserId_fromString Seed.RoleId_fromString
    Seed.prisma (Email.make "u-user@system.local")
  = Result.ok (Some (Seed.user "u-user" "r-user" true))
  /\ UserRepositoryImpl_findByEmail Seed.UserId_fromString Seed.RoleId_fromString
       (snd (UserRepositoryImpl_delete Seed.prisma (UserId.make "u-user") 1800000000000%Z
               UserRecord.updatedAt))
       (Email.make "u-user@system.local")
     = Result.ok None
  /\ UserRepositoryImpl_existsByEmail
       (snd (UserRepositoryImpl_delete Seed.prisma (UserId.make "u-user") 1800000000000%Z
               UserRecord.updatedAt))
       (Email.make "u-user@system.local")
     = Result.ok false.
Proof.
  split; [reflexivity |].
  apply (delete_hides_email Seed.UserId_fromString Seed.RoleId_fromString Seed.prisma
           (UserId.make "u-user") (Email.make "u-user@system.local") 1800000000000%Z
           UserRecord.updatedAt (Seed.row "u-user" "r-user" true None)).
  - reflexivity.
  - unfold uniqueEmails. cbn.
    repeat (constructor; [cbn; intuition discriminate |]). constructor.
  - cbn. intuition.
  - reflexivity.
  - reflexivity.
Defined.

Lemma delete_cases (prisma : PrismaClient.t) (id : UserId.t) (now : Z)
  (stamp : UserRecord.t -> Z) :
  (exists cause,
     PrismaClient.broken prisma = Some cause
     /\ UserRepositoryImpl_delete prisma id now stamp
        = (Result.fail (databaseError "Failed to delete user" "delete" "id"
                          (UserId.getValue id) cause), prisma))
  \/ (PrismaClient.broken prisma = None
      /\ existsb (fun r => String.eqb (UserRecord.id r) (UserId.getValue id))
           (PrismaClient.users prisma) = false
      /\ UserRepositoryImpl_delete prisma id now stamp = (Result.ok false, prisma))
  \/ (PrismaClient.broken prisma = None
      /\ existsb (fun r => String.eqb (UserRecord.id r) (UserId.getValue id))
           (PrismaClient.users prisma) = true
      /\ UserRepositoryImpl_delete prisma id now stamp
         = (Result.ok true,
            PrismaClient.make
              (map (fun r => if String.eqb (UserRecord.id r) (UserId.getValue id)
                             then markDeleted now stamp r else r)
                   (PrismaClient.users prisma))
              None)).
Proof.
  unfold UserRepositoryImpl_delete, prisma_user_update.
  destruct (PrismaClient.broken prisma) as [cause |].
  - left. exists cause. split; reflexivity.
  - right. destruct (existsb _ (PrismaClient.users prisma));
      [right | left]; repeat split; reflexivity.
Qed.

(** X15.  Deleting again answers as the first deletion did; when that was
    [ok(true)], the second deletion overwrites the deletion time of the rows
    with the id, which then carry the time of the second call. *)
Theorem delete_again
  (prisma : PrismaClient.t) (id : UserId.t)
  (now later : Z) (stamp stamp' : UserRecord.t -> Z) :
  let first := UserRepositoryImpl_delete prisma id now stamp in
  let second := UserRepositoryImpl_delete (snd first) id later stamp' in
  fst second = fst first
  /\ (fst first = Result.ok true ->
      forall row, In row (PrismaClient.users (snd second)) ->
                  UserRecord.id row = UserId.getValue id ->
                  UserRecord.deletedAt row = Some later).
Proof.
  cbv zeta.
  destruct (delete_cases prisma id now stamp)
    as [[cause [Hdown First]] | [[Hup [Ex First]] | [Hup [Ex First]]]];
    rewrite First; cbn [fst snd].
  - destruct (delete_cases prisma id later stamp')
      as [[cause' [Hdown' Second]] | [[Hup' _] | [Hup' _]]]; try congruence.
    rewrite Second. cbn [fst]. split; [congruence | intros H; inversion H].
  - destruct (delete_cases prisma id later stamp')
      as [[cause' [Hdown' _]] | [[_ [_ Second]] | [_ [Ex' _]]]]; try congruence.
    rewrite Second. cbn [fst]. split; [reflexivity | intros H; inversion H].
  - set (after := PrismaClient.make _ None).
    assert (Ex' : existsb (fun r => String.eqb (UserRecord.id r) (UserId.getValue id))
                    (PrismaClient.users after) = true).
    { apply existsb_id_iff in Ex. destruct Ex as [row [Hin Hid]].
      apply existsb_id_iff.
      exists (markDeleted now stamp row). split; [| exact Hid].
      apply in_map_iff. exists row. split; [| exact Hin].
      rewrite Hid, String.eqb_refl. reflexivity. }
    destruct (delete_cases after id later stamp')
      as [[cause' [Hdown' _]] | [[_ [Ex'' _]] | [_ [_ Second]]]];
      [discriminate | congruence |].
    rewrite Second. cbn [fst snd PrismaClient.users]. split; [reflexivity |].
    intros _ row Hin Hid.
    apply in_map_iff in Hin. destruct Hin as [r [Hr _]]. subst row.
    destruct (String.eqb (UserRecord.id r) (UserId.getValue id)) eqn:E; [reflexivity |].
    apply String.eqb_neq in E. elim E. exact Hid.
Qed.

(** ** Pagination *)

(** X16.  [validateParams] accepts exactly a limit that is left out or an integer
    from 1 to 100 together with an offset that is left out or a non-negative
    integer, and then returns them, with 20 and 0 for what was left out.
    Anything else is refused with a [ValidationError]: on the field [limit]
    whenever the limit is not acceptable, whatever the offset, and on the
    field [offset] only when the limit is acceptable. *)
Theorem validateParams_outcomes (written : JsNumber.t -> string)
  (limit offset : option JsNumber.t) :
  let result := PaginationService.validateParams written limit offset in
  let limitOk l := match limit with
                   | None => l = 20%Z
                   | Some (JsNumber.Integer z) => (1 <= z <= 100)%Z /\ l = z
                   | Some (JsNumber.NotInteger _) => False
                   end in
  let offsetOk o := match offset with
                    | None => o = 0%Z
                    | Some (JsNumber.Integer z) => (0 <= z)%Z /\ o = z
                    | Some (JsNumber.NotInteger _) => False
                    end in
  (forall p, result = Result.ok p
             <-> limitOk (PaginationParams.limit p) /\ offsetOk (PaginationParams.offset p))
  /\ ((exists reason context, result = Result.fail (ValidationError "limit" reason context))
      <-> ~ exists l, limitOk l)
  /\ ((exists reason context, result = Result.fail (ValidationError "offset" reason context))
      <-> (exists l, limitOk l) /\ ~ exists o, offsetOk o)
  /\ ((exists p, result = Result.ok p) \/ (exists field reason context,
         result = Result.fail (ValidationError field reason context))).
Proof.
  cbv zeta.
  unfold PaginationService.validateParams, PaginationService.limitTooSmall,
    PaginationService.limitTooLarge, PaginationService.offsetInvalid,
    PaginationService.DEFAULT_LIMIT, PaginationService.MIN_LIMIT,
    PaginationService.MAX_LIMIT.
  destruct limit as [[l | wl] |]; destruct offset as [[o | wo] |];
    repeat match goal with
           | |- context [(?a <? ?b)%Z] => destruct (Z.ltb_spec a b) as [?Hlt | ?Hge]
           | |- context [(?a >? ?b)%Z] =>
               rewrite (Z.gtb_ltb a b); destruct (Z.ltb_spec b a) as [?Hlt | ?Hge]
           end.
  all: split; [| split; [| split]].
  (* acceptance *)
  all: try match goal with
           | |- forall p, _ <-> _ =>
               intros [pl po]; cbn [PaginationParams.limit PaginationParams.offset];
               split; [intros Heq; inversion Heq; subst; lia
                      | intros [Hl Ho]; try (exfalso; tauto); try (exfalso; lia);
                        f_equal; f_equal; lia]
           end.
  all: repeat match goal with
              | |- _ <-> _ => split
              | |- _ /\ _ => split
              | |- ~ _ => intros ?
              | |- _ -> _ => intros ?
              | H : exists _, _ |- _ => destruct H
              | H : _ /\ _ |- _ => destruct H
              | H : False |- _ => destruct H
              end.
  all: try discriminate.
  all: try lia.
  all: try (do 2 eexists; reflexivity).
  all: try (eexists; split; [lia | reflexivity]).
  all: try (eexists; reflexivity).
  all: try (left; eexists; reflexivity).
  all: try (right; do 3 eexists; reflexivity).
  all: try match goal with
           | H : ~ _ |- _ => exfalso; apply H; eexists;
                             first [reflexivity | split; [lia | reflexivity]]
           end.
Qed.



(** ** Problem details *)

Lemma setIfPresent_other (key : string) (field : option string) (o : JsObject.t)
  (k : string) :
  String.eqb k key = false -> ProblemDetailsBuilder.setIfPresent key field o k = o k.
Proof.
  intros Hk. unfold ProblemDetailsBuilder.setIfPresent, JsObject.set.
  destruct field as [[| c s] |]; try reflexivity. rewrite Hk. reflexivity.
Qed.

Lemma setIfPresent_same (key : string) (field : option string) (o : JsObject.t) :
  ProblemDetailsBuilder.setIfPresent key field o key
  = if Js.falsy field then o key
    else match field with Some s => Some (JsValue.Str s) | None => o key end.
Proof.
  unfold ProblemDetailsBuilder.setIfPresent, JsObject.set.
  destruct field as [[| c s] |]; try reflexivity.
  rewrite String.eqb_refl. reflexivity.
Qed.

Lemma append_nonempty (s t : string) (c : ascii) :
  exists c' r, String.append s (String c t) = String c' r.
Proof. destruct s as [| a s]; cbn; eauto. Qed.

Ltac thrown :=
  repeat split; intros; try discriminate; try tauto;
  repeat match goal with
         | H : _ /\ _ |- _ => destruct H
         | H : exists _, _ |- _ => destruct H
         end;
  try discriminate; try congruence; try tauto.

(** The properties of the object [build] returns. *)
Lemma build_reads (this : ProblemDetailsBuilder.t) (o : JsObject.t) :
  ProblemDetailsBuilder.build this = Returns o ->
  (forall key standard,
     In (key, standard)
        [("type", option_map JsValue.Str (ProblemDetailsBuilder.type this));
         ("title", option_map JsValue.Str (ProblemDetailsBuilder.title this));
         ("status", option_map JsValue.Num (ProblemDetailsBuilder.status this));
         ("detail", option_map JsValue.Str (ProblemDetailsBuilder.detail this))] ->
     o key = match ProblemDetailsBuilder.extensions this key with
             | Some v => Some v
             | None => standard
             end)
  /\ (forall key field,
        In (key, field)
           [("instance", ProblemDetailsBuilder.instance this);
            ("requestId", ProblemDetailsBuilder.requestId this);
            ("timestamp", ProblemDetailsBuilder.timestamp this)] ->
        o key = if Js.falsy field then ProblemDetailsBuilder.extensions this key
                else option_map JsValue.Str field)
  /\ (forall key,
        ~ In key ["type"; "title"; "status"; "detail";
                  "instance"; "requestId"; "timestamp"] ->
        o key = ProblemDetailsBuilder.extensions this key).
Proof.
  unfold ProblemDetailsBuilder.build.
  destruct this as [ty ti st de ins rid ts ext].
  cbn [ProblemDetailsBuilder.type ProblemDetailsBuilder.title ProblemDetailsBuilder.status
       ProblemDetailsBuilder.detail ProblemDetailsBuilder.instance
       ProblemDetailsBuilder.requestId ProblemDetailsBuilder.timestamp
       ProblemDetailsBuilder.extensions].
  destruct ty as [[| c1 ty] |]; try discriminate.
  destruct ti as [[| c2 ti] |]; try discriminate.
  destruct st as [st |]; try discriminate.
  destruct de as [[| c3 de] |]; try discriminate.
  intros H. inversion H; subst o; clear H.
  split; [| split].
  - intros key standard Hin. cbn [In] in Hin.
    destruct Hin as [Heq | [Heq | [Heq | [Heq | []]]]]; inversion Heq; subst; clear Heq;
      rewrite !setIfPresent_other by reflexivity;
      unfold JsObject.assign, JsObject.set; cbn; reflexivity.
  - intros key field Hin. cbn [In] in Hin.
    destruct Hin as [Heq | [Heq | [Heq | []]]]; inversion Heq; subst; clear Heq.
    + rewrite !setIfPresent_other by reflexivity. rewrite setIfPresent_same.
      unfold JsObject.assign, JsObject.set. cbn.
      destruct field as [[| c s] |]; cbn; try reflexivity;
        destruct (ext "instance"); reflexivity.
    + rewrite !setIfPresent_other by reflexivity. rewrite setIfPresent_same.
      rewrite !setIfPresent_other by reflexivity.
      unfold JsObject.assign, JsObject.set. cbn.
      destruct field as [[| c s] |]; cbn; try reflexivity;
        destruct (ext "requestId"); reflexivity.
    + rewrite setIfPresent_same. rewrite !setIfPresent_other by reflexivity.
      unfold JsObject.assign, JsObject.set. cbn.
      destruct field as [[| c s] |]; cbn; try reflexivity;
        destruct (ext "timestamp"); reflexivity.
  - intros key Hkey.
    assert (Hne : forall k, In k ["type"; "title"; "status"; "detail";
                                  "instance"; "requestId"; "timestamp"] ->
                            String.eqb key k = false).
    { intros k Hk. apply String.eqb_neq. intros ->. exact (Hkey Hk). }
    rewrite !setIfPresent_other by (apply Hne; cbn; tauto).
    unfold JsObject.assign, JsObject.set.
    rewrite !Hne by (cbn; tauto).
    destruct (ext key); reflexivity.
Qed.

(** When [build] returns. *)
Lemma build_returns_iff (this : ProblemDetailsBuilder.t) :
  (exists o, ProblemDetailsBuilder.build this = Returns o)
  <-> Js.falsy (ProblemDetailsBuilder.type this) = false
      /\ Js.falsy (ProblemDetailsBuilder.title this) = false
      /\ ProblemDetailsBuilder.status this <> None
      /\ Js.falsy (ProblemDetailsBuilder.detail this) = false.
Proof.
  unfold ProblemDetailsBuilder.build.
  destruct (ProblemDetailsBuilder.type this) as [[| c1 ty] |]; cbn [Js.falsy];
    [thrown | | thrown].
  destruct (ProblemDetailsBuilder.title this) as [[| c2 ti] |]; cbn [Js.falsy];
    [thrown | | thrown].
  destruct (ProblemDetailsBuilder.status this) as [st |]; [| thrown].
  destruct (ProblemDetailsBuilder.detail this) as [[| c3 de] |]; cbn [Js.falsy];
    [thrown | | thrown].
  split; [intros _; repeat split; discriminate | intros _; eexists; reflexivity].
Qed.

(** X18.  What [build] requires and what the object it builds holds.  It throws
    exactly when the type or the title is missing or empty, the status was
    never set, or the detail is missing or empty, naming the first of these
    in that order; a status of 0 is accepted.  In the object, an extension
    named like one of the four required fields replaces it; [instance],
    [requestId] and [timestamp], when set and not empty, replace an
    extension of their name, and are otherwise left to the extension; every
    other property is the extension of that name. *)
Theorem build_outcomes (this : ProblemDetailsBuilder.t) :
  let build := ProblemDetailsBuilder.build this in
  let required (standard : option JsValue.t) (key : string) (o : JsObject.t) :=
    o key = match ProblemDetailsBuilder.extensions this key with
            | Some v => Some v
            | None => standard
            end in
  let optional (field : option string) (key : string) (o : JsObject.t) :=
    o key = if Js.falsy field then ProblemDetailsBuilder.extensions this key
            else option_map JsValue.Str field in
  (build = Throws "ProblemDetailsBuilder: type is required"
   <-> Js.falsy (ProblemDetailsBuilder.type this) = true)
  /\ (build = Throws "ProblemDetailsBuilder: title is required"
      <-> Js.falsy (ProblemDetailsBuilder.type this) = false
          /\ Js.falsy (ProblemDetailsBuilder.title this) = true)
  /\ (build = Throws "ProblemDetailsBuilder: status is required"
      <-> Js.falsy (ProblemDetailsBuilder.type this) = false
          /\ Js.falsy (ProblemDetailsBuilder.title this) = false
          /\ ProblemDetailsBuilder.status this = None)
  /\ (build = Throws "ProblemDetailsBuilder: detail is required"
      <-> Js.falsy (ProblemDetailsBuilder.type this) = false
          /\ Js.falsy (ProblemDetailsBuilder.title this) = false
          /\ ProblemDetailsBuilder.status this <> None
          /\ Js.falsy (ProblemDetailsBuilder.detail this) = true)
  /\ ((exists o, build = Returns o)
      <-> Js.falsy (ProblemDetailsBuilder.type this) = false
          /\ Js.falsy (ProblemDetailsBuilder.title this) = false
          /\ ProblemDetailsBuilder.status this <> None
          /\ Js.falsy (ProblemDetailsBuilder.detail this) = false)
  /\ (forall o, build = Returns o ->
        required (option_map JsValue.Str (ProblemDetailsBuilder.type this)) "type" o
        /\ required (option_map JsValue.Str (ProblemDetailsBuilder.title this)) "title" o
        /\ required (option_map JsValue.Num (ProblemDetailsBuilder.status this)) "status" o
        /\ required (option_map JsValue.Str (ProblemDetailsBuilder.detail this)) "detail" o
        /\ optional (ProblemDetailsBuilder.instance this) "instance" o
        /\ optional (ProblemDetailsBuilder.requestId this) "requestId" o
        /\ optional (ProblemDetailsBuilder.timestamp this) "timestamp" o
        /\ (forall key,
              ~ In key ["type"; "title"; "status"; "detail";
                        "instance"; "requestId"; "timestamp"] ->
              o key = ProblemDetailsBuilder.extensions this key)).
Proof.
  cbv zeta. unfold ProblemDetailsBuilder.build.
  destruct this as [ty ti st de ins rid ts ext].
  cbn [ProblemDetailsBuilder.type ProblemDetailsBuilder.title ProblemDetailsBuilder.status
       ProblemDetailsBuilder.detail ProblemDetailsBuilder.instance
       ProblemDetailsBuilder.requestId ProblemDetailsBuilder.timestamp
       ProblemDetailsBuilder.extensions].
  destruct ty as [[| c1 ty] |]; cbn [Js.falsy];
    [ thrown | | thrown ].
  destruct ti as [[| c2 ti] |]; cbn [Js.falsy];
    [ thrown | | thrown ].
  destruct st as [st |];
    [| thrown ].
  destruct de as [[| c3 de] |]; cbn [Js.falsy];
    [ thrown | | thrown ].
  split; [split; [discriminate | intros H; discriminate] |].
  split; [split; [discriminate | intros [_ H]; discriminate] |].
  split; [split; [discriminate | intros [_ [_ H]]; discriminate] |].
  split; [split; [discriminate | intros [_ [_ [_ H]]]; discriminate] |].
  split; [split; [intros _; repeat split; discriminate | intros _; eexists; reflexivity] |].
  intros o H.
  destruct (build_reads (ProblemDetailsBuilder.make (Some (String c1 ty)) (Some (String c2 ti))
                           (Some st) (Some (String c3 de)) ins rid ts ext) o H)
    as [Hreq [Hopt Hother]].
  cbn [ProblemDetailsBuilder.type ProblemDetailsBuilder.title ProblemDetailsBuilder.status
       ProblemDetailsBuilder.detail ProblemDetailsBuilder.instance
       ProblemDetailsBuilder.requestId ProblemDetailsBuilder.timestamp
       ProblemDetailsBuilder.extensions] in *.
  repeat split.
  - apply Hreq. cbn. tauto.
  - apply Hreq. cbn. tauto.
  - apply Hreq. cbn. tauto.
  - apply Hreq. cbn. tauto.
  - apply Hopt. cbn. tauto.
  - apply Hopt. cbn. tauto.
  - apply Hopt. cbn. tauto.
  - exact Hother.
Qed.

Lemma typeUrl_nonempty (errorCode : string) (baseUrl : option string) :
  exists c r, WholeErrorMapper.buildTypeUrl errorCode baseUrl = String c r.
Proof.
  unfold WholeErrorMapper.buildTypeUrl. cbv zeta. cbn [String.append].
  apply append_nonempty.
Qed.

Lemma withIfPresent_fields
  (setter : string -> ProblemDetailsBuilder.t -> ProblemDetailsBuilder.t)
  (field : option string) (builder : ProblemDetailsBuilder.t)
  (P : ProblemDetailsBuilder.t -> Prop) :
  P builder -> (forall s, P (setter s builder)) ->
  P (WholeErrorMapper.withIfPresent setter field builder).
Proof.
  intros Hb Hs. unfold WholeErrorMapper.withIfPresent.
  destruct field as [[| c s] |]; auto.
Qed.

(** The builder [mapUnexpectedError] and [mapBaseError] hand to [build],
    field by field. *)
Lemma optional_fields (options : ErrorMapperOptions.t) (b : ProblemDetailsBuilder.t) :
  let b' := WholeErrorMapper.withIfPresent ProblemDetailsBuilder.withRequestId
              (ErrorMapperOptions.requestId options)
              (WholeErrorMapper.withIfPresent ProblemDetailsBuilder.withInstance
                 (ErrorMapperOptions.instance options) b) in
  ProblemDetailsBuilder.type b' = ProblemDetailsBuilder.type b
  /\ ProblemDetailsBuilder.title b' = ProblemDetailsBuilder.title b
  /\ ProblemDetailsBuilder.status b' = ProblemDetailsBuilder.status b
  /\ ProblemDetailsBuilder.detail b' = ProblemDetailsBuilder.detail b
  /\ ProblemDetailsBuilder.timestamp b' = ProblemDetailsBuilder.timestamp b
  /\ ProblemDetailsBuilder.extensions b' = ProblemDetailsBuilder.extensions b
  /\ ProblemDetailsBuilder.instance b'
     = (if Js.falsy (ErrorMapperOptions.instance options)
        then ProblemDetailsBuilder.instance b
        else ErrorMapperOptions.instance options)
  /\ ProblemDetailsBuilder.requestId b'
     = (if Js.falsy (ErrorMapperOptions.requestId options)
        then ProblemDetailsBuilder.requestId b
        else ErrorMapperOptions.requestId options).
Proof.
  cbv zeta. unfold WholeErrorMapper.withIfPresent.
  destruct (ErrorMapperOptions.instance options) as [[| c s] |];
    destruct (ErrorMapperOptions.requestId options) as [[| c' s'] |];
    repeat split.
Qed.

(** X19.  In production an unexpected error leaves no trace in the response: for
    an error that is not a [BaseError] and with [includeContext] off, the
    mapper never throws and answers the same for any two errors, whatever
    their messages and stacks: status 500, the generic title and detail,
    and no [stack] property. *)
Theorem unexpected_error_opaque
  (otherErrorCode otherMessage timestamp : Error -> string)
  (stack : Error -> option string)
  (error error' : Error) (options : ErrorMapperOptions.t) (now : string) :
  isBaseError error = false ->
  isBaseError error' = false ->
  ErrorMapperOptions.includeContext options = false ->
  WholeErrorMapper.toProblemDetails otherErrorCode otherMessage timestamp stack
    error options now
  = WholeErrorMapper.toProblemDetails otherErrorCode otherMessage timestamp stack
      error' options now
  /\ exists body,
       WholeErrorMapper.toProblemDetails otherErrorCode otherMessage timestamp stack
         error options now
       = Returns body
       /\ body "status" = Some (JsValue.Num 500)
       /\ body "title" = Some (JsValue.Str "Internal Server Error")
       /\ body "detail" = Some (JsValue.Str WholeErrorMapper.genericDetail)
       /\ body "type"
          = Some (JsValue.Str (WholeErrorMapper.buildTypeUrl "internal-server-error"
                                 (ErrorMapperOptions.baseUrl options)))
       /\ body "stack" = None
       /\ forall key,
            ~ In key ["type"; "title"; "status"; "detail";
                      "instance"; "requestId"; "timestamp"] ->
            body key = None.
Proof.
  intros Hplain Hplain' Hprod.
  unfold WholeErrorMapper.toProblemDetails, WholeErrorMapper.mapUnexpectedError.
  rewrite Hplain, Hplain', Hprod. cbv zeta.
  split; [reflexivity |].
  set (b := ProblemDetailsBuilder.withTimestamp now _).
  destruct (optional_fields options b) as [Hty [Hti [Hst [Hde [Hts [Hext _]]]]]].
  cbv zeta in *.
  set (b' := WholeErrorMapper.withIfPresent _ _ _) in *.
  subst b.
  cbn [ProblemDetailsBuilder.withTimestamp ProblemDetailsBuilder.withDetail
       ProblemDetailsBuilder.withStatus ProblemDetailsBuilder.withTitle
       ProblemDetailsBuilder.withType ProblemDetailsBuilder.new
       ProblemDetailsBuilder.type ProblemDetailsBuilder.title ProblemDetailsBuilder.status
       ProblemDetailsBuilder.detail ProblemDetailsBuilder.timestamp
       ProblemDetailsBuilder.extensions] in *.
  destruct (typeUrl_nonempty "internal-server-error" (ErrorMapperOptions.baseUrl options))
    as [c [r Hurl]].
  assert (Hok : exists body, ProblemDetailsBuilder.build b' = Returns body).
  { apply build_returns_iff. rewrite Hty, Hti, Hst, Hde, Hurl.
    repeat split; discriminate. }
  destruct Hok as [body Hbuild]. exists body. split; [exact Hbuild |].
  destruct (build_reads b' body Hbuild) as [Hreq [_ Hother]].
  rewrite Hty, Hti, Hst, Hde in Hreq.
  assert (Hnone : forall key, ProblemDetailsBuilder.extensions b' key = None)
    by (intros key; rewrite Hext; reflexivity).
  split; [rewrite (Hreq "status" (Some (JsValue.Num 500))) by (cbn; tauto);
          rewrite Hnone; reflexivity |].
  split; [rewrite (Hreq "title" (Some (JsValue.Str "Internal Server Error")))
            by (cbn; tauto);
          rewrite Hnone; reflexivity |].
  split; [rewrite (Hreq "detail" (Some (JsValue.Str WholeErrorMapper.genericDetail)))
            by (cbn; tauto);
          rewrite Hnone; reflexivity |].
  split; [rewrite (Hreq "type" _ (or_introl eq_refl)); rewrite Hnone; reflexivity |].
  split; [rewrite Hother by (cbn; intuition discriminate); apply Hnone |].
  intros key Hkey. rewrite (Hother key Hkey). apply Hnone.
Qed.

Lemma unexpected_error_opaque_witness :
  WholeErrorMapper.toProblemDetails (fun _ => "") (fun _ => "") (fun _ => "")
    (fun _ => Some "at handler (app.js:1:1)")
    (PlainError "connect ECONNREFUSED 10.0.0.5:5432")
    (ErrorMapperOptions.make (Some "/api/v1/users") (Some "req-1") false None)
    "2026-01-01T00:00:00.000Z"
  = WholeErrorMapper.toProblemDetails (fun _ => "") (fun _ => "") (fun _ => "")
      (fun _ => Some "at handler (app.js:1:1)")
      (PlainError "")
      (ErrorMapperOptions.make (Some "/api/v1/users") (Some "req-1") false None)
      "2026-01-01T00:00:00.000Z".
Proof.
  exact (proj1 (unexpected_error_opaque (fun _ => "") (fun _ => "") (fun _ => "")
                  (fun _ => Some "at handler (app.js:1:1)")
                  (PlainError "connect ECONNREFUSED 10.0.0.5:5432") (PlainError "")
                  (ErrorMapperOptions.make (Some "/api/v1/users") (Some "req-1") false None)
                  "2026-01-01T00:00:00.000Z" eq_refl eq_refl eq_refl)).
Defined.

(** X20.  In development the message and the stack of an unexpected error are
    shown, and an error with an empty message cannot be mapped: with
    [includeContext] on, the mapper throws [detail is required] exactly when
    the message of the error is empty; otherwise it answers 500 with the
    message as detail, and with the stack exactly when the error has a
    non-empty one. *)
Theorem unexpected_error_development
  (otherErrorCode otherMessage timestamp : Error -> string)
  (stack : Error -> option string)
  (text : string) (options : ErrorMapperOptions.t) (now : string) :
  ErrorMapperOptions.includeContext options = true ->
  let answer :=
    WholeErrorMapper.toProblemDetails otherErrorCode otherMessage timestamp stack
      (PlainError text) options now in
  (answer = Throws "ProblemDetailsBuilder: detail is required" <-> text = "")
  /\ ((exists body, answer = Returns body) <-> text <> "")
  /\ (forall body,
        answer = Returns body ->
        body "status" = Some (JsValue.Num 500)
        /\ body "detail" = Some (JsValue.Str text)
        /\ body "stack" = (if Js.falsy (stack (PlainError text)) then None
                           else option_map JsValue.Str (stack (PlainError text)))).
Proof.
  intros Hdev. cbv zeta.
  unfold WholeErrorMapper.toProblemDetails, WholeErrorMapper.mapUnexpectedError.
  cbn [isBaseError]. rewrite Hdev. cbv zeta. cbn [WholeErrorMapper.message].
  set (b := ProblemDetailsBuilder.withTimestamp now _).
  destruct (optional_fields options b) as [Hty [Hti [Hst [Hde [Hts [Hext _]]]]]].
  cbv zeta in *.
  set (b' := WholeErrorMapper.withIfPresent _ (ErrorMapperOptions.requestId options) _) in *.
  set (b'' := WholeErrorMapper.withIfPresent _ (stack (PlainError text)) b').
  assert (Hfields :
    ProblemDetailsBuilder.type b'' = ProblemDetailsBuilder.type b'
    /\ ProblemDetailsBuilder.title b'' = ProblemDetailsBuilder.title b'
    /\ ProblemDetailsBuilder.status b'' = ProblemDetailsBuilder.status b'
    /\ ProblemDetailsBuilder.detail b'' = ProblemDetailsBuilder.detail b'
    /\ forall key,
         ProblemDetailsBuilder.extensions b'' key
         = if String.eqb key "stack"
           then (if Js.falsy (stack (PlainError text)) then None
                 else option_map JsValue.Str (stack (PlainError text)))
           else None).
  { subst b''. unfold WholeErrorMapper.withIfPresent.
    destruct (stack (PlainError text)) as [[| c s] |]; cbn [Js.falsy option_map];
      repeat split; intros key; rewrite ?Hext; subst b;
      cbn [ProblemDetailsBuilder.withExtension ProblemDetailsBuilder.extensions
           ProblemDetailsBuilder.withTimestamp ProblemDetailsBuilder.withDetail
           ProblemDetailsBuilder.withStatus ProblemDetailsBuilder.withTitle
           ProblemDetailsBuilder.withType ProblemDetailsBuilder.new];
      unfold JsObject.set, JsObject.empty; try rewrite Hext;
      destruct (String.eqb key "stack"); reflexivity. }
  destruct Hfields as [Hty' [Hti' [Hst' [Hde' Hext']]]].
  subst b.
  cbn [ProblemDetailsBuilder.withTimestamp ProblemDetailsBuilder.withDetail
       ProblemDetailsBuilder.withStatus ProblemDetailsBuilder.withTitle
       ProblemDetailsBuilder.withType ProblemDetailsBuilder.new
       ProblemDetailsBuilder.type ProblemDetailsBuilder.title ProblemDetailsBuilder.status
       ProblemDetailsBuilder.detail ProblemDetailsBuilder.timestamp
       ProblemDetailsBuilder.extensions] in *.
  rewrite Hty in Hty'. rewrite Hti in Hti'. rewrite Hst in Hst'. rewrite Hde in Hde'.
  destruct (typeUrl_nonempty "internal-server-error" (ErrorMapperOptions.baseUrl options))
    as [c [r Hurl]].
  assert (Hthrow : text = "" ->
                   ProblemDetailsBuilder.build b''
                   = Throws "ProblemDetailsBuilder: detail is required").
  { intros ->. unfold ProblemDetailsBuilder.build.
    rewrite Hty', Hti', Hst', Hde', Hurl. reflexivity. }
  assert (Hreturn : text <> "" -> exists body, ProblemDetailsBuilder.build b'' = Returns body).
  { intros Hne. apply build_returns_iff. rewrite Hty', Hti', Hst', Hde', Hurl.
    repeat split; try discriminate. destruct text; [now elim Hne | reflexivity]. }
  split; [| split].
  - split; [| exact Hthrow].
    intros Hth. destruct text as [| c0 text0]; [reflexivity |].
    destruct Hreturn as [body Hb]; [discriminate |]. congruence.
  - split; [| exact Hreturn].
    intros [body Hb] ->. rewrite (Hthrow eq_refl) in Hb. discriminate.
  - intros body Hbuild.
    destruct (build_reads b'' body Hbuild) as [Hreq [_ Hother]].
    rewrite Hty', Hti', Hst', Hde' in Hreq.
    split; [rewrite (Hreq "status" (Some (JsValue.Num 500))) by (cbn; tauto);
            rewrite Hext'; reflexivity |].
    split; [rewrite (Hreq "detail" (Some (JsValue.Str text))) by (cbn; tauto);
            rewrite Hext'; reflexivity |].
    rewrite Hother by (cbn; intuition discriminate). rewrite Hext'. reflexivity.
Qed.

Lemma unexpected_error_development_witness :
  WholeErrorMapper.toProblemDetails (fun _ => "") (fun _ => "") (fun _ => "")
    (fun _ => None) (PlainError "")
    (ErrorMapperOptions.make (Some "/api/v1/users") (Some "req-1") true None)
    "2026-01-01T00:00:00.000Z"
  = Throws "ProblemDetailsBuilder: detail is required".
Proof.
  apply (proj1 (unexpected_error_development (fun _ => "") (fun _ => "") (fun _ => "")
                  (fun _ => None) ""
                  (ErrorMapperOptions.make (Some "/api/v1/users") (Some "req-1") true None)
                  "2026-01-01T00:00:00.000Z" eq_refl)).
  reflexivity.
Defined.

Lemma withContext_other (context : ErrorContext.t) (o : JsObject.t) (key : string) :
  ~ In key ["aggregateType"; "aggregateId"; "operation"; "userId"; "metadata"] ->
  WholeErrorMapper.withContext context o key = o key.
Proof.
  intros Hkey.
  assert (Hne : forall k, In k ["aggregateType"; "aggregateId"; "operation";
                                "userId"; "metadata"] ->
                          String.eqb key k = false).
  { intros k Hk. apply String.eqb_neq. intros ->. exact (Hkey Hk). }
  unfold WholeErrorMapper.withContext. cbv zeta.
  destruct (ErrorContext.metadata context);
    unfold JsObject.set; rewrite ?Hne by (cbn; tauto);
    rewrite !setIfPresent_other by (apply Hne; cbn; tauto); reflexivity.
Qed.

Lemma withContext_reads (context : ErrorContext.t) (o : JsObject.t) :
  (forall key field,
     In (key, field)
        [("aggregateType", ErrorContext.aggregateType context);
         ("aggregateId", ErrorContext.aggregateId context);
         ("operation", ErrorContext.operation context);
         ("userId", ErrorContext.userId context)] ->
     WholeErrorMapper.withContext context o key
     = if Js.falsy field then o key else option_map JsValue.Str field)
  /\ WholeErrorMapper.withContext context o "metadata"
     = match ErrorContext.metadata context with
       | Some metadata => Some (JsValue.Fields metadata)
       | None => o "metadata"
       end.
Proof.
  unfold WholeErrorMapper.withContext. cbv zeta. split.
  - intros key field Hin. cbn [In] in Hin.
    destruct Hin as [Heq | [Heq | [Heq | [Heq | []]]]]; inversion Heq; subst; clear Heq;
      destruct (ErrorContext.metadata context);
      unfold JsObject.set; cbn [String.eqb Ascii.eqb Bool.eqb];
      rewrite ?setIfPresent_other by reflexivity;
      rewrite setIfPresent_same;
      rewrite ?setIfPresent_other by reflexivity;
      match goal with
      | |- context [Js.falsy ?f] => destruct f as [[| c s] |]; reflexivity
      end.
  - destruct (ErrorContext.metadata context).
    + unfold JsObject.set. reflexivity.
    + rewrite !setIfPresent_other by reflexivity. reflexivity.
Qed.

Lemma classExtensions_reads (error : Error) :
  let o := fold_left (fun o kv => JsObject.set (fst kv) (JsValue.Str (snd kv)) o)
             (ErrorMapper.getErrorExtensions error) JsObject.empty in
  (forall key value, In (key, value) (ErrorMapper.getErrorExtensions error) ->
                     o key = Some (JsValue.Str value))
  /\ (forall key, ~ In key ["field"; "reason"; "entityType"; "entityId"; "action"; "resource"]
                  -> o key = None).
Proof.
  cbv zeta. split.
  - intros key value Hin.
    destruct error; cbn [ErrorMapper.getErrorExtensions In] in Hin;
      repeat match goal with
             | H : _ \/ _ |- _ => destruct H
             | H : False |- _ => destruct H
             | H : (_, _) = (_, _) |- _ => inversion H; subst; clear H
             end;
      reflexivity.
  - intros key Hkey.
    assert (Hne : forall k, In k ["field"; "reason"; "entityType"; "entityId";
                                  "action"; "resource"] ->
                            String.eqb key k = false).
    { intros k Hk. apply String.eqb_neq. intros ->. exact (Hkey Hk). }
    destruct error; cbn [ErrorMapper.getErrorExtensions fold_left fst snd];
      unfold JsObject.set, JsObject.empty;
      rewrite ?Hne by (cbn; tauto); reflexivity.
Qed.

Lemma extension_keys (k : string) (value : string) (error : Error) :
  In (k, value) (ErrorMapper.getErrorExtensions error) ->
  In k ["field"; "reason"; "entityType"; "entityId"; "action"; "resource"].
Proof.
  destruct error; cbn [ErrorMapper.getErrorExtensions In]; intros H;
    repeat match goal with
           | H : _ \/ _ |- _ => destruct H
           | H : False |- _ => destruct H
           | H : (_, _) = (_, _) |- _ => inversion H; subst; clear H
           end;
    cbn; tauto.
Qed.

(** What [getErrorExtensions] holds. *)
Lemma getErrorExtensions_reads (error : Error) (includeContext : bool) :
  let o := WholeErrorMapper.getErrorExtensions error includeContext in
  (forall key value, In (key, value) (ErrorMapper.getErrorExtensions error) ->
                     o key = Some (JsValue.Str value))
  /\ (forall key,
        ~ In key ["field"; "reason"; "entityType"; "entityId"; "action"; "resource";
                  "aggregateType"; "aggregateId"; "operation"; "userId"; "metadata"] ->
        o key = None)
  /\ (forall key,
        In key ["aggregateType"; "aggregateId"; "operation"; "userId"; "metadata"] ->
        includeContext = false \/ contextOf error = None ->
        o key = None)
  /\ (forall context,
        includeContext = true -> contextOf error = Some context ->
        (forall key field,
           In (key, field)
              [("aggregateType", ErrorContext.aggregateType context);
               ("aggregateId", ErrorContext.aggregateId context);
               ("operation", ErrorContext.operation context);
               ("userId", ErrorContext.userId context)] ->
           o key = if Js.falsy field then None else option_map JsValue.Str field)
        /\ o "metadata" = option_map JsValue.Fields (ErrorContext.metadata context)).
Proof.
  cbv zeta. unfold WholeErrorMapper.getErrorExtensions. cbv zeta.
  destruct (classExtensions_reads error) as [Hclass Hnone]. cbv zeta in *.
  set (o := fold_left _ _ _) in *.
  assert (Hctx : forall key,
            In key ["aggregateType"; "aggregateId"; "operation"; "userId"; "metadata"] ->
            o key = None).
  { intros key Hkey. apply Hnone. cbn in *. intuition (subst; discriminate). }
  split; [| split; [| split]].
  - intros key value Hin.
    assert (Hk := extension_keys _ _ _ Hin).
    destruct includeContext; [| exact (Hclass _ _ Hin)].
    destruct (contextOf error) as [context |]; [| exact (Hclass _ _ Hin)].
    rewrite withContext_other; [exact (Hclass _ _ Hin) |].
    cbn in *. intuition (subst; discriminate).
  - intros key Hkey.
    assert (o key = None) by (apply Hnone; cbn in *; tauto).
    destruct includeContext; [| assumption].
    destruct (contextOf error) as [context |]; [| assumption].
    rewrite withContext_other; [assumption | cbn in *; tauto].
  - intros key Hkey [-> | Hno]; [exact (Hctx key Hkey) |].
    rewrite Hno. destruct includeContext; exact (Hctx key Hkey).
  - intros context -> ->.
    destruct (withContext_reads context o) as [Hfields Hmeta].
    split.
    + intros key field Hin. rewrite (Hfields key field Hin).
      rewrite Hctx; [reflexivity |].
      cbn [In] in Hin.
      destruct Hin as [Heq | [Heq | [Heq | [Heq | []]]]]; inversion Heq; cbn; tauto.
    + rewrite Hmeta. rewrite (Hctx "metadata") by (cbn; tauto).
      destruct (ErrorContext.metadata context); reflexivity.
Qed.

Lemma falsy_some (s : string) : Js.falsy (Some s) = true <-> s = "".
Proof. destruct s; cbn; split; congruence. Qed.

(** The builder [mapBaseError] hands to [build]. *)
Lemma mapBaseError_builder
  (otherErrorCode otherMessage timestamp : Error -> string)
  (error : Error) (options : ErrorMapperOptions.t) :
  exists builder,
    WholeErrorMapper.mapBaseError otherErrorCode otherMessage timestamp error options
    = ProblemDetailsBuilder.build builder
    /\ ProblemDetailsBuilder.type builder
       = Some (WholeErrorMapper.buildTypeUrl
                 (WholeErrorMapper.errorCode otherErrorCode error)
                 (ErrorMapperOptions.baseUrl options))
    /\ ProblemDetailsBuilder.title builder
       = Some (WholeErrorMapper.getTitle (WholeErrorMapper.errorCode otherErrorCode error))
    /\ ProblemDetailsBuilder.status builder = Some (httpStatus error)
    /\ ProblemDetailsBuilder.detail builder
       = Some (WholeErrorMapper.message otherMessage error)
    /\ ProblemDetailsBuilder.timestamp builder = Some (timestamp error)
    /\ ProblemDetailsBuilder.instance builder
       = (if Js.falsy (ErrorMapperOptions.instance options) then None
          else ErrorMapperOptions.instance options)
    /\ ProblemDetailsBuilder.requestId builder
       = (if Js.falsy (ErrorMapperOptions.requestId options) then None
          else ErrorMapperOptions.requestId options)
    /\ forall key,
         ProblemDetailsBuilder.extensions builder key
         = WholeErrorMapper.getErrorExtensions error
             (ErrorMapperOptions.includeContext options) key.
Proof.
  unfold WholeErrorMapper.mapBaseError. cbv zeta.
  set (b := ProblemDetailsBuilder.withTimestamp _ _).
  destruct (optional_fields options b) as [Hty [Hti [Hst [Hde [Hts [Hext [Hins Hrid]]]]]]].
  cbv zeta in *.
  set (b' := WholeErrorMapper.withIfPresent _ (ErrorMapperOptions.requestId options) _) in *.
  eexists. split; [reflexivity |].
  cbn [ProblemDetailsBuilder.withExtensions ProblemDetailsBuilder.type
       ProblemDetailsBuilder.title ProblemDetailsBuilder.status ProblemDetailsBuilder.detail
       ProblemDetailsBuilder.timestamp ProblemDetailsBuilder.instance
       ProblemDetailsBuilder.requestId ProblemDetailsBuilder.extensions].
  rewrite Hty, Hti, Hst, Hde, Hts, Hext, Hins, Hrid. subst b.
  repeat split.
  intros key. unfold JsObject.assign.
  destruct (WholeErrorMapper.getErrorExtensions _ _ key); reflexivity.
Qed.


Lemma mapBaseError_reads
  (otherErrorCode otherMessage timestamp : Error -> string)
  (error : Error) (options : ErrorMapperOptions.t) (body : JsObject.t) :
  WholeErrorMapper.mapBaseError otherErrorCode otherMessage timestamp error options
  = Returns body ->
  body "status" = Some (JsValue.Num (httpStatus error))
  /\ body "type"
     = Some (JsValue.Str
               (WholeErrorMapper.buildTypeUrl
                  (WholeErrorMapper.errorCode otherErrorCode error)
                  (ErrorMapperOptions.baseUrl options)))
  /\ body "title"
     = Some (JsValue.Str
               (WholeErrorMapper.getTitle (WholeErrorMapper.errorCode otherErrorCode error)))
  /\ body "detail" = Some (JsValue.Str (WholeErrorMapper.message otherMessage error))
  /\ body "instance"
     = (if Js.falsy (ErrorMapperOptions.instance options) then None
        else option_map JsValue.Str (ErrorMapperOptions.instance options))
  /\ body "requestId"
     = (if Js.falsy (ErrorMapperOptions.requestId options) then None
        else option_map JsValue.Str (ErrorMapperOptions.requestId options))
  /\ (forall key,
        In key ["field"; "reason"; "entityType"; "entityId"; "action"; "resource";
                "aggregateType"; "aggregateId"; "operation"; "userId"; "metadata"] ->
        body key = WholeErrorMapper.getErrorExtensions error
                     (ErrorMapperOptions.includeContext options) key).
Proof.
  destruct (mapBaseError_builder otherErrorCode otherMessage timestamp error options)
    as [b [Hmap [Hty [Hti [Hst [Hde [Hts [Hins [Hrid Hext]]]]]]]]].
  rewrite Hmap. intros Hbuild.
  destruct (build_reads b body Hbuild) as [Hreq [Hopt Hother]].
  rewrite Hty, Hti, Hst, Hde in Hreq. cbn [option_map] in Hreq.
  rewrite Hins, Hrid in Hopt.
  destruct (getErrorExtensions_reads error (ErrorMapperOptions.includeContext options))
    as [_ [Hnone _]].
  cbv zeta in *.
  assert (Hstd : forall key, In key ["type"; "title"; "status"; "detail";
                                     "instance"; "requestId"; "timestamp"] ->
                             ProblemDetailsBuilder.extensions b key = None).
  { intros key Hkey. rewrite Hext. apply Hnone.
    cbn in *. intuition (subst; discriminate). }
  split; [rewrite (Hreq "status" _ ltac:(cbn; tauto)), Hstd by (cbn; tauto);
          reflexivity |].
  split; [rewrite (Hreq "type" _ ltac:(cbn; tauto)), Hstd by (cbn; tauto);
          reflexivity |].
  split; [rewrite (Hreq "title" _ ltac:(cbn; tauto)), Hstd by (cbn; tauto);
          reflexivity |].
  split; [rewrite (Hreq "detail" _ ltac:(cbn; tauto)), Hstd by (cbn; tauto);
          reflexivity |].
  split; [rewrite (Hopt "instance" _ ltac:(cbn; tauto)), Hstd by (cbn; tauto);
          destruct (ErrorMapperOptions.instance options) as [[| c s] |]; reflexivity |].
  split; [rewrite (Hopt "requestId" _ ltac:(cbn; tauto)), Hstd by (cbn; tauto);
          destruct (ErrorMapperOptions.requestId options) as [[| c s] |]; reflexivity |].
  intros key Hkey. rewrite Hother; [apply Hext |].
  cbn in *. intuition (subst; discriminate).
Qed.



Lemma mapUnexpectedError_cases
  (otherMessage : Error -> string) (stack : Error -> option string)
  (error : Error) (options : ErrorMapperOptions.t) (now : string) :
  let answer := WholeErrorMapper.mapUnexpectedError otherMessage stack error options now in
  (ErrorMapperOptions.includeContext options = true
   /\ WholeErrorMapper.message otherMessage error = ""
   /\ answer = Throws "ProblemDetailsBuilder: detail is required")
  \/ exists body,
       answer = Returns body
       /\ body "status" = Some (JsValue.Num 500)
       /\ body "instance"
          = (if Js.falsy (ErrorMapperOptions.instance options) then None
             else option_map JsValue.Str (ErrorMapperOptions.instance options))
       /\ body "requestId"
          = (if Js.falsy (ErrorMapperOptions.requestId options) then None
             else option_map JsValue.Str (ErrorMapperOptions.requestId options)).
Proof.
  cbv zeta. unfold WholeErrorMapper.mapUnexpectedError. cbv zeta.
  set (b := ProblemDetailsBuilder.withTimestamp now _).
  destruct (optional_fields options b) as [Hty [Hti [Hst [Hde [Hts [Hext [Hins Hrid]]]]]]].
  cbv zeta in *.
  set (b' := WholeErrorMapper.withIfPresent _ (ErrorMapperOptions.requestId options) _) in *.
  set (b'' := if ErrorMapperOptions.includeContext options then _ else b').
  assert (Hfields :
    ProblemDetailsBuilder.type b'' = ProblemDetailsBuilder.type b'
    /\ ProblemDetailsBuilder.title b'' = ProblemDetailsBuilder.title b'
    /\ ProblemDetailsBuilder.status b'' = ProblemDetailsBuilder.status b'
    /\ ProblemDetailsBuilder.detail b'' = ProblemDetailsBuilder.detail b'
    /\ ProblemDetailsBuilder.instance b'' = ProblemDetailsBuilder.instance b'
    /\ ProblemDetailsBuilder.requestId b'' = ProblemDetailsBuilder.requestId b'
    /\ forall key, String.eqb key "stack" = false ->
                   ProblemDetailsBuilder.extensions b'' key = None).
  { subst b''. unfold WholeErrorMapper.withIfPresent.
    destruct (ErrorMapperOptions.includeContext options);
      [destruct (stack error) as [[| c s] |] |];
      repeat split; intros key Hkey; rewrite ?Hext; subst b;
      cbn [ProblemDetailsBuilder.withExtension ProblemDetailsBuilder.extensions
           ProblemDetailsBuilder.withTimestamp ProblemDetailsBuilder.withDetail
           ProblemDetailsBuilder.withStatus ProblemDetailsBuilder.withTitle
           ProblemDetailsBuilder.withType ProblemDetailsBuilder.new];
      unfold JsObject.set, JsObject.empty; rewrite ?Hext, ?Hkey; reflexivity. }
  destruct Hfields as [Hty' [Hti' [Hst' [Hde' [Hins' [Hrid' Hext']]]]]].
  subst b.
  cbn [ProblemDetailsBuilder.withTimestamp ProblemDetailsBuilder.withDetail
       ProblemDetailsBuilder.withStatus ProblemDetailsBuilder.withTitle
       ProblemDetailsBuilder.withType ProblemDetailsBuilder.new
       ProblemDetailsBuilder.type ProblemDetailsBuilder.title ProblemDetailsBuilder.status
       ProblemDetailsBuilder.detail ProblemDetailsBuilder.timestamp
       ProblemDetailsBuilder.instance ProblemDetailsBuilder.requestId
       ProblemDetailsBuilder.extensions] in *.
  rewrite Hty in Hty'. rewrite Hti in Hti'. rewrite Hst in Hst'. rewrite Hde in Hde'.
  rewrite Hins in Hins'. rewrite Hrid in Hrid'.
  destruct (typeUrl_nonempty "internal-server-error" (ErrorMapperOptions.baseUrl options))
    as [c [r Hurl]].
  destruct (ProblemDetailsBuilder.build b'') as [body | msg] eqn:Hbuild.
  - right. exists body. split; [reflexivity |].
    destruct (build_reads b'' body Hbuild) as [Hreq [Hopt _]].
    rewrite Hst' in Hreq. rewrite Hins', Hrid' in Hopt.
    split; [rewrite (Hreq "status" _ ltac:(cbn; tauto)), Hext' by reflexivity;
            reflexivity |].
    split; [rewrite (Hopt "instance" _ ltac:(cbn; tauto)), Hext' by reflexivity;
            destruct (ErrorMapperOptions.instance options) as [[| c0 s] |]; reflexivity |].
    rewrite (Hopt "requestId" _ ltac:(cbn; tauto)), Hext' by reflexivity.
    destruct (ErrorMapperOptions.requestId options) as [[| c0 s] |]; reflexivity.
  - left. unfold ProblemDetailsBuilder.build in Hbuild.
    rewrite Hty', Hti', Hst', Hde', Hurl in Hbuild.
    destruct (ErrorMapperOptions.includeContext options); [| discriminate].
    destruct (WholeErrorMapper.message otherMessage error); [| discriminate].
    inversion Hbuild. repeat split.
Qed.


(** X23.  The handler for unknown routes always answers, and answers 404 in the
    status line and in the body, with the title [Route Not Found], a detail
    that names the method and the path, and the URL and id of the request
    when they are not empty; it adds no other property than these and the
    type and the time. *)
Theorem not_found_reply (apiBaseUrl : option string) (req : HttpRequest.t) (now : string) :
  exists body,
    NotFoundMiddleware_handle apiBaseUrl req now
    = Returns (Sent 404 "application/problem+json" body)
    /\ body "status" = Some (JsValue.Num 404)
    /\ body "title" = Some (JsValue.Str "Route Not Found")
    /\ body "detail"
       = Some (JsValue.Str
                 (String.append "Route "
                    (String.append (HttpRequest.method req)
                       (String.append " "
                          (String.append (HttpRequest.path req) " does not exist")))))
    /\ body "instance"
       = (if String.eqb (HttpRequest.originalUrl req) "" then None
          else Some (JsValue.Str (HttpRequest.originalUrl req)))
    /\ body "requestId"
       = (if String.eqb (HttpRequest.id req) "" then None
          else Some (JsValue.Str (HttpRequest.id req)))
    /\ body "timestamp" = (if String.eqb now "" then None else Some (JsValue.Str now))
    /\ forall key,
         ~ In key ["type"; "title"; "status"; "detail";
                   "instance"; "requestId"; "timestamp"] ->
         body key = None.
Proof.
  unfold NotFoundMiddleware_handle. cbv zeta.
  set (b := ProblemDetailsBuilder.withTimestamp now _).
  assert (Hok : exists body, ProblemDetailsBuilder.build b = Returns body).
  { apply build_returns_iff. subst b.
    destruct apiBaseUrl as [[| a s] |]; cbn; repeat split; discriminate. }
  destruct Hok as [body Hbuild]. rewrite Hbuild. exists body. split; [reflexivity |].
  destruct (build_reads b body Hbuild) as [Hreq [Hopt Hother]].
  subst b.
  cbn [ProblemDetailsBuilder.withTimestamp ProblemDetailsBuilder.withRequestId
       ProblemDetailsBuilder.withInstance ProblemDetailsBuilder.withDetail
       ProblemDetailsBuilder.withStatus ProblemDetailsBuilder.withTitle
       ProblemDetailsBuilder.withType ProblemDetailsBuilder.new
       ProblemDetailsBuilder.type ProblemDetailsBuilder.title ProblemDetailsBuilder.status
       ProblemDetailsBuilder.detail ProblemDetailsBuilder.timestamp
       ProblemDetailsBuilder.instance ProblemDetailsBuilder.requestId
       ProblemDetailsBuilder.extensions] in *.
  unfold JsObject.empty in *.
  split; [exact (Hreq "status" _ ltac:(cbn; tauto)) |].
  split; [exact (Hreq "title" _ ltac:(cbn; tauto)) |].
  split; [exact (Hreq "detail" _ ltac:(cbn; tauto)) |].
  split; [rewrite (Hopt "instance" _ ltac:(cbn; tauto));
          destruct (HttpRequest.originalUrl req); reflexivity |].
  split; [rewrite (Hopt "requestId" _ ltac:(cbn; tauto));
          destruct (HttpRequest.id req); reflexivity |].
  split; [rewrite (Hopt "timestamp" _ ltac:(cbn; tauto)); destruct now; reflexivity |].
  exact Hother.
Qed.

(** ** The console logger *)

(** X24.  The level filter of [ConsoleLogger].  A call is written exactly when
    its level is not below the configured one, by the console method of its
    own level; so [error] is written whatever the configuration and [debug]
    only when the configured level is [debug].  Lowering the configured
    level never loses or changes what is written.  The text starts with the
    colour of the level, the time in brackets, the level in capitals padded
    to five characters, and the message. *)
Theorem console_logger_filter (stringify : list (string * string) -> string)
  (minLevel level : LogLevel.t) (message : string)
  (error : option (string * option string)) (meta : option (list (string * string)))
  (now : string) :
  let written := ConsoleLogger.log stringify minLevel level message error meta now in
  ((exists w, written = Some w)
   <-> (ConsoleLogger.logLevels minLevel <= ConsoleLogger.logLevels level)%Z)
  /\ (forall w,
        written = Some w ->
        ConsoleLogger.method w = level
        /\ (forall lower,
              (ConsoleLogger.logLevels lower <= ConsoleLogger.logLevels minLevel)%Z ->
              ConsoleLogger.log stringify lower level message error meta now = Some w)
        /\ exists tag rest,
             In tag ["DEBUG"; "INFO "; "WARN "; "ERROR"]
             /\ tag = ConsoleLogger.padEnd 5 (JsString.toUpperCase (LogLevel.name level))
             /\ ConsoleLogger.text w
                = String.append (ConsoleLogger.colors level)
                    (String.append "["
                       (String.append now
                          (String.append "] "
                             (String.append tag
                                (String.append ConsoleLogger.colors_reset
                                   (String.append " " (String.append message rest))))))))
  /\ (exists w, ConsoleLogger.error stringify minLevel message error meta now = Some w)
  /\ ((exists w, ConsoleLogger.debug stringify minLevel message meta now = Some w)
      <-> minLevel = LogLevel.debug).
Proof.
  cbv zeta. split; [| split; [| split]].
  - unfold ConsoleLogger.log.
    destruct (Z.ltb_spec (ConsoleLogger.logLevels level) (ConsoleLogger.logLevels minLevel)).
    + split; [intros [w Hw]; discriminate | lia].
    + split; [intros _; assumption | intros _; eexists; reflexivity].
  - intros w Hw. unfold ConsoleLogger.log in Hw.
    destruct (Z.ltb_spec (ConsoleLogger.logLevels level) (ConsoleLogger.logLevels minLevel))
      as [Hlt | Hge]; [discriminate |].
    inversion Hw; subst w; clear Hw. cbn [ConsoleLogger.method ConsoleLogger.text].
    split; [reflexivity |]. split.
    + intros lower Hlower. unfold ConsoleLogger.log.
      destruct (Z.ltb_spec (ConsoleLogger.logLevels level) (ConsoleLogger.logLevels lower));
        [lia | reflexivity].
    + exists (ConsoleLogger.padEnd 5 (JsString.toUpperCase (LogLevel.name level))).
      assert (Happ : forall a b c : string,
                String.append (String.append a b) c = String.append a (String.append b c)).
      { intros a b c. induction a as [| x a IH]; cbn; [reflexivity | now rewrite IH]. }
      assert (Hnil : forall a : string, String.append a "" = a).
      { intros a. induction a as [| x a IH]; cbn; [reflexivity | now rewrite IH]. }
      exists (String.append
                (match meta with
                 | Some (entry :: entries) =>
                     String.append ConsoleLogger.newline
                       (String.append "  " (stringify (entry :: entries)))
                 | _ => ""
                 end)
                (match error with
                 | Some (errorMessage, stack) =>
                     String.append ConsoleLogger.newline
                       (String.append "  Error: "
                          (String.append errorMessage
                             (match stack with
                              | None | Some EmptyString => ""
                              | Some stack' =>
                                  String.append ConsoleLogger.newline
                                    (String.append "  Stack: " stack')
                              end)))
                 | None => ""
                 end)).
      split; [destruct level; cbn; tauto |]. split; [reflexivity |].
      unfold ConsoleLogger.colors_reset, ConsoleLogger.newline, ConsoleLogger.escape.
      destruct meta as [[| entry entries] |];
        destruct error as [[errorMessage [[| c stack] |]] |];
        cbn [String.concat];
        repeat first [rewrite Happ | rewrite Hnil | progress cbn [String.append]];
        reflexivity.
  - unfold ConsoleLogger.error, ConsoleLogger.log.
    destruct minLevel; cbn; eexists; reflexivity.
  - unfold ConsoleLogger.debug, ConsoleLogger.log.
    destruct minLevel; cbn; split; intros H; try reflexivity; try discriminate;
      try (destruct H; discriminate); eexists; reflexivity.
Qed.

(** ** The request id, from the first handler to the error response *)

(** X25.  The id [RequestIdMiddleware] attaches is the value of the configured
    request header when the client sent a non-empty one, and the fresh UUID
    otherwise; it is also the [X-Request-ID] header of the response.  With a
    non-empty UUID the id is never empty, and every response the error
    handler or the handler for unknown routes then sends for this request
    carries it as [requestId]. *)
Theorem request_id_reaches_problem_body
  (otherErrorCode otherMessage timestamp : Error -> string)
  (stack : Error -> option string) (isOperational : Error -> bool)
  (isDevelopment : bool) (apiBaseUrl : option string)
  (headerName : string) (headers : string -> option string) (uuid : string)
  (req : HttpRequest.t) (error : Error) (now : string) :
  uuid <> "" ->
  let identified := fst (RequestIdMiddleware_handle headerName headers uuid req) in
  let responseHeader := snd (RequestIdMiddleware_handle headerName headers uuid req) in
  HttpRequest.id identified <> ""
  /\ responseHeader = ("X-Request-ID", HttpRequest.id identified)
  /\ HttpRequest.id identified
     = (if Js.falsy (headers headerName) then uuid
        else match headers headerName with Some given => given | None => uuid end)
  /\ (forall status contentType body logged,
        ErrorHandlerMiddleware_handle_whole otherErrorCode otherMessage timestamp stack
          isOperational isDevelopment apiBaseUrl error identified false now
        = Returns (Sent status contentType body, logged) ->
        body "requestId" = Some (JsValue.Str (HttpRequest.id identified)))
  /\ (forall status contentType body,
        NotFoundMiddleware_handle apiBaseUrl identified now
        = Returns (Sent status contentType body) ->
        body "requestId" = Some (JsValue.Str (HttpRequest.id identified))).
Proof.
  intros Huuid. cbv zeta.
  unfold RequestIdMiddleware_handle. cbv zeta. cbn [fst snd HttpRequest.id].
  match goal with |- ?x <> "" /\ _ => set (id := x) end.
  assert (Hid : id <> "").
  { subst id. destruct (headers headerName) as [[| c s] |]; try exact Huuid. discriminate. }
  assert (Hread : (if Js.falsy (Some id) then None else option_map JsValue.Str (Some id))
                  = Some (JsValue.Str id)).
  { destruct id; [now elim Hid | reflexivity]. }
  split; [exact Hid |]. split; [reflexivity |].
  split; [subst id; destruct (headers headerName) as [[| c s] |]; reflexivity |].
  split.
  - intros status contentType body logged.
    unfold ErrorHandlerMiddleware_handle_whole, WholeErrorMapper.toProblemDetails.
    cbn [HttpRequest.id HttpRequest.originalUrl].
    set (options := ErrorMapperOptions.make _ _ _ _).
    destruct (isBaseError error).
    + pose proof (mapBaseError_reads otherErrorCode otherMessage timestamp error options)
        as Hreads.
      destruct (WholeErrorMapper.mapBaseError _ _ _ _ _) as [body' | msg]; [| discriminate].
      destruct (Hreads body' eq_refl) as [Hst [_ [_ [_ [_ [Hr _]]]]]].
      rewrite Hst. intros H. inversion H; subst. rewrite Hr. exact Hread.
    + destruct (mapUnexpectedError_cases otherMessage stack error options now)
        as [[_ [_ Hthrow]] | [body' [Hret [Hst [_ Hr]]]]].
      * rewrite Hthrow. discriminate.
      * rewrite Hret, Hst. intros H. inversion H; subst. rewrite Hr. exact Hread.
  - intros status contentType body.
    unfold NotFoundMiddleware_handle. cbv zeta. cbn [HttpRequest.id].
    set (b := ProblemDetailsBuilder.withTimestamp now _).
    destruct (ProblemDetailsBuilder.build b) as [body' | msg] eqn:Hbuild; [| discriminate].
    intros H. inversion H; subst.
    destruct (build_reads b body Hbuild) as [_ [Hopt _]].
    rewrite (Hopt "requestId" (Some id)); [exact Hread |].
    subst b. cbn. tauto.
Qed.

Lemma request_id_reaches_problem_body_witness :
  HttpRequest.id
    (fst (RequestIdMiddleware_handle "x-request-id" (fun _ => Some "")
            "3f0c1a52-7a8e-4a57-9d0b-0d6a5f2f9b11"
            (HttpRequest.make "GET" "/api/v1/users" "/api/v1/users?limit=5" "")))
  = "3f0c1a52-7a8e-4a57-9d0b-0d6a5f2f9b11".
Proof.
  exact (proj1 (proj2 (proj2
           (request_id_reaches_problem_body (fun _ => "") (fun _ => "") (fun _ => "")
              (fun _ => None) (fun _ => true) false None
              "x-request-id" (fun _ => Some "") "3f0c1a52-7a8e-4a57-9d0b-0d6a5f2f9b11"
              (HttpRequest.make "GET" "/api/v1/users" "/api/v1/users?limit=5" "")
              (PlainError "boom") "2026-01-01T00:00:00.000Z"
              ltac:(discriminate))))).
Defined.
